(** * Walmart supply-chain agent: fleet state engine, tools and broadcaster

    A shallow embedding of [crew.py] (the route, forecast and dispatch tools
    and the [WalmartSupplyChainCrew] state) and of [server.py] (the connection
    manager, the dispatch endpoint and the telemetry loop), followed by the
    properties of the specification that are stated about them.

    Conventions.
    - Python floats are read as exact rationals ([Q]); no statement below
      depends on rounding errors, on infinities or on NaN.
    - A [Dict] argument whose keys the code looks up one by one is a
      [gmap string pyval]; a dataclass is a record with the dataclass's
      field names, each record in a module of its name.
    - A Python object mutated in place through a reference taken from a list
      is the list updated at the index of that reference.
    - What the program obtains from outside (geopy, number formatting, the
      clock, the random generator, the outcome of a websocket send, the
      answer of the LLM crew) is an argument of the embedded function. *)

From Stdlib Require Import QArith Qround Qabs Lia Lqa.
From stdpp Require Import gmap strings list pretty.

Open Scope Q_scope.

(** ** Python values and built-ins *)

Inductive pyval :=
  | PNum (q : Q)
  | PStr (s : string).

Abbreviation dict := (gmap string pyval).

(** The external runtime: [geodesic(a, b).miles] of geopy ([inl msg] when it
    raises), [str()] of a number inside an f-string, and the [.1f] format. *)
Class Runtime := {
  geodesic_miles : pyval * pyval -> pyval * pyval -> string + Q;
  str_num : Q -> string;
  fmt_1f : Q -> string
}.

(** What a [try: ... except Exception as e: ... str(e)] block can catch in the
    embedded code, with its [str(e)]. *)
Inductive exn :=
  | KeyError (k : string)
  | IndexError
  | LibraryError (msg : string).

Definition str_exn (e : exn) : string :=
  match e with
  | KeyError k => "'" +:+ k +:+ "'"
  | IndexError => "list index out of range"
  | LibraryError msg => msg
  end.

Definition ebind {A B} (m : exn + A) (k : A -> exn + B) : exn + B :=
  match m with
  | inl e => inl e
  | inr a => k a
  end.

Notation "'do' x <- m ; k" := (ebind m (fun x => k))
  (at level 10, x name, m at level 100, k at level 200).

(** [d[k]] *)
Definition getitem (d : dict) (k : string) : exn + pyval :=
  match d !! k with
  | Some v => inr v
  | None => inl (KeyError k)
  end.

(** [a < b] on numbers. *)
Definition py_lt (a b : Q) : bool :=
  match Qcompare a b with
  | Lt => true
  | _ => false
  end.

(** [max(a, b)]: the first argument unless the second is greater. *)
Definition py_max (a b : Q) : Q := if py_lt a b then b else a.

(** [min(a, b)]: the first argument unless the second is smaller. *)
Definition py_min (a b : Q) : Q := if py_lt b a then b else a.

(** [int(x)] on a float: truncation towards zero. *)
Definition py_int (x : Q) : Z := Z.quot (Qnum x) (Zpos (Qden x)).

(** [x % 1] on a float. *)
Definition py_mod1 (x : Q) : Q := x - inject_Z (Qfloor x).

(** [round(x)] with one argument: to the nearest integer, halves to the even
    neighbour. *)
Definition py_round (x : Q) : Z :=
  let f := Qfloor x in
  match Qcompare (x - inject_Z f) (1 # 2) with
  | Lt => f
  | Gt => (f + 1)%Z
  | Eq => if Z.even f then f else (f + 1)%Z
  end.

Definition py_str `{Runtime} (v : pyval) : string :=
  match v with
  | PStr s => s
  | PNum q => str_num q
  end.

(** ** Data model ([crew.py], the dataclasses) *)

Module RouteWaypoint.
Record t := mk {
  lat : pyval;
  lng : pyval;
  type : string;
  name : pyval;
  action : string
}.
End RouteWaypoint.

Module OptimizedRoute.
Record t := mk {
  id : string;
  name : string;
  waypoints : list RouteWaypoint.t;
  distance : Q;
  estimated_time : string;
  efficiency : Q;
  priority : string;
  truck_id : option string
}.
End OptimizedRoute.

Module Warehouse.
Record t := mk {
  id : Z;
  name : string;
  lat : Q;
  lng : Q;
  type : string;
  inventory : gmap string Z;
  capacity : Z
}.
End Warehouse.

Module Truck.
Record t := mk {
  id : string;
  driver : string;
  capacity : Z;
  current_load : Z;
  lat : Q;
  lng : Q;
  status : string;
  route : list RouteWaypoint.t;
  efficiency : Q;
  fuel_saved : Q;
  co2_reduced : Q;
  completed_stops : Z;
  total_stops : Z
}.

(** [truck.status = s] *)
Definition set_status (s : string) (x : t) : t :=
  mk (id x) (driver x) (capacity x) (current_load x) (lat x) (lng x) s
     (route x) (efficiency x) (fuel_saved x) (co2_reduced x)
     (completed_stops x) (total_stops x).

(** [truck['route'] = r; truck['total_stops'] = n] *)
Definition set_route (r : list RouteWaypoint.t) (n : Z) (x : t) : t :=
  mk (id x) (driver x) (capacity x) (current_load x) (lat x) (lng x)
     (status x) r (efficiency x) (fuel_saved x) (co2_reduced x)
     (completed_stops x) n.

(** The four [+=] of one telemetry step. *)
Definition drift (dlat dlng dfuel dco2 : Q) (x : t) : t :=
  mk (id x) (driver x) (capacity x) (current_load x)
     (lat x + dlat) (lng x + dlng) (status x) (route x) (efficiency x)
     (fuel_saved x + dfuel) (co2_reduced x + dco2)
     (completed_stops x) (total_stops x).
End Truck.

Definition is_idle (x : Truck.t) : bool := String.eqb (Truck.status x) "idle".
Definition is_en_route (x : Truck.t) : bool := String.eqb (Truck.status x) "en-route".

(** ** [RouteOptimizationTool] *)

Module RouteOptimizationTool.
Section Tool.
Context `{Runtime}.

Inductive result :=
| Success (route : OptimizedRoute.t) (recommendations : list string)
| Failure (error : string).

(** First loop: one pickup waypoint appended per warehouse. *)
Fixpoint add_pickups (warehouses : list dict)
  (route_waypoints : list RouteWaypoint.t) : exn + list RouteWaypoint.t :=
match warehouses with
| [] => inr route_waypoints
| warehouse :: rest =>
    do lat <- getitem warehouse "lat";
    do lng <- getitem warehouse "lng";
    do name <- getitem warehouse "name";
    add_pickups rest
      (route_waypoints ++
         [RouteWaypoint.mk lat lng "pickup" name
            ("Pickup inventory from " +:+ py_str name)])
end.

(** [delivery.get('quantity', 'items')] *)
Definition quantity_of (delivery : dict) : pyval :=
default (PStr "items") (delivery !! "quantity").

(** Second loop: one delivery waypoint appended per request. *)
Fixpoint add_deliveries (deliveries : list dict)
  (route_waypoints : list RouteWaypoint.t) : exn + list RouteWaypoint.t :=
match deliveries with
| [] => inr route_waypoints
| delivery :: rest =>
    do lat <- getitem delivery "lat";
    do lng <- getitem delivery "lng";
    do name <- getitem delivery "name";
    add_deliveries rest
      (route_waypoints ++
         [RouteWaypoint.mk lat lng "delivery" name
            ("Deliver " +:+ py_str (quantity_of delivery) +:+ " to "
               +:+ py_str name)])
end.

Definition geodesic (curr next_wp : RouteWaypoint.t) : exn + Q :=
match geodesic_miles (RouteWaypoint.lat curr, RouteWaypoint.lng curr)
                     (RouteWaypoint.lat next_wp, RouteWaypoint.lng next_wp) with
| inl msg => inl (LibraryError msg)
| inr miles => inr miles
end.

(** [for i in range(n): ...] of the distance loop, started at index [i]. *)
Fixpoint distance_loop (n i : nat) (route_waypoints : list RouteWaypoint.t)
  (total_distance : Q) : exn + Q :=
match n with
| O => inr total_distance
| S n' =>
    match route_waypoints !! i, route_waypoints !! S i with
    | Some curr, Some next_wp =>
        do distance <- geodesic curr next_wp;
        distance_loop n' (S i) route_waypoints (total_distance + distance)
    | _, _ => inl IndexError
    end
end.

(** [max(85, min(99, 100 - (total_distance / 10)))] *)
Definition efficiency_score (total_distance : Q) : Q :=
py_max 85 (py_min 99 (100 - total_distance / 10)).

Definition estimated_time_of (total_distance : Q) : string :=
let estimated_hours := total_distance / 45 in
pretty (py_int estimated_hours) +:+ "h "
  +:+ pretty (py_int (py_mod1 estimated_hours * 60)) +:+ "m".

(** The body of the [try] block; [now] is the reading of [time.time()]. *)
Definition plan (now : Q) (warehouses deliveries : list dict)
  : exn + (OptimizedRoute.t * list string) :=
do wps1 <- add_pickups warehouses [];
do route_waypoints <- add_deliveries deliveries wps1;
do total_distance <-
   distance_loop (length route_waypoints - 1) 0 route_waypoints 0;
let efficiency := efficiency_score total_distance in
let stops := pretty (length route_waypoints) in
inr (OptimizedRoute.mk
       ("route_" +:+ pretty (py_int now))
       ("Optimized Route - " +:+ stops +:+ " stops")
       route_waypoints
       total_distance
       (estimated_time_of total_distance)
       efficiency
       (if (3 <? length deliveries)%nat then "high" else "medium")
       None,
     [ "Route optimized for " +:+ stops +:+ " stops";
       "Estimated fuel savings: " +:+ str_num (efficiency - 85) +:+ "%";
       "Total distance: " +:+ fmt_1f total_distance +:+ " miles" ]).

Definition _run (now : Q) (warehouses deliveries : list dict)
  (truck_capacity : Z) : result :=
match plan now warehouses deliveries with
| inr (route, recommendations) => Success route recommendations
| inl e => Failure (str_exn e)
end.
End Tool.
End RouteOptimizationTool.

(** ** [DemandForecastingTool] *)

Module DemandForecastingTool.
Record forecast := mk_forecast {
  predicted_demand : Z;
  confidence : Q;
  trend : string
}.

Record result := mk_result {
  success : bool;
  region : string;
  time_horizon_days : Z;
  forecasts : gmap string forecast;
  total_predicted_demand : Z
}.

(** [sum(l)] *)
Definition py_sum (l : list Z) : Z := fold_left Z.add l 0%Z.

(** [history[-k]] for [1 <= k <= len(history)]; every use below is under a
    guard that keeps the index in range, so the default is never taken. *)
Definition from_end (history : list Z) (k : nat) : Z :=
  default 0%Z (history !! (length history - k)%nat).

(** The body of the loop over [historical_data.items()]. *)
Definition forecast_one (history : list Z) : forecast :=
  if (3 <=? length history)%nat then
    let recent_avg := inject_Z (py_sum (drop (length history - 3) history)) / 3 in
    let trend :=
      if (3 <=? length history)%nat
      then inject_Z (from_end history 1 - from_end history 3) / 2
      else 0 in
    let forecast := py_max 0 (recent_avg + trend) in
    mk_forecast (py_round forecast) 0.85
      (if py_lt 0 trend then "increasing"
       else if py_lt trend 0 then "decreasing" else "stable")
  else
    mk_forecast
      (match history with [] => 0%Z | _ => from_end history 1 end)
      0.5 "insufficient_data".

Definition _run (historical_data : gmap string (list Z)) (region : string)
    (time_horizon : Z) : result :=
  let forecasts := forecast_one <$> historical_data in
  mk_result true region time_horizon forecasts
    (map_fold (fun _ f acc => (acc + predicted_demand f)%Z) 0%Z forecasts).
End DemandForecastingTool.

(** ** [TruckDispatchTool] *)

Module TruckDispatchTool.
Inductive result :=
  | Success (dispatched_truck driver route_name estimated_completion : string)
            (efficiency_rating : Q)
  | Failure (error recommendation : string).

(** [max(first :: rest, key=key)]: the running best is replaced only by a
    strictly greater key. *)
Definition py_max_by {A} (key : A -> Q) (first : A) (rest : list A) : A :=
  fold_left (fun best x => if py_lt (key best) (key x) then x else best)
            rest first.

(** [[t for t in trucks if t.get('status') == 'idle']], each kept element
    with its position in [trucks] (counted from [n]): the comprehension
    keeps references to the elements of [trucks], so that the later
    assignments reach the list the caller passed. *)
Fixpoint idle_from (n : nat) (trucks : list Truck.t) : list (nat * Truck.t) :=
  match trucks with
  | [] => []
  | t :: rest =>
      if is_idle t then (n, t) :: idle_from (S n) rest
      else idle_from (S n) rest
  end.

Definition available_trucks (trucks : list Truck.t) : list (nat * Truck.t) :=
  idle_from 0 trucks.

Definition _run (trucks : list Truck.t) (route : OptimizedRoute.t)
    (priority : string) : list Truck.t * result :=
  match available_trucks trucks with
  | [] =>
      (trucks,
       Failure "No available trucks for dispatch"
               "Wait for trucks to complete current routes")
  | first :: rest =>
      let '(i, best_truck) :=
        py_max_by (fun p => Truck.efficiency (snd p)) first rest in
      let waypoints := OptimizedRoute.waypoints route in
      let best_truck :=
        Truck.set_route waypoints (Z.of_nat (length waypoints))
          (Truck.set_status "en-route" best_truck) in
      (<[i := best_truck]> trucks,
       Success (Truck.id best_truck) (Truck.driver best_truck)
               (OptimizedRoute.name route)
               (OptimizedRoute.estimated_time route)
               (Truck.efficiency best_truck))
  end.
End TruckDispatchTool.

(** ** [WalmartSupplyChainCrew] *)

Module PerformanceMetrics.
Record t := mk {
  total_distance_saved : Q;
  fuel_saved : Q;
  co2_reduced : Q;
  efficiency_score : Q;
  active_routes : Z
}.
End PerformanceMetrics.

Module WalmartSupplyChainCrew.
Record t := mk {
  warehouses : list Warehouse.t;
  trucks : list Truck.t;
  demand_history : gmap string (gmap string (list Z));
  performance_metrics : PerformanceMetrics.t
}.

Definition stock (cereal milk juice bread : Z) : gmap string Z :=
  <["cereal" := cereal]> (<["milk" := milk]> (<["juice" := juice]>
    (<["bread" := bread]> ∅))).

Definition _initialize_warehouses : list Warehouse.t :=
  [ Warehouse.mk 1 "Dallas DC" 32.7767 (-96.7970) "main"
      (stock 1250 890 650 420) 2000;
    Warehouse.mk 2 "Houston DC" 29.7604 (-95.3698) "main"
      (stock 890 1100 300 380) 2000;
    Warehouse.mk 3 "Austin DC" 30.2672 (-97.7431) "main"
      (stock 650 480 720 290) 1500;
    Warehouse.mk 4 "Fort Worth Hub" 32.7555 (-97.3308) "pickup"
      (stock 320 240 180 150) 800;
    Warehouse.mk 5 "San Antonio Hub" 29.4241 (-98.4936) "delivery"
      (stock 180 160 140 120) 600 ].

Definition _initialize_trucks : list Truck.t :=
  [ Truck.mk "T001" "John Smith" 100 0 32.7767 (-96.7970) "idle" [] 98.5 0 0 0 0;
    Truck.mk "T002" "Sarah Johnson" 120 0 29.7604 (-95.3698) "idle" [] 97.2 0 0 0 0;
    Truck.mk "T003" "Mike Wilson" 110 0 30.2672 (-97.7431) "idle" [] 96.8 0 0 0 0;
    Truck.mk "T004" "Lisa Brown" 95 0 32.7555 (-97.3308) "idle" [] 98.0 0 0 0 0 ].

Section DemandHistory.
Local Open Scope Z_scope.

Definition products (cereal milk juice bread : list Z) : gmap string (list Z) :=
  <["cereal" := cereal]> (<["milk" := milk]> (<["juice" := juice]>
    (<["bread" := bread]> ∅))).

Definition _initialize_demand_history : gmap string (gmap string (list Z)) :=
  <["Dallas" := products [120; 140; 160; 180; 200] [200; 220; 240; 260; 280]
                         [80; 90; 100; 110; 120] [150; 160; 170; 180; 190]]>
  (<["Houston" := products [100; 110; 120; 130; 140] [180; 190; 200; 210; 220]
                           [70; 75; 80; 85; 90] [140; 145; 150; 155; 160]]>
  (<["Austin" := products [80; 85; 90; 95; 100] [120; 125; 130; 135; 140]
                          [90; 95; 100; 105; 110] [100; 105; 110; 115; 120]]>
   ∅)).
End DemandHistory.

Definition __init__ : t :=
  mk _initialize_warehouses _initialize_trucks _initialize_demand_history
     (PerformanceMetrics.mk 0 0 0 0 0).

Inductive optimize_result :=
  | Optimized (optimization_result : string)
  | NotOptimized (error : string)
  | CrewRaised.

(** [optimize_route]. [crew_result] is what [temp_crew.kickoff()] gives:
    the text of the agents, or [None] when the call raises. The agents work
    on the text of the task description; the tools they may call receive
    values rebuilt from that text, never the [Truck] objects of [self]. *)
Definition optimize_route (self : t) (origin_warehouse_id : Z)
    (destination_requests : list dict) (crew_result : option string)
    : t * optimize_result :=
  match List.find (fun w => (Warehouse.id w =? origin_warehouse_id)%Z)
                  (warehouses self) with
  | None => (self, NotOptimized "Origin warehouse not found")
  | Some origin_warehouse =>
      match crew_result with
      | None => (self, CrewRaised)
      | Some result =>
          let m := performance_metrics self in
          let m' :=
            PerformanceMetrics.mk
              (PerformanceMetrics.total_distance_saved m)
              (PerformanceMetrics.fuel_saved m)
              (PerformanceMetrics.co2_reduced m)
              (py_min 99 (PerformanceMetrics.efficiency_score m + 0.5))
              (PerformanceMetrics.active_routes m + 1) in
          (mk (warehouses self) (trucks self) (demand_history self) m',
           Optimized result)
      end
  end.
End WalmartSupplyChainCrew.

(** ** [server.py]: connection manager *)

(** A websocket is known by its identity only. *)
Definition WebSocket := nat.

Module TruckUpdate.
(** One entry of the ["trucks"] list of a [real_time_update] message. *)
Record t := mk {
  id : string;
  lat : Q;
  lng : Q;
  status : string;
  fuel_saved : Q;
  co2_reduced : Q
}.
End TruckUpdate.

(** The messages handed to [manager.broadcast], before [json.dumps]. *)
Inductive Message :=
  | real_time_update (trucks : list TruckUpdate.t)
                     (performance_metrics : PerformanceMetrics.t)
  | truck_dispatched (truck_id route_id priority driver : string).

Module ConnectionManager.
(** [l.remove(x)] for an [x] that occurs in [l]: the first occurrence goes. *)
Fixpoint remove_first (x : WebSocket) (l : list WebSocket) : list WebSocket :=
  match l with
  | [] => []
  | y :: l' => if Nat.eqb x y then l' else y :: remove_first x l'
  end.

Definition connect (websocket : WebSocket) (active_connections : list WebSocket)
    : list WebSocket :=
  active_connections ++ [websocket].

(** [None] is the [ValueError] of [list.remove]. *)
Definition disconnect (websocket : WebSocket)
    (active_connections : list WebSocket) : option (list WebSocket) :=
  if existsb (Nat.eqb websocket) active_connections
  then Some (remove_first websocket active_connections)
  else None.

Section Broadcast.
Context {M : Type}.
(** [send_fails c]: [c.send_text(message)] raises during this call. *)
Variable send_fails : WebSocket -> bool.
Variable message : M.

(** The [for] loop. Python's list iterator keeps an index [i] into the
    live list and stops when [i] is no longer a valid position, so a
    removal made by the body shifts the elements under the iterator.
    [connection] was just read from the list, so [remove] finds it.
    [sent] collects the successful [send_text] calls in order.  Each
    iteration uses one unit of [fuel]. *)
Fixpoint broadcast_loop (fuel i : nat) (active_connections : list WebSocket)
    (sent : list (WebSocket * M)) : list WebSocket * list (WebSocket * M) :=
  match fuel with
  | O => (active_connections, sent)
  | S fuel' =>
      match active_connections !! i with
      | None => (active_connections, sent)
      | Some connection =>
          if send_fails connection
          then broadcast_loop fuel' (S i)
                 (remove_first connection active_connections) sent
          else broadcast_loop fuel' (S i) active_connections
                 (sent ++ [(connection, message)])
      end
  end.

(** [broadcast]: the loop never makes more iterations than the list has
    elements when it starts ([broadcast_loop_fuel] below). *)
Definition broadcast (active_connections : list WebSocket)
    : list WebSocket * list (WebSocket * M) :=
  broadcast_loop (length active_connections) 0 active_connections [].
End Broadcast.
End ConnectionManager.

(** ** [server.py]: endpoints and telemetry loop *)

Module Server.
Record t := mk {
  supply_chain_system : option WalmartSupplyChainCrew.t;
  active_connections : list WebSocket
}.

Definition initial : t := mk None [].

Definition startup_event (srv : t) : t :=
  mk (Some WalmartSupplyChainCrew.__init__) (active_connections srv).

Definition with_trucks (trucks : list Truck.t) (sys : WalmartSupplyChainCrew.t)
    : WalmartSupplyChainCrew.t :=
  WalmartSupplyChainCrew.mk (WalmartSupplyChainCrew.warehouses sys) trucks
    (WalmartSupplyChainCrew.demand_history sys)
    (WalmartSupplyChainCrew.performance_metrics sys).

(** What the body of the [try] of [dispatch_truck] ends with: the JSON
    answer, or the [HTTPException] it raises (which the handler logs and
    raises again with status 500). *)
Inductive response :=
  | JSONResponse (truck_id status : string)
  | HTTPException (status_code : Z) (detail : string).

Definition dispatch_truck (send_fails : WebSocket -> bool)
    (truck_id route_id priority : string) (srv : t)
    : t * response * list (WebSocket * Message) :=
  match supply_chain_system srv with
  | None => (srv, HTTPException 503 "System not initialized", [])
  | Some sys =>
      let trucks := WalmartSupplyChainCrew.trucks sys in
      match list_find (fun x => Truck.id x = truck_id) trucks with
      | None => (srv, HTTPException 404 "Truck not found", [])
      | Some (i, truck) =>
          if negb (is_idle truck)
          then (srv, HTTPException 400 "Truck is not available", [])
          else
            let truck := Truck.set_status "en-route" truck in
            let sys := with_trucks (<[i := truck]> trucks) sys in
            let '(conns, sent) :=
              ConnectionManager.broadcast send_fails
                (truck_dispatched truck_id route_id priority (Truck.driver truck))
                (active_connections srv) in
            (mk (Some sys) conns, JSONResponse truck_id (Truck.status truck), sent)
      end
  end.

(** The random generator: an unbounded stream of the values of
    [random.random()] and the number of values taken so far. *)
Record Rng := mk_rng {
  stream : nat -> Q;
  position : nat
}.

(** [random.uniform(a, b)], which is [a + (b - a) * random()]. *)
Definition uniform (a b : Q) (rng : Rng) : Q * Rng :=
  (a + (b - a) * stream rng (position rng),
   mk_rng (stream rng) (S (position rng))).

(** The loop over [supply_chain_system.trucks]. *)
Fixpoint update_trucks (trucks : list Truck.t) (rng : Rng)
    : list Truck.t * Rng :=
  match trucks with
  | [] => ([], rng)
  | truck :: rest =>
      if is_en_route truck then
        let '(dlat, rng) := uniform (-0.001) 0.001 rng in
        let '(dlng, rng) := uniform (-0.001) 0.001 rng in
        let '(dfuel, rng) := uniform 0 0.1 rng in
        let '(dco2, rng) := uniform 0 0.3 rng in
        let '(rest, rng) := update_trucks rest rng in
        (Truck.drift dlat dlng dfuel dco2 truck :: rest, rng)
      else
        let '(rest, rng) := update_trucks rest rng in
        (truck :: rest, rng)
  end.

Definition snapshot (x : Truck.t) : TruckUpdate.t :=
  TruckUpdate.mk (Truck.id x) (Truck.lat x) (Truck.lng x) (Truck.status x)
                 (Truck.fuel_saved x) (Truck.co2_reduced x).

Definition set_efficiency_score (v : Q) (m : PerformanceMetrics.t)
    : PerformanceMetrics.t :=
  PerformanceMetrics.mk
    (PerformanceMetrics.total_distance_saved m)
    (PerformanceMetrics.fuel_saved m)
    (PerformanceMetrics.co2_reduced m)
    v
    (PerformanceMetrics.active_routes m).

(** One iteration of the [while True] of [simulate_real_time_updates], up
    to the [sleep]: a telemetry tick. *)
Definition tick (rng : Rng) (send_fails : WebSocket -> bool) (srv : t)
    : t * Rng * list (WebSocket * Message) :=
  match supply_chain_system srv with
  | Some sys =>
      if (0 <? length (active_connections srv))%nat then
        let '(trucks, rng) :=
          update_trucks (WalmartSupplyChainCrew.trucks sys) rng in
        let '(delta, rng) := uniform (-0.5) 0.5 rng in
        let m := WalmartSupplyChainCrew.performance_metrics sys in
        let m :=
          set_efficiency_score
            (py_min 99 (PerformanceMetrics.efficiency_score m + delta)) m in
        let sys :=
          WalmartSupplyChainCrew.mk (WalmartSupplyChainCrew.warehouses sys)
            trucks (WalmartSupplyChainCrew.demand_history sys) m in
        let '(conns, sent) :=
          ConnectionManager.broadcast send_fails
            (real_time_update (map snapshot trucks) m)
            (active_connections srv) in
        (mk (Some sys) conns, rng, sent)
      else (srv, rng, [])
  | None => (srv, rng, [])
  end.

(** The first [iterations] rounds of the loop; [send_fails k] tells which
    sends raise in round [k]. The messages of all rounds are collected. *)
Fixpoint simulate_real_time_updates (iterations : nat) (rng : Rng)
    (send_fails : nat -> WebSocket -> bool) (srv : t)
    : t * Rng * list (WebSocket * Message) :=
  match iterations with
  | O => (srv, rng, [])
  | S n =>
      let '(srv, rng, sent) := simulate_real_time_updates n rng send_fails srv in
      let '(srv, rng, sent') := tick rng (send_fails n) srv in
      (srv, rng, sent ++ sent')
  end.

(** The operations that change the state of the running server, one step
    each. [step_tool_dispatch] is the dispatch tool applied to the fleet of
    the system, with any route. *)
Inductive step : t -> t -> Prop :=
  | step_startup srv :
      step srv (startup_event srv)
  | step_connect websocket srv :
      step srv (mk (supply_chain_system srv)
                   (ConnectionManager.connect websocket (active_connections srv)))
  | step_disconnect websocket srv conns :
      ConnectionManager.disconnect websocket (active_connections srv) = Some conns ->
      step srv (mk (supply_chain_system srv) conns)
  | step_broadcast send_fails (message : Message) srv :
      step srv (mk (supply_chain_system srv)
                   (fst (ConnectionManager.broadcast send_fails message
                           (active_connections srv))))
  | step_optimize_route sys origin_warehouse_id destination_requests crew_result srv :
      supply_chain_system srv = Some sys ->
      step srv (mk (Some (fst (WalmartSupplyChainCrew.optimize_route sys
                                 origin_warehouse_id destination_requests
                                 crew_result)))
                   (active_connections srv))
  | step_dispatch_truck send_fails truck_id route_id priority srv :
      step srv (fst (fst (dispatch_truck send_fails truck_id route_id priority srv)))
  | step_tool_dispatch sys route priority srv :
      supply_chain_system srv = Some sys ->
      step srv (mk (Some (with_trucks
                            (fst (TruckDispatchTool._run
                                    (WalmartSupplyChainCrew.trucks sys) route priority))
                            sys))
                   (active_connections srv))
  | step_tick rng send_fails srv :
      step srv (fst (fst (tick rng send_fails srv))).

Inductive reachable : t -> Prop :=
  | reachable_initial : reachable initial
  | reachable_step srv srv' : reachable srv -> step srv srv' -> reachable srv'.
End Server.

(** ** Vocabulary of the specification *)

(** [clamp(x, lo, hi)] as the specification uses it. *)
Definition clamp (x lo hi : Q) : Q :=
  if py_lt x lo then lo else if py_lt hi x then hi else x.

Section RouteVocabulary.
Context `{Runtime}.

(** The pickup waypoint of a warehouse entry, when the entry has the three
    keys the planner reads. *)
Definition pickup_of (warehouse : dict) : option RouteWaypoint.t :=
  lat ← warehouse !! "lat";
  lng ← warehouse !! "lng";
  name ← warehouse !! "name";
  Some (RouteWaypoint.mk lat lng "pickup" name
          ("Pickup inventory from " +:+ py_str name)).

(** The delivery waypoint of a request. *)
Definition delivery_of (delivery : dict) : option RouteWaypoint.t :=
  lat ← delivery !! "lat";
  lng ← delivery !! "lng";
  name ← delivery !! "name";
  Some (RouteWaypoint.mk lat lng "delivery" name
          ("Deliver " +:+ py_str (RouteOptimizationTool.quantity_of delivery)
             +:+ " to " +:+ py_str name)).

(** Sum of the great-circle distances between consecutive waypoints, in list
    order; [None] when geopy raises on some leg. *)
Fixpoint path_miles (wps : list RouteWaypoint.t) : option Q :=
  match wps with
  | a :: (b :: _) as tl =>
      match geodesic_miles (RouteWaypoint.lat a, RouteWaypoint.lng a)
                           (RouteWaypoint.lat b, RouteWaypoint.lng b) with
      | inr miles => (fun r => miles + r) <$> path_miles tl
      | inl _ => None
      end
  | _ => Some 0
  end.
End RouteVocabulary.

(** [wp] is the waypoint of kind [kind] at the place and under the name that
    [entry] gives. *)
Definition waypoint_for (kind : string) (entry : dict) (wp : RouteWaypoint.t)
    : Prop :=
  entry !! "lat" = Some (RouteWaypoint.lat wp) /\
  entry !! "lng" = Some (RouteWaypoint.lng wp) /\
  entry !! "name" = Some (RouteWaypoint.name wp) /\
  RouteWaypoint.type wp = kind.

(** An entry has the keys that the planner reads with [entry[...]]. *)
Definition has_keys (entry : dict) : Prop :=
  is_Some (entry !! "lat") /\ is_Some (entry !! "lng") /\ is_Some (entry !! "name").

(** "Status is idle exactly when the route is empty", and its direction from
    left to right. *)
Definition idle_has_no_route (x : Truck.t) : Prop :=
  Truck.status x = "idle" -> Truck.route x = [].

Definition status_route_invariant (x : Truck.t) : Prop :=
  Truck.status x = "idle" <-> Truck.route x = [].

(** What a telemetry tick may do to one truck: nothing unless it is en
    route; the two cumulative counters do not go down; status and route stay. *)
Definition tick_frame (x x' : Truck.t) : Prop :=
  (is_en_route x = false -> x' = x) /\
  Truck.fuel_saved x <= Truck.fuel_saved x' /\
  Truck.co2_reduced x <= Truck.co2_reduced x' /\
  Truck.status x' = Truck.status x /\
  Truck.route x' = Truck.route x.

(** The truck that a dispatch leaves behind. *)
Definition dispatched (route : OptimizedRoute.t) (x : Truck.t) : Truck.t :=
  Truck.set_route (OptimizedRoute.waypoints route)
    (Z.of_nat (length (OptimizedRoute.waypoints route)))
    (Truck.set_status "en-route" x).

(** The score is within its cap. *)
Definition score_capped (sys : WalmartSupplyChainCrew.t) : Prop :=
  PerformanceMetrics.efficiency_score
    (WalmartSupplyChainCrew.performance_metrics sys) <= 99.

(** The two facts that every operation keeps. *)
Definition system_ok (sys : WalmartSupplyChainCrew.t) : Prop :=
  score_capped sys /\
  Forall idle_has_no_route (WalmartSupplyChainCrew.trucks sys).

(** ** A runtime for the worked examples

    Distances on a flat grid at 70 miles per degree of latitude or longitude,
    numbers printed as a fraction. *)

Definition grid_miles (a b : pyval * pyval) : string + Q :=
  match a, b with
  | (PNum x1, PNum y1), (PNum x2, PNum y2) =>
      inr (70 * (Qabs (x1 - x2) + Qabs (y1 - y2)))
  | _, _ => inl "coordinates must be numbers"
  end.

Definition show_fraction (q : Q) : string :=
  pretty (Qnum q) +:+ "/" +:+ pretty (Zpos (Qden q)).

Definition grid_runtime : Runtime :=
  {| geodesic_miles := grid_miles; str_num := show_fraction; fmt_1f := show_fraction |}.

Definition stop (name : string) (lat lng : Q) : dict :=
  <["name" := PStr name]> (<["lat" := PNum lat]> (<["lng" := PNum lng]> ∅)).

(** ** [InventoryAnalysisTool] *)

Module WarehouseDict.
(** A warehouse as the inventory tool receives it: the keys that the tool
    reads, [None] for an absent key, the inventory in the order in which
    [items()] gives it. *)
Record t := mk {
  id : option Z;
  name : option string;
  inventory : option (list (string * Z))
}.
End WarehouseDict.

Module WarehouseAnalysis.
(** One entry of ["warehouse_analysis"]; the key ["low_stock_items"] is only
    set for a warehouse that needs restocking. *)
Record t := mk {
  warehouse_id : Z;
  name : string;
  current_stock : list (string * Z);
  status : string;
  low_stock_items : option (list string)
}.
End WarehouseAnalysis.

Module RestockRecommendation.
Record t := mk {
  warehouse : string;
  product : string;
  current_stock : Z;
  recommended_restock : Z;
  priority : string
}.
End RestockRecommendation.

Module InventoryAnalysisTool.
Inductive result :=
  | Success (warehouse_analysis : list WarehouseAnalysis.t)
            (restock_recommendations : list RestockRecommendation.t)
            (total_warehouses_analyzed warehouses_needing_restock : nat)
  | Failure (error : string).

(** The loop over [inventory.items()] of one warehouse. *)
Fixpoint scan_inventory (warehouse_name : string) (items : list (string * Z))
    (low_stock_items : list string)
    (restock_recommendations : list RestockRecommendation.t)
    : list string * list RestockRecommendation.t :=
  match items with
  | [] => (low_stock_items, restock_recommendations)
  | (product, quantity) :: rest =>
      if (quantity <? 50)%Z then
        scan_inventory warehouse_name rest
          (low_stock_items ++ [product])
          (restock_recommendations ++
             [RestockRecommendation.mk warehouse_name product quantity 200
                (if (quantity <? 20)%Z then "high" else "medium")])
      else
        scan_inventory warehouse_name rest low_stock_items restock_recommendations
  end.

(** The loop over the warehouses. *)
Fixpoint analyze (warehouses : list WarehouseDict.t)
    (analysis_results : list WarehouseAnalysis.t)
    (restock_recommendations : list RestockRecommendation.t)
    : exn + (list WarehouseAnalysis.t * list RestockRecommendation.t) :=
  match warehouses with
  | [] => inr (analysis_results, restock_recommendations)
  | warehouse :: rest =>
      let inventory := default [] (WarehouseDict.inventory warehouse) in
      match WarehouseDict.id warehouse with
      | None => inl (KeyError "id")
      | Some warehouse_id =>
          match WarehouseDict.name warehouse with
          | None => inl (KeyError "name")
          | Some name =>
              let '(low_stock_items, restock_recommendations) :=
                scan_inventory name inventory [] restock_recommendations in
              let warehouse_analysis :=
                match low_stock_items with
                | [] =>
                    WarehouseAnalysis.mk warehouse_id name inventory "normal" None
                | _ :: _ =>
                    WarehouseAnalysis.mk warehouse_id name inventory
                      "needs_restock" (Some low_stock_items)
                end in
              analyze rest (analysis_results ++ [warehouse_analysis])
                restock_recommendations
          end
      end
  end.

Definition _run (warehouses : list WarehouseDict.t)
    (demand_history : gmap string (gmap string (list Z))) : result :=
  match analyze warehouses [] [] with
  | inr (analysis_results, restock_recommendations) =>
      Success analysis_results restock_recommendations (length warehouses)
        (length (List.filter
                   (fun w => String.eqb (WarehouseAnalysis.status w) "needs_restock")
                   analysis_results))
  | inl e => Failure (str_exn e)
  end.
End InventoryAnalysisTool.

(** ** [server.py]: the metrics endpoint *)

Module MetricsEndpoint.
Record metrics := mk {
  total_distance : Q;
  fuel_saved : Q;
  co2_reduced : Q;
  efficiency : Q;
  active_routes : nat;
  total_inventory : Z;
  warehouse_utilization : Q;
  fleet_utilization : Q
}.

(** What the [try] block raises; the handler turns either into an
    [HTTPException] of status 500. *)
Inductive cause :=
  | NotInitialized
  | ZeroDivisionError.

Inductive response :=
  | JSONResponse (content : metrics)
  | HTTPException (status_code : Z) (raised : cause).

(** [sum(w.inventory.values())] *)
Definition stock_of (w : Warehouse.t) : Z :=
  map_fold (fun _ quantity acc => (acc + quantity)%Z) 0%Z (Warehouse.inventory w).

(** [sum(...)] over integers and over floats, from the left, starting at 0. *)
Definition sum_Z (l : list Z) : Z := fold_left Z.add l 0%Z.
Definition sum_Q (l : list Q) : Q := fold_left Qplus l 0.

(** [[t for t in trucks if t.status != 'idle']] *)
Definition active (trucks : list Truck.t) : list Truck.t :=
  List.filter (fun x => negb (is_idle x)) trucks.

(** [get_performance_metrics]; [round1] is [round(x, 1)] on floats. *)
Definition get_performance_metrics (round1 : Q -> Q) (srv : Server.t) : response :=
  match Server.supply_chain_system srv with
  | None => HTTPException 500 NotInitialized
  | Some sys =>
      let warehouses := WalmartSupplyChainCrew.warehouses sys in
      let trucks := WalmartSupplyChainCrew.trucks sys in
      let total_inventory := sum_Z (map stock_of warehouses) in
      let active_trucks := length (active trucks) in
      let total_fuel_saved := sum_Q (map Truck.fuel_saved trucks) in
      let total_co2_reduced := sum_Q (map Truck.co2_reduced trucks) in
      if (length trucks =? 0)%nat then HTTPException 500 ZeroDivisionError
      else
        let avg_efficiency :=
          sum_Q (map Truck.efficiency trucks) / inject_Z (Z.of_nat (length trucks)) in
        let capacity := sum_Z (map Warehouse.capacity warehouses) in
        if (capacity =? 0)%Z then HTTPException 500 ZeroDivisionError
        else
          JSONResponse
            (mk (PerformanceMetrics.total_distance_saved
                   (WalmartSupplyChainCrew.performance_metrics sys))
                total_fuel_saved
                total_co2_reduced
                (round1 avg_efficiency)
                active_trucks
                total_inventory
                (round1 (inject_Z total_inventory / inject_Z capacity * 100))
                (round1 (inject_Z (Z.of_nat active_trucks)
                           / inject_Z (Z.of_nat (length trucks)) * 100)))
  end.
End MetricsEndpoint.

(** How far one telemetry step may take a truck, and what it leaves alone. *)
Definition bounded_drift (x x' : Truck.t) : Prop :=
  Truck.lat x - 0.001 <= Truck.lat x' <= Truck.lat x + 0.001 /\
  Truck.lng x - 0.001 <= Truck.lng x' <= Truck.lng x + 0.001 /\
  Truck.fuel_saved x <= Truck.fuel_saved x' <= Truck.fuel_saved x + 0.1 /\
  Truck.co2_reduced x <= Truck.co2_reduced x' <= Truck.co2_reduced x + 0.3 /\
  Truck.id x' = Truck.id x /\
  Truck.driver x' = Truck.driver x /\
  Truck.capacity x' = Truck.capacity x /\
  Truck.current_load x' = Truck.current_load x /\
  Truck.status x' = Truck.status x /\
  Truck.route x' = Truck.route x /\
  Truck.efficiency x' = Truck.efficiency x /\
  Truck.completed_stops x' = Truck.completed_stops x /\
  Truck.total_stops x' = Truck.total_stops x.

(** The number of trucks that are en route. *)
Definition en_route_count (trucks : list Truck.t) : nat :=
  length (List.filter is_en_route trucks).

(** What identifies a truck, together with the two fields that no operation
    of the program writes. *)
Definition identity_of (x : Truck.t) : string * string * Z * Q * Z * Z :=
  (Truck.id x, Truck.driver x, Truck.capacity x, Truck.efficiency x,
   Truck.current_load x, Truck.completed_stops x).

(** The entries of an inventory that are below the low-stock threshold, in
    the order of the inventory. *)
Definition low_stock (items : list (string * Z)) : list (string * Z) :=
  List.filter (fun item => (snd item <? 50)%Z) items.

(** The stock that the inventory tool sees in a warehouse entry. *)
Definition stock_seen (w : WarehouseDict.t) : list (string * Z) :=
  default [] (WarehouseDict.inventory w).

(** An entry has the two keys that the inventory tool reads with
    [warehouse[...]]. *)
Definition has_id_and_name (w : WarehouseDict.t) : Prop :=
  is_Some (WarehouseDict.id w) /\ is_Some (WarehouseDict.name w).

(** Two entries agree on the four keys that the route planner looks at. *)
Definition same_stop (entry entry' : dict) : Prop :=
  entry !! "lat" = entry' !! "lat" /\
  entry !! "lng" = entry' !! "lng" /\
  entry !! "name" = entry' !! "name" /\
  entry !! "quantity" = entry' !! "quantity".

(** The figures that the metrics endpoint answers with for a system whose
    fleet is not empty and whose warehouses have some capacity. *)
Definition dashboard (round1 : Q -> Q) (sys : WalmartSupplyChainCrew.t)
    : MetricsEndpoint.metrics :=
  let warehouses := WalmartSupplyChainCrew.warehouses sys in
  let trucks := WalmartSupplyChainCrew.trucks sys in
  let total_inventory := MetricsEndpoint.sum_Z (map MetricsEndpoint.stock_of warehouses) in
  let active_trucks := length (MetricsEndpoint.active trucks) in
  MetricsEndpoint.mk
    (PerformanceMetrics.total_distance_saved
       (WalmartSupplyChainCrew.performance_metrics sys))
    (MetricsEndpoint.sum_Q (map Truck.fuel_saved trucks))
    (MetricsEndpoint.sum_Q (map Truck.co2_reduced trucks))
    (round1 (MetricsEndpoint.sum_Q (map Truck.efficiency trucks)
             / inject_Z (Z.of_nat (length trucks))))
    active_trucks
    total_inventory
    (round1 (inject_Z total_inventory
             / inject_Z (MetricsEndpoint.sum_Z (map Warehouse.capacity warehouses))
             * 100))
    (round1 (inject_Z (Z.of_nat active_trucks)
             / inject_Z (Z.of_nat (length trucks)) * 100)).

(** * Properties *)

(** ** Comparisons, [min], [max], [round] *)

Lemma py_lt_true a b : py_lt a b = true <-> a < b.
Proof.
  unfold py_lt. rewrite Qlt_alt. destruct (Qcompare a b); intuition congruence.
Qed.

Lemma py_lt_false a b : py_lt a b = false <-> b <= a.
Proof.
  rewrite <- not_true_iff_false, py_lt_true. split.
  - apply Qnot_lt_le.
  - intros Hle Hlt. exact (Qle_not_lt _ _ Hle Hlt).
Qed.

Ltac case_py_lt :=
  match goal with
  | |- context [py_lt ?a ?b] =>
      let E := fresh "E" in
      destruct (py_lt a b) eqn:E;
      [apply py_lt_true in E | apply py_lt_false in E]
  end.

Lemma py_min_spec a b : py_min a b <= a /\ py_min a b <= b.
Proof. unfold py_min. case_py_lt; split; lra. Qed.




Lemma py_round_Z z : py_round (inject_Z z) = z.
Proof.
  unfold py_round. rewrite Qfloor_Z.
  destruct (Qcompare_spec (inject_Z z - inject_Z z) (1 # 2)) as [E|E|E];
    [exfalso; lra | reflexivity | exfalso; lra].
Qed.

(** [round] gives a nearest integer. *)
Lemma py_round_nearest x :
  - (1 # 2) <= x - inject_Z (py_round x) <= 1 # 2.
Proof.
  unfold py_round.
  pose proof (Qfloor_le x) as Hlo. pose proof (Qlt_floor x) as Hhi.
  rewrite inject_Z_plus in Hhi. change (inject_Z 1) with 1 in Hhi.
  destruct (Qcompare_spec (x - inject_Z (Qfloor x)) (1 # 2)) as [E|E|E].
  - destruct (Z.even (Qfloor x)); rewrite ?inject_Z_plus;
      change (inject_Z 1) with 1; lra.
  - lra.
  - rewrite inject_Z_plus. change (inject_Z 1) with 1. lra.
Qed.

(** ** Route planner: efficiency band *)

Lemma efficiency_score_clamp d :
  RouteOptimizationTool.efficiency_score d == clamp (100 - d / 10) 85 99.
Proof.
  unfold RouteOptimizationTool.efficiency_score.
  generalize (100 - d / 10). intros x.
  unfold py_min; case_py_lt; unfold py_max; case_py_lt;
    unfold clamp; repeat case_py_lt; lra.
Qed.

Lemma efficiency_score_band d :
  85 <= RouteOptimizationTool.efficiency_score d <= 99.
Proof.
  unfold RouteOptimizationTool.efficiency_score.
  generalize (100 - d / 10). intros x.
  unfold py_min; case_py_lt; unfold py_max; case_py_lt; lra.
Qed.

Lemma efficiency_score_top d :
  d <= 10 -> RouteOptimizationTool.efficiency_score d = 99.
Proof.
  intros Hd. unfold RouteOptimizationTool.efficiency_score.
  assert (d / 10 <= 1) as Hq by (apply Qle_shift_div_r; lra).
  revert Hq. generalize (d / 10). intros q Hq.
  unfold py_min; case_py_lt; unfold py_max; case_py_lt;
    try reflexivity; exfalso; lra.
Qed.

Lemma efficiency_score_bottom d :
  150 <= d -> RouteOptimizationTool.efficiency_score d = 85.
Proof.
  intros Hd. unfold RouteOptimizationTool.efficiency_score.
  assert (15 <= d / 10) as Hq by (apply Qle_shift_div_l; lra).
  revert Hq. generalize (d / 10). intros q Hq.
  unfold py_min; case_py_lt; unfold py_max; case_py_lt;
    try reflexivity; exfalso; lra.
Qed.

Section PlannerFacts.
Context `{Runtime}.

Lemma run_success now warehouses deliveries truck_capacity route recs :
  RouteOptimizationTool._run now warehouses deliveries truck_capacity
    = RouteOptimizationTool.Success route recs
  <-> RouteOptimizationTool.plan now warehouses deliveries = inr (route, recs).
Proof.
  unfold RouteOptimizationTool._run.
  destruct (RouteOptimizationTool.plan now warehouses deliveries) as [e|[r l]].
  - split; discriminate.
  - split; intros E; inversion E; reflexivity.
Qed.

Lemma plan_efficiency now warehouses deliveries route recs :
  RouteOptimizationTool.plan now warehouses deliveries = inr (route, recs) ->
  OptimizedRoute.efficiency route
    = RouteOptimizationTool.efficiency_score (OptimizedRoute.distance route).
Proof.
  unfold RouteOptimizationTool.plan, ebind. intros E.
  repeat match type of E with
         | match ?x with _ => _ end = _ => destruct x; try discriminate
         end.
  inversion E; subst. reflexivity.
Qed.
End PlannerFacts.

(** C3, as the code has it: the efficiency of every planned route is
    [clamp(100 - d/10, 85, 99)] of its total distance [d], so it lies in
    [[85, 99]]; it is 99 for every [d <= 10] (in particular for [d = 0]) and
    85 for every [d >= 150]. *)
Theorem route_efficiency_is_clamped `{Runtime} now warehouses deliveries
    truck_capacity route recs :
  RouteOptimizationTool._run now warehouses deliveries truck_capacity
    = RouteOptimizationTool.Success route recs ->
  OptimizedRoute.efficiency route
    == clamp (100 - OptimizedRoute.distance route / 10) 85 99 /\
  85 <= OptimizedRoute.efficiency route <= 99 /\
  (OptimizedRoute.distance route == 0 -> OptimizedRoute.efficiency route = 99) /\
  (OptimizedRoute.distance route <= 10 -> OptimizedRoute.efficiency route = 99) /\
  (150 <= OptimizedRoute.distance route -> OptimizedRoute.efficiency route = 85).
Proof.
  intros E. apply run_success, plan_efficiency in E. rewrite E.
  split; [apply efficiency_score_clamp|].
  split; [apply efficiency_score_band|].
  split; [intros Hd; apply efficiency_score_top; lra|].
  split; [apply efficiency_score_top | apply efficiency_score_bottom].
Qed.

Lemma route_efficiency_is_clamped_witness :
  exists route recs,
    @RouteOptimizationTool._run grid_runtime 0
       [stop "Dallas DC" 0 0] [stop "Plano Store" 2 0] 100
      = RouteOptimizationTool.Success route recs /\
    OptimizedRoute.distance route == 140 /\
    OptimizedRoute.efficiency route
      == clamp (100 - OptimizedRoute.distance route / 10) 85 99.
Proof.
  eexists. eexists. split; [vm_compute; reflexivity|].
  split; [vm_compute; reflexivity|].
  exact (proj1 (@route_efficiency_is_clamped grid_runtime 0
                  [stop "Dallas DC" 0 0] [stop "Plano Store" 2 0] 100
                  _ _ eq_refl)).
Defined.

(** A route of exactly 140 miles scores 86, not 85. *)
Lemma efficiency_at_140_miles :
  140 <= 140 /\
  RouteOptimizationTool.efficiency_score 140 == 86 /\
  ~ RouteOptimizationTool.efficiency_score 140 == 85.
Proof.
  split; [lra|]. split; vm_compute; [reflexivity | discriminate].
Qed.

(** ** Demand forecaster *)

Import DemandForecastingTool.

Lemma last_three (history : list Z) :
  (3 <= length history)%nat ->
  exists pre a b c, history = pre ++ [a; b; c].
Proof.
  intros Hlen.
  destruct (rev history) as [|c [|b [|a rpre]]] eqn:E;
    try (apply (f_equal (@length Z)) in E; rewrite length_rev in E;
         simpl in E; lia).
  exists (rev rpre), a, b, c.
  rewrite <- (rev_involutive history), E. simpl.
  rewrite <- !app_assoc. reflexivity.
Qed.

Lemma forecast_one_three pre a b c :
  forecast_one (pre ++ [a; b; c]) =
  mk_forecast
    (py_round (py_max 0 (inject_Z (a + b + c) / 3 + inject_Z (c - a) / 2)))
    0.85
    (if py_lt 0 (inject_Z (c - a) / 2) then "increasing"
     else if py_lt (inject_Z (c - a) / 2) 0 then "decreasing" else "stable").
Proof.
  unfold forecast_one, from_end.
  assert (length (pre ++ [a; b; c]) = length pre + 3)%nat as Hlen
    by (rewrite length_app; reflexivity).
  rewrite Hlen.
  replace (3 <=? length pre + 3)%nat with true
    by (symmetry; apply Nat.leb_le; lia).
  replace (length pre + 3 - 3)%nat with (length pre) by lia.
  replace (length pre + 3 - 1)%nat with (length pre + 2)%nat by lia.
  rewrite drop_app_length.
  rewrite !lookup_app_r by lia.
  replace (length pre + 2 - length pre)%nat with 2%nat by lia.
  replace (length pre - length pre)%nat with 0%nat by lia.
  cbn [lookup list_lookup default from_option py_sum fold_left].
  replace (0 + a + b + c)%Z with (a + b + c)%Z by lia.
  reflexivity.
Qed.





(** The worked examples of the specification. *)
Example forecast_cereal :
  forecast_one [120; 140; 160; 180; 200]%Z = mk_forecast 200 0.85 "increasing".
Proof. reflexivity. Qed.

Example forecast_single :
  forecast_one [50]%Z = mk_forecast 50 0.5 "insufficient_data".
Proof. reflexivity. Qed.

(** A half is rounded to the even neighbour: 3 + 1.5 = 4.5 gives 4, and
    2 + 1.5 = 3.5 gives 4 as well. *)
Example forecast_half_to_even :
  predicted_demand (forecast_one [2; 2; 5]%Z) = 4%Z /\
  predicted_demand (forecast_one [1; 1; 4]%Z) = 4%Z.
Proof. split; reflexivity. Qed.

(** With integer observations, the value that is rounded is a half-integer
    only when the sum of the last three observations is a multiple of 3,
    that is, only when [sum / 3] is exact in floating point as well. *)
Lemma half_needs_multiple_of_three (s d k : Z) :
  inject_Z s / 3 + inject_Z d / 2 - inject_Z k == 1 # 2 ->
  (s mod 3 = 0)%Z.
Proof.
  intros E. unfold Qdiv in E.
  change (/ 3) with (1 # 3) in E. change (/ 2) with (1 # 2) in E.
  assert (inject_Z (2 * s + 3 * d - 6 * k) == inject_Z 3) as E'.
  { unfold Z.sub. rewrite !inject_Z_plus, inject_Z_opp, !inject_Z_mult.
    change (inject_Z 2) with 2. change (inject_Z 3) with 3.
    change (inject_Z 6) with 6. revert E.
    generalize (inject_Z s) (inject_Z d) (inject_Z k). intros x y z E. lra. }
  apply (proj1 (inject_Z_injective _ _)) in E'.
  apply Z.mod_divide; [lia|].
  apply (Z.gauss 3 2 s); [exists (1 + 2 * k - d)%Z; lia | reflexivity].
Qed.


(** ** Broadcast *)

Section BroadcastFacts.
Context {M : Type} (send_fails : WebSocket -> bool) (message : M).

Lemma remove_first_length x (l : list WebSocket) :
  In x l -> length (ConnectionManager.remove_first x l) = pred (length l).
Proof.
  induction l as [|y l IH]; simpl; [tauto|].
  intros [->|Hin].
  - now rewrite Nat.eqb_refl.
  - destruct (Nat.eqb x y); [reflexivity|].
    simpl. rewrite IH by exact Hin.
    destruct l; [destruct Hin | reflexivity].
Qed.

Lemma broadcast_loop_step fuel i (conns : list WebSocket) sent :
  ConnectionManager.broadcast_loop send_fails message (S fuel) i conns sent
  = match conns !! i with
    | None => (conns, sent)
    | Some connection =>
        if send_fails connection
        then ConnectionManager.broadcast_loop send_fails message fuel (S i)
               (ConnectionManager.remove_first connection conns) sent
        else ConnectionManager.broadcast_loop send_fails message fuel (S i)
               conns (sent ++ [(connection, message)])
    end.
Proof. reflexivity. Qed.

(** The loop of [broadcast] stops by itself: any amount of fuel that covers
    the elements still ahead of the iterator gives the same result. *)
Lemma broadcast_loop_fuel fuel fuel' i (conns : list WebSocket) sent :
  (length conns - i <= fuel)%nat ->
  (length conns - i <= fuel')%nat ->
  ConnectionManager.broadcast_loop send_fails message fuel i conns sent
  = ConnectionManager.broadcast_loop send_fails message fuel' i conns sent.
Proof.
  revert fuel' i conns sent.
  induction fuel as [|fuel IH]; intros fuel' i conns sent H1 H2.
  - assert (conns !! i = None) as Hnone by (apply lookup_ge_None_2; lia).
    destruct fuel'; simpl; [reflexivity | now rewrite Hnone].
  - destruct fuel' as [|fuel'].
    + assert (conns !! i = None) as Hnone by (apply lookup_ge_None_2; lia).
      simpl. now rewrite Hnone.
    + simpl. destruct (conns !! i) as [c|] eqn:Hc; [|reflexivity].
      pose proof (lookup_lt_Some _ _ _ Hc) as Hlt.
      destruct (send_fails c).
      * assert (In c conns) as Hin
          by (apply list_elem_of_In, list_elem_of_lookup; eauto).
        apply IH; rewrite remove_first_length by exact Hin; lia.
      * apply IH; lia.
Qed.

(** When no send fails, every connection receives the message, in list
    order, and the list is left as it was. *)
Lemma broadcast_loop_all_sent fuel i (conns : list WebSocket) sent :
  (forall c, In c conns -> send_fails c = false) ->
  (length conns - i <= fuel)%nat ->
  ConnectionManager.broadcast_loop send_fails message fuel i conns sent
  = (conns, sent ++ map (fun c => (c, message)) (drop i conns)).
Proof.
  intros Hok. revert i sent.
  induction fuel as [|fuel IH]; intros i sent Hfuel; simpl.
  - rewrite drop_ge by lia. now rewrite app_nil_r.
  - destruct (conns !! i) as [c|] eqn:Hc.
    + pose proof (lookup_lt_Some _ _ _ Hc) as Hlt.
      rewrite Hok by (apply list_elem_of_In, list_elem_of_lookup; eauto).
      rewrite IH by lia.
      rewrite (drop_S _ _ _ Hc). simpl. now rewrite <- app_assoc.
    + apply lookup_ge_None_1 in Hc. rewrite drop_ge by lia.
      now rewrite app_nil_r.
Qed.

Lemma broadcast_all_sent (conns : list WebSocket) :
  (forall c, In c conns -> send_fails c = false) ->
  ConnectionManager.broadcast send_fails message conns
  = (conns, map (fun c => (c, message)) conns).
Proof.
  intros Hok. unfold ConnectionManager.broadcast.
  rewrite broadcast_loop_all_sent by (auto; lia). reflexivity.
Qed.

(** When the send to the first connection raises, the connection after it
    is never tried: the loop goes on at index 1 of the list without the
    first element. *)
Lemma broadcast_after_head_failure c1 c2 (rest : list WebSocket) :
  send_fails c1 = true ->
  ConnectionManager.broadcast send_fails message (c1 :: c2 :: rest)
  = ConnectionManager.broadcast_loop send_fails message (length rest) 1
      (c2 :: rest) [].
Proof.
  intros Hfail. unfold ConnectionManager.broadcast.
  change (length (c1 :: c2 :: rest)) with (S (S (length rest))).
  rewrite broadcast_loop_step.
  cbn [lookup list_lookup]. rewrite Hfail.
  cbn [ConnectionManager.remove_first]. rewrite Nat.eqb_refl.
  apply broadcast_loop_fuel; simpl; lia.
Qed.

Lemma broadcast_nil :
  ConnectionManager.broadcast send_fails message [] = ([], []).
Proof. reflexivity. Qed.
End BroadcastFacts.

(** C1 at a failing input: two observers are subscribed and the send to the
    first one raises. The first is removed, the iterator then stands past the
    second, which is still subscribed and receives nothing in this
    broadcast; the same happens inside a telemetry tick. *)
Theorem broadcast_skips_observer_after_failure :
  (forall (M : Type) (message : M),
     ConnectionManager.broadcast (Nat.eqb 1) message [1; 2]%nat = ([2]%nat, [])) /\
  (let '(srv, _, sent) :=
     Server.tick (Server.mk_rng (fun _ => 1 # 2) 0) (Nat.eqb 1)
       (Server.mk (Some WalmartSupplyChainCrew.__init__) [1; 2]%nat) in
   Server.active_connections srv = [2]%nat /\ sent = []).
Proof.
  split; [intros M message; reflexivity|].
  vm_compute. split; reflexivity.
Qed.

(** With both sends working, both observers receive the message. *)
Example broadcast_two_healthy (M : Type) (message : M) :
  ConnectionManager.broadcast (fun _ => false) message [1; 2]%nat
  = ([1; 2]%nat, [(1%nat, message); (2%nat, message)]).
Proof. reflexivity. Qed.

(** ** Dispatch selector *)

Section MaxBy.
Context {A : Type} (key : A -> Q).

Lemma py_max_by_split_acc (rest l1 : list A) (best : A) (l2 : list A) :
  (forall x, In x l1 -> key x < key best) ->
  (forall x, In x l2 -> key x <= key best) ->
  exists l1' l2',
    l1 ++ best :: l2 ++ rest
      = l1' ++ TruckDispatchTool.py_max_by key best rest :: l2' /\
    (forall x, In x l1' ->
       key x < key (TruckDispatchTool.py_max_by key best rest)) /\
    (forall x, In x l2' ->
       key x <= key (TruckDispatchTool.py_max_by key best rest)).
Proof.
  revert l1 best l2.
  induction rest as [|x rest IH]; intros l1 best l2 H1 H2.
  - exists l1, l2. rewrite app_nil_r. auto.
  - unfold TruckDispatchTool.py_max_by in *. simpl.
    destruct (py_lt (key best) (key x)) eqn:E.
    + apply py_lt_true in E.
      destruct (IH (l1 ++ best :: l2) x []) as (l1' & l2' & Heq & P1 & P2).
      * intros y Hy. apply in_app_or in Hy as [Hy|[<-|Hy]].
        -- specialize (H1 y Hy). lra.
        -- exact E.
        -- specialize (H2 y Hy). lra.
      * intros y [].
      * exists l1', l2'. split; [|auto].
        rewrite <- Heq. rewrite <- app_assoc. reflexivity.
    + apply py_lt_false in E.
      destruct (IH l1 best (l2 ++ [x])) as (l1' & l2' & Heq & P1 & P2).
      * exact H1.
      * intros y Hy. apply in_app_or in Hy as [Hy|[<-|[]]]; auto.
      * exists l1', l2'. split; [|auto].
        rewrite <- Heq. rewrite <- app_assoc. reflexivity.
Qed.

(** [max(..., key=key)] returns the first element among those of greatest
    key: everything before it is strictly smaller, nothing after it is
    greater. *)
Lemma py_max_by_split (first : A) (rest : list A) :
  exists l1 l2,
    first :: rest = l1 ++ TruckDispatchTool.py_max_by key first rest :: l2 /\
    (forall x, In x l1 ->
       key x < key (TruckDispatchTool.py_max_by key first rest)) /\
    (forall x, In x l2 ->
       key x <= key (TruckDispatchTool.py_max_by key first rest)).
Proof.
  destruct (py_max_by_split_acc rest [] first []) as (l1 & l2 & Heq & P1 & P2);
    [intros x []| intros x [] |].
  exists l1, l2. auto.
Qed.
End MaxBy.

Lemma is_idle_true x : is_idle x = true <-> Truck.status x = "idle".
Proof. unfold is_idle. apply String.eqb_eq. Qed.

Lemma idle_from_In n trucks j x :
  In (j, x) (TruckDispatchTool.idle_from n trucks) <->
  (n <= j)%nat /\ trucks !! (j - n)%nat = Some x /\ is_idle x = true.
Proof.
  revert n. induction trucks as [|t rest IH]; intros n; simpl.
  - split; [tauto | intros (_ & Hl & _); discriminate].
  - assert (In (j, x) (TruckDispatchTool.idle_from (S n) rest) <->
            (n < j)%nat /\ rest !! (j - S n)%nat = Some x /\ is_idle x = true)
      as IH' by (rewrite IH; reflexivity).
    destruct (is_idle t) eqn:Et; simpl; rewrite IH'; split.
    + intros [E|(Hlt & Hl & Hi)].
      * inversion E; subst. rewrite Nat.sub_diag. auto.
      * replace (j - n)%nat with (S (j - S n)) by lia. auto with lia.
    + intros (Hle & Hl & Hi).
      destruct (decide (j = n)) as [->|Hne].
      * rewrite Nat.sub_diag in Hl. left. simpl in Hl. congruence.
      * right. replace (j - n)%nat with (S (j - S n)) in Hl by lia.
        auto with lia.
    + intros (Hlt & Hl & Hi).
      replace (j - n)%nat with (S (j - S n)) by lia. auto with lia.
    + intros (Hle & Hl & Hi).
      destruct (decide (j = n)) as [->|Hne].
      * rewrite Nat.sub_diag in Hl. simpl in Hl. congruence.
      * replace (j - n)%nat with (S (j - S n)) in Hl by lia. auto with lia.
Qed.

Lemma idle_from_sorted n trucks l1 i b l2 :
  TruckDispatchTool.idle_from n trucks = l1 ++ (i, b) :: l2 ->
  (forall p, In p l1 -> (fst p < i)%nat) /\ (forall p, In p l2 -> (i < fst p)%nat).
Proof.
  revert n l1. induction trucks as [|t rest IH]; intros n l1 Heq; simpl in Heq.
  - destruct l1; discriminate.
  - destruct (is_idle t) eqn:Et.
    + destruct l1 as [|p l1]; simpl in Heq; inversion Heq; subst.
      * split; [intros p []|]. intros [j x] Hin.
        apply idle_from_In in Hin. simpl. lia.
      * match goal with Hr : TruckDispatchTool.idle_from _ _ = _ |- _ =>
          pose proof Hr as Hr'; apply IH in Hr as [P1 P2] end.
        split; [|exact P2].
        intros p [<-|Hin]; [|auto]. simpl.
        assert (In (i, b) (TruckDispatchTool.idle_from (S n) rest)) as Hi
          by (rewrite Hr'; apply in_elt).
        apply idle_from_In in Hi. lia.
    + eapply IH. exact Heq.
Qed.

Lemma available_trucks_nil trucks :
  TruckDispatchTool.available_trucks trucks = [] <->
  (forall x, In x trucks -> is_idle x = false).
Proof.
  unfold TruckDispatchTool.available_trucks. split.
  - intros Hnil x Hin. destruct (is_idle x) eqn:E; [|reflexivity].
    apply list_elem_of_In, list_elem_of_lookup in Hin as [j Hj].
    assert (In (j, x) (TruckDispatchTool.idle_from 0 trucks)) as Hc.
    { apply idle_from_In. rewrite Nat.sub_0_r. auto with lia. }
    rewrite Hnil in Hc. destruct Hc.
  - intros Hall.
    destruct (TruckDispatchTool.idle_from 0 trucks) as [|[j x] l] eqn:E;
      [reflexivity|].
    assert (In (j, x) (TruckDispatchTool.idle_from 0 trucks)) as Hc
      by (rewrite E; left; reflexivity).
    apply idle_from_In in Hc as (_ & Hl & Hi). rewrite Nat.sub_0_r in Hl.
    rewrite Hall in Hi; [discriminate|].
    apply list_elem_of_In, list_elem_of_lookup. eauto.
Qed.

(** What [_run] does, by cases on the idle trucks. *)
Lemma dispatch_run_cases trucks route priority :
  ((forall x, In x trucks -> is_idle x = false) /\
   TruckDispatchTool._run trucks route priority
   = (trucks,
      TruckDispatchTool.Failure "No available trucks for dispatch"
        "Wait for trucks to complete current routes")) \/
  (exists i best,
     trucks !! i = Some best /\ is_idle best = true /\
     (forall j x, trucks !! j = Some x -> is_idle x = true ->
        Truck.efficiency x <= Truck.efficiency best /\
        ((j < i)%nat -> Truck.efficiency x < Truck.efficiency best)) /\
     TruckDispatchTool._run trucks route priority
     = (<[i := dispatched route best]> trucks,
        TruckDispatchTool.Success (Truck.id best) (Truck.driver best)
          (OptimizedRoute.name route) (OptimizedRoute.estimated_time route)
          (Truck.efficiency best))).
Proof.
  unfold TruckDispatchTool._run.
  destruct (TruckDispatchTool.available_trucks trucks) as [|first rest] eqn:Eav.
  - left. split; [now apply available_trucks_nil | reflexivity].
  - right.
    destruct (py_max_by_split (fun p => Truck.efficiency (snd p)) first rest)
      as (l1 & l2 & Hsplit & P1 & P2).
    destruct (TruckDispatchTool.py_max_by _ first rest) as [i best] eqn:Ebest.
    simpl in P1, P2.
    unfold TruckDispatchTool.available_trucks in Eav. rewrite Hsplit in Eav.
    assert (In (i, best) (TruckDispatchTool.idle_from 0 trucks)) as Hin
      by (rewrite Eav; apply in_elt).
    apply idle_from_In in Hin as (_ & Hl & Hi). rewrite Nat.sub_0_r in Hl.
    destruct (idle_from_sorted _ _ _ _ _ _ Eav) as [S1 S2].
    exists i, best. split; [exact Hl|]. split; [exact Hi|]. split; [|reflexivity].
    intros j x Hj Hx.
    assert (In (j, x) (l1 ++ (i, best) :: l2)) as Hjx.
    { rewrite <- Eav. apply idle_from_In. rewrite Nat.sub_0_r. auto with lia. }
    apply in_app_or in Hjx as [Hjx|[E|Hjx]].
    + specialize (P1 _ Hjx). simpl in P1. split; [lra | intros _; exact P1].
    + inversion E; subst. split; [lra | lia].
    + specialize (P2 _ Hjx). specialize (S2 _ Hjx). simpl in *.
      split; [exact P2 | lia].
Qed.

Lemma is_idle_false x : is_idle x = false <-> Truck.status x <> "idle".
Proof. rewrite <- is_idle_true. destruct (is_idle x); intuition congruence. Qed.



(** The fleet of the specification: efficiencies 98.5, 97.2, 96.8, 98.0, all
    idle; the first truck is chosen, and only it changes. *)
Example dispatch_initial_fleet route :
  TruckDispatchTool._run WalmartSupplyChainCrew._initialize_trucks route "medium"
  = (<[0%nat := dispatched route
                 (Truck.mk "T001" "John Smith" 100 0 32.7767 (-96.7970) "idle"
                    [] 98.5 0 0 0 0)]>
       WalmartSupplyChainCrew._initialize_trucks,
     TruckDispatchTool.Success "T001" "John Smith" (OptimizedRoute.name route)
       (OptimizedRoute.estimated_time route) 98.5).
Proof. reflexivity. Qed.

(** Equal efficiencies: the earlier truck wins. *)
Example dispatch_tie route :
  fst (TruckDispatchTool._run
         [ Truck.mk "A" "a" 1 0 0 0 "loading" [] 99 0 0 0 0;
           Truck.mk "B" "b" 1 0 0 0 "idle" [] 90 0 0 0 0;
           Truck.mk "C" "c" 1 0 0 0 "idle" [] 90 0 0 0 0 ] route "medium")
  = [ Truck.mk "A" "a" 1 0 0 0 "loading" [] 99 0 0 0 0;
      dispatched route (Truck.mk "B" "b" 1 0 0 0 "idle" [] 90 0 0 0 0);
      Truck.mk "C" "c" 1 0 0 0 "idle" [] 90 0 0 0 0 ].
Proof. reflexivity. Qed.

(** ** Route planner: waypoints, distance, failures *)

Section PlannerLoops.
Context `{Runtime}.

Lemma pickup_of_Some warehouse :
  has_keys warehouse <-> is_Some (pickup_of warehouse).
Proof.
  unfold has_keys, pickup_of.
  destruct (warehouse !! "lat"), (warehouse !! "lng"), (warehouse !! "name");
    simpl; split; try (intros ([? ?] & [? ?] & [? ?])); try (intros [? ?]);
    try discriminate; repeat split; eexists; reflexivity.
Qed.

Lemma delivery_of_Some delivery :
  has_keys delivery <-> is_Some (delivery_of delivery).
Proof.
  unfold has_keys, delivery_of.
  destruct (delivery !! "lat"), (delivery !! "lng"), (delivery !! "name");
    simpl; split; try (intros ([? ?] & [? ?] & [? ?])); try (intros [? ?]);
    try discriminate; repeat split; eexists; reflexivity.
Qed.

Lemma pickup_of_waypoint warehouse wp :
  pickup_of warehouse = Some wp -> waypoint_for "pickup" warehouse wp.
Proof.
  unfold pickup_of, waypoint_for.
  destruct (warehouse !! "lat"), (warehouse !! "lng"), (warehouse !! "name");
    simpl; try discriminate.
  intros E. inversion E. repeat split.
Qed.

Lemma delivery_of_waypoint delivery wp :
  delivery_of delivery = Some wp -> waypoint_for "delivery" delivery wp.
Proof.
  unfold delivery_of, waypoint_for.
  destruct (delivery !! "lat"), (delivery !! "lng"), (delivery !! "name");
    simpl; try discriminate.
  intros E. inversion E. repeat split.
Qed.

(** The first loop either appends the pickup waypoints of all warehouses,
    in order, or stops with the [KeyError] of an entry that lacks a key. *)
Lemma add_pickups_cases warehouses acc :
  (exists pws,
     Forall2 (fun w p => pickup_of w = Some p) warehouses pws /\
     RouteOptimizationTool.add_pickups warehouses acc = inr (acc ++ pws)) \/
  (exists entry k,
     In entry warehouses /\ entry !! k = None /\
     In k ["lat"; "lng"; "name"] /\
     RouteOptimizationTool.add_pickups warehouses acc = inl (KeyError k)).
Proof.
  revert acc. induction warehouses as [|w rest IH]; intros acc.
  - left. exists []. split; [constructor | simpl; now rewrite app_nil_r].
  - simpl. unfold getitem, ebind.
    destruct (w !! "lat") as [lat|] eqn:Elat;
      [|right; exists w, "lat"; simpl; auto 10].
    destruct (w !! "lng") as [lng|] eqn:Elng;
      [|right; exists w, "lng"; simpl; auto 10].
    destruct (w !! "name") as [name|] eqn:Ename;
      [|right; exists w, "name"; simpl; auto 10].
    match goal with
    | |- context [RouteOptimizationTool.add_pickups rest ?a] =>
        destruct (IH a) as [(pws & HF & Hrun)|(entry & k & Hin & Hk & Hk' & Hrun)]
    end.
    + left. eexists (_ :: pws). split.
      * constructor; [|exact HF].
        unfold pickup_of. rewrite Elat, Elng, Ename. reflexivity.
      * rewrite Hrun, <- app_assoc. reflexivity.
    + right. exists entry, k. simpl. auto 10.
Qed.

Lemma add_deliveries_cases deliveries acc :
  (exists dws,
     Forall2 (fun d p => delivery_of d = Some p) deliveries dws /\
     RouteOptimizationTool.add_deliveries deliveries acc = inr (acc ++ dws)) \/
  (exists entry k,
     In entry deliveries /\ entry !! k = None /\
     In k ["lat"; "lng"; "name"] /\
     RouteOptimizationTool.add_deliveries deliveries acc = inl (KeyError k)).
Proof.
  revert acc. induction deliveries as [|w rest IH]; intros acc.
  - left. exists []. split; [constructor | simpl; now rewrite app_nil_r].
  - simpl. unfold getitem, ebind.
    destruct (w !! "lat") as [lat|] eqn:Elat;
      [|right; exists w, "lat"; simpl; auto 10].
    destruct (w !! "lng") as [lng|] eqn:Elng;
      [|right; exists w, "lng"; simpl; auto 10].
    destruct (w !! "name") as [name|] eqn:Ename;
      [|right; exists w, "name"; simpl; auto 10].
    match goal with
    | |- context [RouteOptimizationTool.add_deliveries rest ?a] =>
        destruct (IH a) as [(pws & HF & Hrun)|(entry & k & Hin & Hk & Hk' & Hrun)]
    end.
    + left. eexists (_ :: pws). split.
      * constructor; [|exact HF].
        unfold delivery_of. rewrite Elat, Elng, Ename. reflexivity.
      * rewrite Hrun, <- app_assoc. reflexivity.
    + right. exists entry, k. simpl. auto 10.
Qed.

(** The distance loop adds the legs of the suffix that starts under its
    index, in order, and stops with geopy's error when a leg raises. *)
Lemma distance_loop_path pre suf acc :
  match path_miles suf with
  | Some d =>
      exists q,
        RouteOptimizationTool.distance_loop (length suf - 1) (length pre)
          (pre ++ suf) acc = inr q /\ q == acc + d
  | None =>
      exists a b msg,
        geodesic_miles a b = inl msg /\
        RouteOptimizationTool.distance_loop (length suf - 1) (length pre)
          (pre ++ suf) acc = inl (LibraryError msg)
  end.
Proof.
  revert pre acc. induction suf as [|a suf IH]; intros pre acc.
  - simpl. exists acc. split; [reflexivity | lra].
  - destruct suf as [|b tl].
    + simpl. exists acc. split; [reflexivity | lra].
    + specialize (IH (pre ++ [a])).
      rewrite <- app_assoc, length_app in IH. simpl in IH.
      replace (length pre + 1)%nat with (S (length pre)) in IH by lia.
      rewrite Nat.sub_0_r in IH.
      cbn [path_miles].
      replace (length (a :: b :: tl) - 1)%nat with (S (length tl))
        by (simpl; lia).
      cbn [RouteOptimizationTool.distance_loop].
      rewrite lookup_app_r by lia. rewrite Nat.sub_diag.
      rewrite lookup_app_r by lia.
      replace (S (length pre) - length pre)%nat with 1%nat by lia.
      cbn [lookup list_lookup].
      unfold RouteOptimizationTool.geodesic, ebind.
      destruct (geodesic_miles _ _) as [msg|miles] eqn:Eg.
      * eauto 10.
      * specialize (IH (acc + miles)).
        change (path_miles (b :: tl)) with
          (match tl with
           | [] => Some 0
           | c :: _ =>
               match geodesic_miles (RouteWaypoint.lat b, RouteWaypoint.lng b)
                       (RouteWaypoint.lat c, RouteWaypoint.lng c) with
               | inr miles => (fun r => miles + r) <$> path_miles tl
               | inl _ => None
               end
           end) in IH.
        destruct (match tl with [] => Some 0 | _ => _ end) as [d|].
        -- destruct IH as (q & Hq & Hd). simpl. exists q.
           split; [exact Hq | lra].
        -- exact IH.
Qed.
End PlannerLoops.

Lemma Forall2_Some_functional {A B} (f : A -> option B) (l : list A) (k1 k2 : list B) :
  Forall2 (fun x y => f x = Some y) l k1 ->
  Forall2 (fun x y => f x = Some y) l k2 ->
  k1 = k2.
Proof.
  intros H1. revert k2. induction H1 as [|x y l k1 Hxy _ IH]; intros k2 H2.
  - now inversion H2.
  - inversion H2 as [|? y' ? k2' Hxy' H2']; subst.
    f_equal; [congruence | now apply IH].
Qed.

Lemma Forall2_Some_In {A B} (f : A -> option B) (l : list A) (k : list B) x :
  Forall2 (fun x y => f x = Some y) l k -> In x l -> is_Some (f x).
Proof.
  induction 1 as [|x' y l k Hxy _ IH]; intros Hin; [destruct Hin|].
  destruct Hin as [<-|Hin]; eauto.
Qed.

Section PlannerCases.
Context `{Runtime}.

(** The three ways in which the body of [_run] ends. *)
Lemma plan_cases now warehouses deliveries :
  (exists pws dws d route recs,
     Forall2 (fun w p => pickup_of w = Some p) warehouses pws /\
     Forall2 (fun w p => delivery_of w = Some p) deliveries dws /\
     path_miles (pws ++ dws) = Some d /\
     RouteOptimizationTool.plan now warehouses deliveries = inr (route, recs) /\
     OptimizedRoute.waypoints route = pws ++ dws /\
     OptimizedRoute.distance route == d) \/
  (exists entry k,
     In entry (warehouses ++ deliveries) /\ entry !! k = None /\
     In k ["lat"; "lng"; "name"] /\
     RouteOptimizationTool.plan now warehouses deliveries = inl (KeyError k)) \/
  (exists pws dws a b msg,
     Forall2 (fun w p => pickup_of w = Some p) warehouses pws /\
     Forall2 (fun w p => delivery_of w = Some p) deliveries dws /\
     path_miles (pws ++ dws) = None /\
     geodesic_miles a b = inl msg /\
     RouteOptimizationTool.plan now warehouses deliveries
       = inl (LibraryError msg)).
Proof.
  unfold RouteOptimizationTool.plan.
  destruct (add_pickups_cases warehouses [])
    as [(pws & HP & ->)|(entry & k & Hin & Hk & Hk' & ->)];
    [|right; left; exists entry, k; repeat split; auto using in_or_app].
  simpl.
  destruct (add_deliveries_cases deliveries pws)
    as [(dws & HD & ->)|(entry & k & Hin & Hk & Hk' & ->)];
    [|right; left; exists entry, k; repeat split; auto using in_or_app].
  simpl.
  pose proof (distance_loop_path [] (pws ++ dws) 0) as Hloop.
  simpl in Hloop.
  destruct (path_miles (pws ++ dws)) as [d|] eqn:Epath.
  - destruct Hloop as (q & -> & Hq). simpl.
    left. exists pws, dws, d. do 2 eexists.
    split; [exact HP|]. split; [exact HD|]. split; [exact Epath|].
    split; [reflexivity|]. split; [reflexivity | simpl; lra].
  - destruct Hloop as (a & b & msg & Hg & ->). simpl.
    right; right. exists pws, dws, a, b, msg. auto.
Qed.
End PlannerCases.

(** C5: the waypoints of a planned route are one pickup waypoint per
    warehouse, in the order of the warehouse list, followed by one delivery
    waypoint per request, in the order of the request list, and the distance
    is the sum of the legs between consecutive waypoints of that list; and
    whenever every entry has its keys and geopy measures every leg, the
    planner returns that route. *)
Theorem planned_waypoints_follow_input_order `{Runtime}
    now warehouses deliveries truck_capacity :
  (forall route recs,
     RouteOptimizationTool._run now warehouses deliveries truck_capacity
       = RouteOptimizationTool.Success route recs ->
     exists pws dws d,
       OptimizedRoute.waypoints route = pws ++ dws /\
       Forall2 (waypoint_for "pickup") warehouses pws /\
       Forall2 (waypoint_for "delivery") deliveries dws /\
       path_miles (OptimizedRoute.waypoints route) = Some d /\
       OptimizedRoute.distance route == d) /\
  (forall pws dws d,
     Forall2 (fun w p => pickup_of w = Some p) warehouses pws ->
     Forall2 (fun w p => delivery_of w = Some p) deliveries dws ->
     path_miles (pws ++ dws) = Some d ->
     exists route recs,
       RouteOptimizationTool._run now warehouses deliveries truck_capacity
         = RouteOptimizationTool.Success route recs /\
       OptimizedRoute.waypoints route = pws ++ dws /\
       OptimizedRoute.distance route == d).
Proof.
  destruct (plan_cases now warehouses deliveries)
    as [(pws & dws & d & route & recs & HP & HD & Hpath & Hplan & Hw & Hd)
       |[(entry & k & Hin & Hk & Hk' & Hplan)
        |(pws & dws & a & b & msg & HP & HD & Hpath & Hg & Hplan)]].
  - split.
    + intros route' recs' Hrun. apply run_success in Hrun.
      rewrite Hplan in Hrun. inversion Hrun; subst route' recs'.
      exists pws, dws, d. rewrite Hw.
      split; [reflexivity|].
      split; [eapply Forall2_impl; [exact HP | apply pickup_of_waypoint]|].
      split; [eapply Forall2_impl; [exact HD | apply delivery_of_waypoint]|].
      split; [exact Hpath | exact Hd].
    + intros pws' dws' d' HP' HD' Hpath'.
      rewrite (Forall2_Some_functional _ _ _ _ HP' HP) in *.
      rewrite (Forall2_Some_functional _ _ _ _ HD' HD) in *.
      exists route, recs. split; [now apply run_success|].
      split; [exact Hw|]. rewrite Hpath in Hpath'. inversion Hpath'; subst.
      exact Hd.
  - split.
    + intros route recs Hrun. apply run_success in Hrun.
      rewrite Hplan in Hrun. discriminate.
    + intros pws dws d HP HD _. exfalso.
      apply in_app_or in Hin as [Hin|Hin].
      * apply (Forall2_Some_In _ _ _ _ HP), pickup_of_Some in Hin.
        destruct Hin as (H1 & H2 & H3).
        simpl in Hk'. destruct Hk' as [<-|[<-|[<-|[]]]];
          destruct H1 as [? E1], H2 as [? E2], H3 as [? E3]; congruence.
      * apply (Forall2_Some_In _ _ _ _ HD), delivery_of_Some in Hin.
        destruct Hin as (H1 & H2 & H3).
        simpl in Hk'. destruct Hk' as [<-|[<-|[<-|[]]]];
          destruct H1 as [? E1], H2 as [? E2], H3 as [? E3]; congruence.
  - split.
    + intros route recs Hrun. apply run_success in Hrun.
      rewrite Hplan in Hrun. discriminate.
    + intros pws' dws' d' HP' HD' Hpath'.
      rewrite (Forall2_Some_functional _ _ _ _ HP' HP) in *.
      rewrite (Forall2_Some_functional _ _ _ _ HD' HD) in *.
      rewrite Hpath in Hpath'. discriminate.
Qed.

Lemma planned_waypoints_follow_input_order_witness :
  exists route recs,
    @RouteOptimizationTool._run grid_runtime 0
       [stop "Dallas DC" 0 0] [stop "Plano Store" 2 0; stop "Frisco Store" 2 1] 100
      = RouteOptimizationTool.Success route recs /\
    map RouteWaypoint.name (OptimizedRoute.waypoints route)
      = [PStr "Dallas DC"; PStr "Plano Store"; PStr "Frisco Store"] /\
    map RouteWaypoint.type (OptimizedRoute.waypoints route)
      = ["pickup"; "delivery"; "delivery"] /\
    OptimizedRoute.distance route == 210.
Proof.
  destruct (proj2 (@planned_waypoints_follow_input_order grid_runtime 0
                     [stop "Dallas DC" 0 0]
                     [stop "Plano Store" 2 0; stop "Frisco Store" 2 1] 100)
              [RouteWaypoint.mk (PNum 0) (PNum 0) "pickup" (PStr "Dallas DC")
                 "Pickup inventory from Dallas DC"]
              [RouteWaypoint.mk (PNum 2) (PNum 0) "delivery" (PStr "Plano Store")
                 "Deliver items to Plano Store";
               RouteWaypoint.mk (PNum 2) (PNum 1) "delivery" (PStr "Frisco Store")
                 "Deliver items to Frisco Store"]
              210)
    as (route & recs & Hrun & Hw & Hd).
  - repeat constructor.
  - repeat constructor.
  - vm_compute. reflexivity.
  - exists route, recs. rewrite Hw. repeat split; [exact Hrun | exact Hd].
Defined.

Lemma missing_key_not_has_keys (entry : dict) k :
  entry !! k = None -> In k ["lat"; "lng"; "name"] -> ~ has_keys entry.
Proof.
  intros Hk Hin (H1 & H2 & H3).
  destruct H1 as [? E1], H2 as [? E2], H3 as [? E3].
  simpl in Hin. destruct Hin as [<-|[<-|[<-|[]]]]; congruence.
Qed.

Lemma run_failure `{Runtime} now warehouses deliveries truck_capacity e :
  RouteOptimizationTool.plan now warehouses deliveries = inl e ->
  RouteOptimizationTool._run now warehouses deliveries truck_capacity
  = RouteOptimizationTool.Failure (str_exn e).
Proof. unfold RouteOptimizationTool._run. now intros ->. Qed.

(** C4, as the code has it: the planner fails exactly when some warehouse or
    delivery entry lacks one of the keys [lat], [lng], [name], or geopy
    raises on a leg of the route; it succeeds on every other input, of any
    size. An empty list of delivery requests is not a reason to fail. *)
Theorem planner_fails_exactly_on_bad_entry `{Runtime}
    now warehouses deliveries truck_capacity :
  ((exists error,
      RouteOptimizationTool._run now warehouses deliveries truck_capacity
        = RouteOptimizationTool.Failure error) <->
   (exists entry, In entry (warehouses ++ deliveries) /\ ~ has_keys entry) \/
   (exists pws dws,
      Forall2 (fun w p => pickup_of w = Some p) warehouses pws /\
      Forall2 (fun w p => delivery_of w = Some p) deliveries dws /\
      path_miles (pws ++ dws) = None)) /\
  ((exists route recs,
      RouteOptimizationTool._run now warehouses deliveries truck_capacity
        = RouteOptimizationTool.Success route recs) <->
   (forall entry, In entry (warehouses ++ deliveries) -> has_keys entry) /\
   (forall pws dws,
      Forall2 (fun w p => pickup_of w = Some p) warehouses pws ->
      Forall2 (fun w p => delivery_of w = Some p) deliveries dws ->
      is_Some (path_miles (pws ++ dws)))).
Proof.
  destruct (plan_cases now warehouses deliveries)
    as [(pws & dws & d & route & recs & HP & HD & Hpath & Hplan & Hw & Hd)
       |[(entry & k & Hin & Hk & Hk' & Hplan)
        |(pws & dws & a & b & msg & HP & HD & Hpath & Hg & Hplan)]].
  - assert (forall entry, In entry (warehouses ++ deliveries) -> has_keys entry)
      as Hkeys.
    { intros entry Hin. apply in_app_or in Hin as [Hin|Hin].
      - apply pickup_of_Some. exact (Forall2_Some_In _ _ _ _ HP Hin).
      - apply delivery_of_Some. exact (Forall2_Some_In _ _ _ _ HD Hin). }
    apply (run_success now warehouses deliveries truck_capacity) in Hplan.
    split; split.
    + intros [error Hrun]. rewrite Hplan in Hrun. discriminate.
    + intros [(entry & Hin & Hno)|(pws' & dws' & HP' & HD' & Hnone)].
      * destruct (Hno (Hkeys entry Hin)).
      * rewrite (Forall2_Some_functional _ _ _ _ HP' HP) in *.
        rewrite (Forall2_Some_functional _ _ _ _ HD' HD) in *. congruence.
    + intros _. split; [exact Hkeys|].
      intros pws' dws' HP' HD'.
      rewrite (Forall2_Some_functional _ _ _ _ HP' HP).
      rewrite (Forall2_Some_functional _ _ _ _ HD' HD). eauto.
    + intros _. eauto.
  - pose proof (missing_key_not_has_keys entry k Hk Hk') as Hno.
    apply (run_failure now warehouses deliveries truck_capacity) in Hplan.
    split; split.
    + intros _. left. eauto.
    + intros _. eauto.
    + intros (route & recs & Hrun). rewrite Hplan in Hrun. discriminate.
    + intros [Hkeys _]. destruct (Hno (Hkeys entry Hin)).
  - apply (run_failure now warehouses deliveries truck_capacity) in Hplan.
    split; split.
    + intros _. right. eauto.
    + intros _. eauto.
    + intros (route & recs & Hrun). rewrite Hplan in Hrun. discriminate.
    + intros [_ Hlegs]. destruct (Hlegs pws dws HP HD) as [d Hd]. congruence.
Qed.

Lemma planner_fails_exactly_on_bad_entry_witness :
  (exists error,
     @RouteOptimizationTool._run grid_runtime 0
        [stop "Dallas DC" 0 0] [<["lat" := PNum 2]> (<["lng" := PNum 0]> ∅)] 100
       = RouteOptimizationTool.Failure error) /\
  (exists route recs,
     @RouteOptimizationTool._run grid_runtime 0
        [stop "Dallas DC" 0 0] [stop "Plano Store" 2 0] 100
       = RouteOptimizationTool.Success route recs).
Proof.
  split.
  - apply (proj1 (@planner_fails_exactly_on_bad_entry grid_runtime 0
                    [stop "Dallas DC" 0 0]
                    [<["lat" := PNum 2]> (<["lng" := PNum 0]> ∅)] 100)).
    left. exists (<["lat" := PNum 2]> (<["lng" := PNum 0]> ∅)).
    split; [right; left; reflexivity|].
    intros (_ & _ & [x Hx]). vm_compute in Hx. discriminate.
  - apply (proj2 (@planner_fails_exactly_on_bad_entry grid_runtime 0
                    [stop "Dallas DC" 0 0] [stop "Plano Store" 2 0] 100)).
    split.
    + intros entry [<-|[<-|[]]]; repeat split; eexists; vm_compute; reflexivity.
    + intros pws dws HP HD.
      inversion HP as [|? p ? ? Hp HP']; subst. inversion HP'; subst.
      inversion HD as [|? q ? ? Hq HD']; subst. inversion HD'; subst.
      vm_compute in Hp, Hq. inversion Hp; inversion Hq; subst.
      eexists. vm_compute. reflexivity.
Defined.

(** The planner succeeds on an empty list of delivery requests, and fails on
    a request that has both coordinates but no name. *)
Lemma planner_accepts_empty_delivery_list :
  (exists route recs,
     @RouteOptimizationTool._run grid_runtime 0 [stop "Dallas DC" 0 0] [] 100
       = RouteOptimizationTool.Success route recs) /\
  @RouteOptimizationTool._run grid_runtime 0
     [stop "Dallas DC" 0 0] [<["lat" := PNum 2]> (<["lng" := PNum 0]> ∅)] 100
    = RouteOptimizationTool.Failure "'name'".
Proof.
  split; [do 2 eexists|]; vm_compute; reflexivity.
Qed.

(** The error text of a missing coordinate is the missing key, quoted. *)
Example planner_missing_latitude :
  @RouteOptimizationTool._run grid_runtime 0
     [<["name" := PStr "Dallas DC"]> (<["lng" := PNum 0]> ∅)]
     [stop "Plano Store" 2 0] 100
  = RouteOptimizationTool.Failure "'lat'".
Proof. vm_compute. reflexivity. Qed.

(** ** Telemetry tick *)

Lemma uniform_stream a b rng :
  Server.stream (snd (Server.uniform a b rng)) = Server.stream rng.
Proof. reflexivity. Qed.

Lemma is_en_route_true x : is_en_route x = true <-> Truck.status x = "en-route".
Proof. unfold is_en_route. apply String.eqb_eq. Qed.

Lemma is_en_route_false x : is_en_route x = false <-> Truck.status x <> "en-route".
Proof.
  rewrite <- is_en_route_true. destruct (is_en_route x); intuition congruence.
Qed.

Lemma tick_frame_refl x : tick_frame x x.
Proof. unfold tick_frame. repeat split; lra. Qed.

(** One round of the loop over the trucks, written without the nested
    [let]s: an en-route truck takes four numbers from the generator. *)
Lemma update_trucks_cons truck rest rng :
  Server.update_trucks (truck :: rest) rng =
  if is_en_route truck then
    let u := Server.stream rng in
    let p := Server.position rng in
    let rng4 := Server.mk_rng u (S (S (S (S p)))) in
    (Truck.drift (-0.001 + (0.001 - -0.001) * u p)
                 (-0.001 + (0.001 - -0.001) * u (S p))
                 (0 + (0.1 - 0) * u (S (S p)))
                 (0 + (0.3 - 0) * u (S (S (S p)))) truck
       :: fst (Server.update_trucks rest rng4),
     snd (Server.update_trucks rest rng4))
  else
    (truck :: fst (Server.update_trucks rest rng),
     snd (Server.update_trucks rest rng)).
Proof.
  simpl. destruct (is_en_route truck).
  - destruct (Server.update_trucks rest _); reflexivity.
  - destruct (Server.update_trucks rest rng); reflexivity.
Qed.

(** The loop over the trucks relates each truck to its successor by
    [tick_frame], position by position, and only reads the generator. *)
Lemma update_trucks_frame trucks rng :
  (forall n, 0 <= Server.stream rng n) ->
  Forall2 tick_frame trucks (fst (Server.update_trucks trucks rng)) /\
  Server.stream (snd (Server.update_trucks trucks rng)) = Server.stream rng.
Proof.
  revert rng. induction trucks as [|truck rest IH]; intros rng Hpos.
  - split; [constructor | reflexivity].
  - rewrite update_trucks_cons. destruct (is_en_route truck) eqn:Een.
    + cbv zeta.
      destruct (IH (Server.mk_rng (Server.stream rng)
                      (S (S (S (S (Server.position rng)))))) Hpos) as [HF Hs].
      split; [|exact Hs].
      constructor; [|exact HF].
      pose proof (Hpos (S (S (Server.position rng)))) as Hfuel.
      pose proof (Hpos (S (S (S (Server.position rng))))) as Hco2.
      unfold tick_frame. split; [congruence|].
      cbn [Truck.drift Truck.fuel_saved Truck.co2_reduced Truck.status Truck.route].
      repeat split; nra.
    + destruct (IH rng Hpos) as [HF Hs].
      split; [|exact Hs].
      constructor; [apply tick_frame_refl | exact HF].
Qed.

(** The loop changes neither the status nor the route of any truck, whatever
    the generator gives. *)
Lemma update_trucks_status_route trucks rng :
  Forall2 (fun x x' => Truck.status x' = Truck.status x /\
                       Truck.route x' = Truck.route x)
          trucks (fst (Server.update_trucks trucks rng)).
Proof.
  revert rng. induction trucks as [|truck rest IH]; intros rng.
  - constructor.
  - rewrite update_trucks_cons. destruct (is_en_route truck).
    + constructor; [split; reflexivity | apply IH].
    + constructor; [split; reflexivity | apply IH].
Qed.

(** What a tick does to the system, by cases on the subscriber list. *)
Lemma tick_system rng send_fails srv sys :
  Server.supply_chain_system srv = Some sys ->
  (Server.active_connections srv = [] /\
   Server.tick rng send_fails srv = (srv, rng, [])) \/
  (Server.active_connections srv <> [] /\
   exists sys',
     Server.supply_chain_system (fst (fst (Server.tick rng send_fails srv)))
       = Some sys' /\
     WalmartSupplyChainCrew.trucks sys'
       = fst (Server.update_trucks (WalmartSupplyChainCrew.trucks sys) rng) /\
     WalmartSupplyChainCrew.warehouses sys' = WalmartSupplyChainCrew.warehouses sys /\
     WalmartSupplyChainCrew.demand_history sys'
       = WalmartSupplyChainCrew.demand_history sys /\
     PerformanceMetrics.efficiency_score
       (WalmartSupplyChainCrew.performance_metrics sys') <= 99 /\
     PerformanceMetrics.active_routes (WalmartSupplyChainCrew.performance_metrics sys')
       = PerformanceMetrics.active_routes
           (WalmartSupplyChainCrew.performance_metrics sys)).
Proof.
  intros Hsys. unfold Server.tick. rewrite Hsys.
  destruct (Server.active_connections srv) as [|c conns] eqn:Econ.
  - left. split; reflexivity.
  - right. split; [discriminate|].
    cbn [length Nat.ltb Nat.leb].
    destruct (Server.update_trucks _ rng) as [trucks' rng1] eqn:Eup.
    destruct (Server.uniform (-0.5) 0.5 rng1) as [delta rng2] eqn:Eun.
    destruct (ConnectionManager.broadcast _ _ _) as [conns' sent] eqn:Ebr.
    eexists. split; [reflexivity|]. simpl.
    repeat split. apply py_min_spec.
Qed.

Lemma tick_no_subscriber rng send_fails srv :
  Server.active_connections srv = [] ->
  Server.tick rng send_fails srv = (srv, rng, []).
Proof.
  intros Hnil. unfold Server.tick. rewrite Hnil.
  destruct (Server.supply_chain_system srv); reflexivity.
Qed.

(** C10: with no subscriber a tick changes nothing at all: the server state
    (trucks, metrics, subscriber list) is the same, no random number is
    drawn and nothing is sent; this holds for any number of rounds of the
    loop. A tick that changes the state therefore had a subscriber. *)
Theorem tick_without_subscribers_changes_nothing rng send_fails srv :
  (Server.active_connections srv = [] ->
   Server.tick rng (send_fails 0%nat) srv = (srv, rng, []) /\
   (forall iterations,
      Server.simulate_real_time_updates iterations rng send_fails srv
      = (srv, rng, []))) /\
  (fst (fst (Server.tick rng (send_fails 0%nat) srv)) <> srv ->
   Server.active_connections srv <> []).
Proof.
  split.
  - intros Hnil. split; [now apply tick_no_subscriber|].
    induction iterations as [|n IH]; simpl; [reflexivity|].
    rewrite IH, tick_no_subscriber by exact Hnil. reflexivity.
  - intros Hch Hnil. apply Hch.
    rewrite tick_no_subscriber by exact Hnil. reflexivity.
Qed.

Lemma tick_without_subscribers_changes_nothing_witness :
  Server.tick (Server.mk_rng (fun _ => 1 # 2) 0) (fun _ => false)
    (Server.mk (Some WalmartSupplyChainCrew.__init__) [])
  = (Server.mk (Some WalmartSupplyChainCrew.__init__) [],
     Server.mk_rng (fun _ => 1 # 2) 0, []) /\
  Server.active_connections
    (Server.mk (Some WalmartSupplyChainCrew.__init__) [1%nat]) <> [].
Proof.
  split.
  - apply (proj1 (proj1 (tick_without_subscribers_changes_nothing
                           (Server.mk_rng (fun _ => 1 # 2) 0) (fun _ _ => false)
                           (Server.mk (Some WalmartSupplyChainCrew.__init__) []))
                    eq_refl)).
  - apply (proj2 (tick_without_subscribers_changes_nothing
                    (Server.mk_rng (fun _ => 1 # 2) 0) (fun _ _ => false)
                    (Server.mk (Some WalmartSupplyChainCrew.__init__) [1%nat]))).
    vm_compute. intros E. inversion E.
Defined.

(** ** Operations on the system and what they keep *)

Lemma optimize_route_cases self origin_warehouse_id destination_requests crew_result :
  (fst (WalmartSupplyChainCrew.optimize_route self origin_warehouse_id
          destination_requests crew_result) = self /\
   (List.find (fun w => (Warehouse.id w =? origin_warehouse_id)%Z)
      (WalmartSupplyChainCrew.warehouses self) = None \/ crew_result = None)) \/
  (exists w result,
     List.find (fun w => (Warehouse.id w =? origin_warehouse_id)%Z)
       (WalmartSupplyChainCrew.warehouses self) = Some w /\
     crew_result = Some result /\
     WalmartSupplyChainCrew.optimize_route self origin_warehouse_id
       destination_requests crew_result
     = (WalmartSupplyChainCrew.mk
          (WalmartSupplyChainCrew.warehouses self)
          (WalmartSupplyChainCrew.trucks self)
          (WalmartSupplyChainCrew.demand_history self)
          (PerformanceMetrics.mk
             (PerformanceMetrics.total_distance_saved
                (WalmartSupplyChainCrew.performance_metrics self))
             (PerformanceMetrics.fuel_saved
                (WalmartSupplyChainCrew.performance_metrics self))
             (PerformanceMetrics.co2_reduced
                (WalmartSupplyChainCrew.performance_metrics self))
             (py_min 99
                (PerformanceMetrics.efficiency_score
                   (WalmartSupplyChainCrew.performance_metrics self) + 0.5))
             (PerformanceMetrics.active_routes
                (WalmartSupplyChainCrew.performance_metrics self) + 1)),
        WalmartSupplyChainCrew.Optimized result)).
Proof.
  unfold WalmartSupplyChainCrew.optimize_route.
  destruct (List.find _ _) as [w|]; [|left; auto].
  destruct crew_result as [result|]; [|left; auto].
  right. exists w, result. auto.
Qed.

Lemma dispatch_truck_cases send_fails truck_id route_id priority srv :
  (fst (fst (Server.dispatch_truck send_fails truck_id route_id priority srv)) = srv /\
   exists code detail,
     snd (fst (Server.dispatch_truck send_fails truck_id route_id priority srv))
     = Server.HTTPException code detail) \/
  (exists sys i truck,
     Server.supply_chain_system srv = Some sys /\
     WalmartSupplyChainCrew.trucks sys !! i = Some truck /\
     Truck.id truck = truck_id /\
     Truck.status truck = "idle" /\
     Server.supply_chain_system
       (fst (fst (Server.dispatch_truck send_fails truck_id route_id priority srv)))
     = Some (Server.with_trucks
               (<[i := Truck.set_status "en-route" truck]>
                  (WalmartSupplyChainCrew.trucks sys)) sys) /\
     snd (fst (Server.dispatch_truck send_fails truck_id route_id priority srv))
     = Server.JSONResponse truck_id "en-route").
Proof.
  unfold Server.dispatch_truck.
  destruct (Server.supply_chain_system srv) as [sys|] eqn:Esys;
    [|left; simpl; eauto].
  destruct (list_find _ _) as [[i truck]|] eqn:Efind; [|left; simpl; eauto].
  apply list_find_Some in Efind as (Hl & Hid & _).
  destruct (is_idle truck) eqn:Eidle; [|left; simpl; eauto].
  simpl. destruct (ConnectionManager.broadcast _ _ _) as [conns sent].
  right. exists sys, i, truck.
  apply is_idle_true in Eidle. simpl. auto 10.
Qed.

Lemma Forall2_frame_idle_no_route trucks trucks' :
  Forall2 (fun x x' => Truck.status x' = Truck.status x /\
                       Truck.route x' = Truck.route x) trucks trucks' ->
  Forall idle_has_no_route trucks -> Forall idle_has_no_route trucks'.
Proof.
  induction 1 as [|x x' l l' [Hs Hr] _ IH]; intros Hall; [constructor|].
  inversion Hall as [|? ? Hx Hl]; subst.
  constructor; [|now apply IH].
  unfold idle_has_no_route in *. rewrite Hs, Hr. exact Hx.
Qed.

Lemma Forall2_frame_invariant trucks trucks' :
  Forall2 (fun x x' => Truck.status x' = Truck.status x /\
                       Truck.route x' = Truck.route x) trucks trucks' ->
  Forall status_route_invariant trucks -> Forall status_route_invariant trucks'.
Proof.
  induction 1 as [|x x' l l' [Hs Hr] _ IH]; intros Hall; [constructor|].
  inversion Hall as [|? ? Hx Hl]; subst.
  constructor; [|now apply IH].
  unfold status_route_invariant in *. rewrite Hs, Hr. exact Hx.
Qed.

Lemma en_route_idle_has_no_route x :
  Truck.status x = "en-route" -> idle_has_no_route x.
Proof. intros Hs Hidle. rewrite Hs in Hidle. discriminate. Qed.

Lemma initial_fleet_invariant :
  Forall status_route_invariant WalmartSupplyChainCrew._initialize_trucks.
Proof. repeat constructor. Qed.

Lemma step_keeps_system_ok srv srv' :
  Server.step srv srv' ->
  (forall sys, Server.supply_chain_system srv = Some sys -> system_ok sys) ->
  forall sys', Server.supply_chain_system srv' = Some sys' -> system_ok sys'.
Proof.
  intros Hstep Hok sys' Hsys'.
  destruct Hstep as [srv|ws srv|ws srv conns Hdis|sf message srv
                    |sys origin reqs crew srv Hsys|sf tid rid pr srv
                    |sys route pr srv Hsys|rng sf srv]; simpl in Hsys'.
  - inversion Hsys'; subst. split.
    + unfold score_capped. simpl. lra.
    + eapply Forall_impl; [apply initial_fleet_invariant|].
      intros x [Hx _]. exact Hx.
  - auto.
  - auto.
  - auto.
  - inversion Hsys'; subst. destruct (Hok sys Hsys) as [Hcap Hidle].
    destruct (optimize_route_cases sys origin reqs crew)
      as [[-> _]|(w & result & _ & _ & ->)]; [split; assumption|].
    split; [|exact Hidle].
    unfold score_capped. simpl. apply py_min_spec.
  - destruct (dispatch_truck_cases sf tid rid pr srv)
      as [[Heq _]|(sys & i & truck & Hsys & Hl & _ & _ & Hnew & _)].
    + rewrite Heq in Hsys'. auto.
    + rewrite Hnew in Hsys'. inversion Hsys'; subst.
      destruct (Hok sys Hsys) as [Hcap Hidle].
      split; [exact Hcap|]. simpl.
      apply Forall_insert; [exact Hidle|].
      now apply en_route_idle_has_no_route.
  - inversion Hsys'; subst. destruct (Hok sys Hsys) as [Hcap Hidle].
    split; [exact Hcap|]. simpl.
    destruct (dispatch_run_cases (WalmartSupplyChainCrew.trucks sys) route pr)
      as [[_ ->]|(i & best & _ & _ & _ & ->)]; [exact Hidle|].
    simpl. apply Forall_insert; [exact Hidle|].
    now apply en_route_idle_has_no_route.
  - destruct (Server.supply_chain_system srv) as [sys|] eqn:Hsys.
    + destruct (Hok sys eq_refl) as [Hcap Hidle].
      destruct (tick_system rng sf srv sys Hsys)
        as [[_ Heq]|(_ & sys1 & Hsys1 & Htr & _ & _ & Hscore & _)].
      * rewrite Heq in Hsys'. simpl in Hsys'.
        rewrite Hsys in Hsys'. inversion Hsys'; subst. split; assumption.
      * rewrite Hsys1 in Hsys'. inversion Hsys'; subst.
        split; [exact Hscore|]. rewrite Htr.
        eapply Forall2_frame_idle_no_route; [|exact Hidle].
        apply update_trucks_status_route.
    + unfold Server.tick in Hsys'. rewrite Hsys in Hsys'. simpl in Hsys'.
      rewrite Hsys in Hsys'. discriminate.
Qed.

Lemma reachable_system_ok srv :
  Server.reachable srv ->
  forall sys, Server.supply_chain_system srv = Some sys -> system_ok sys.
Proof.
  induction 1 as [|srv srv' _ IH Hstep].
  - intros sys Hsys. discriminate.
  - exact (step_keeps_system_ok srv srv' Hstep IH).
Qed.

(** A server that has started and has one subscriber. *)
Lemma reachable_started_with_subscriber :
  Server.reachable (Server.mk (Some WalmartSupplyChainCrew.__init__) [1%nat]).
Proof.
  exact (Server.reachable_step _ _
           (Server.reachable_step _ _ Server.reachable_initial
              (Server.step_startup Server.initial))
           (Server.step_connect 1%nat (Server.startup_event Server.initial))).
Defined.

(** C9: in every state the server can reach, a tick leaves every truck that
    is not en route exactly as it was, lowers the [fuel_saved] and
    [co2_reduced] of no truck, and ends with an efficiency score of at most
    99. The random numbers are those of [random()], in [[0, 1)]. *)
Theorem tick_perturbs_only_en_route_trucks rng send_fails srv sys :
  Server.reachable srv ->
  (forall n, 0 <= Server.stream rng n < 1) ->
  Server.supply_chain_system srv = Some sys ->
  exists sys',
    Server.supply_chain_system (fst (fst (Server.tick rng send_fails srv)))
      = Some sys' /\
    length (WalmartSupplyChainCrew.trucks sys')
      = length (WalmartSupplyChainCrew.trucks sys) /\
    (forall i x,
       WalmartSupplyChainCrew.trucks sys !! i = Some x ->
       exists x',
         WalmartSupplyChainCrew.trucks sys' !! i = Some x' /\
         (Truck.status x <> "en-route" -> x' = x) /\
         Truck.fuel_saved x <= Truck.fuel_saved x' /\
         Truck.co2_reduced x <= Truck.co2_reduced x') /\
    PerformanceMetrics.efficiency_score
      (WalmartSupplyChainCrew.performance_metrics sys') <= 99.
Proof.
  intros Hreach Hrng Hsys.
  destruct (reachable_system_ok srv Hreach sys Hsys) as [Hcap _].
  destruct (tick_system rng send_fails srv sys Hsys)
    as [[_ Heq]|(_ & sys' & Hsys' & Htr & _ & _ & Hscore & _)].
  - exists sys. rewrite Heq. simpl.
    split; [exact Hsys|]. split; [reflexivity|]. split; [|exact Hcap].
    intros i x Hx. exists x. split; [exact Hx|]. split; [auto|]. split; lra.
  - exists sys'. split; [exact Hsys'|].
    destruct (update_trucks_frame (WalmartSupplyChainCrew.trucks sys) rng)
      as [HF _]; [intros n; apply Hrng|].
    rewrite <- Htr in HF.
    split; [symmetry; exact (Forall2_length _ _ _ HF)|].
    split; [|exact Hscore].
    intros i x Hx.
    destruct (Forall2_lookup_l _ _ _ _ _ HF Hx) as (x' & Hx' & Hfr & Hfuel & Hco2 & _).
    exists x'. split; [exact Hx'|].
    split; [intros Hne; apply Hfr; now apply is_en_route_false|].
    split; assumption.
Qed.

Lemma tick_perturbs_only_en_route_trucks_witness :
  exists sys',
    Server.supply_chain_system
      (fst (fst (Server.tick (Server.mk_rng (fun _ => 1 # 2) 0) (fun _ => false)
                   (Server.mk (Some WalmartSupplyChainCrew.__init__) [1%nat]))))
      = Some sys' /\
    PerformanceMetrics.efficiency_score
      (WalmartSupplyChainCrew.performance_metrics sys') <= 99.
Proof.
  destruct (tick_perturbs_only_en_route_trucks
              (Server.mk_rng (fun _ => 1 # 2) 0) (fun _ => false)
              (Server.mk (Some WalmartSupplyChainCrew.__init__) [1%nat])
              WalmartSupplyChainCrew.__init__
              reachable_started_with_subscriber)
    as (sys' & Hsys' & _ & _ & Hscore).
  - intros n. simpl. lra.
  - reflexivity.
  - exists sys'. split; assumption.
Defined.

(** An en-route truck does move and its counters do grow: the tick after
    the first truck of the fleet was dispatched, with every draw at 1/2. *)
Example tick_moves_dispatched_truck :
  let srv :=
    fst (fst (Server.dispatch_truck (fun _ => false) "T001" "route_1" "medium"
                (Server.mk (Some WalmartSupplyChainCrew.__init__) [1%nat]))) in
  let srv' :=
    fst (fst (Server.tick (Server.mk_rng (fun _ => 1 # 2) 0) (fun _ => false) srv)) in
  exists sys',
    Server.supply_chain_system srv' = Some sys' /\
    Forall2 (fun x fuel => Truck.fuel_saved x == fuel)
      (WalmartSupplyChainCrew.trucks sys') [0.05; 0; 0; 0] /\
    PerformanceMetrics.efficiency_score
      (WalmartSupplyChainCrew.performance_metrics sys') == 0.
Proof.
  eexists. split; [vm_compute; reflexivity|].
  split; [repeat constructor|]; vm_compute; reflexivity.
Qed.

(** ** Status and route *)

Lemma dispatched_invariant route x :
  OptimizedRoute.waypoints route <> [] ->
  status_route_invariant (dispatched route x).
Proof.
  intros Hne. unfold status_route_invariant. simpl.
  split; [discriminate | intros E; destruct (Hne E)].
Qed.

(** C7, as the code has it: in every state the server can reach by
    initialization, dispatch of a route, dispatch of a truck by id and
    telemetry ticks, a truck whose status is ['idle'] has an empty route.
    The converse holds for the initial fleet and is kept by a tick and by
    the dispatch of a route that has at least one waypoint. *)
Theorem idle_trucks_have_empty_routes :
  (forall srv sys x,
     Server.reachable srv ->
     Server.supply_chain_system srv = Some sys ->
     In x (WalmartSupplyChainCrew.trucks sys) ->
     Truck.status x = "idle" -> Truck.route x = []) /\
  Forall status_route_invariant WalmartSupplyChainCrew._initialize_trucks /\
  (forall rng send_fails srv sys sys',
     Server.supply_chain_system srv = Some sys ->
     Server.supply_chain_system (fst (fst (Server.tick rng send_fails srv)))
       = Some sys' ->
     Forall status_route_invariant (WalmartSupplyChainCrew.trucks sys) ->
     Forall status_route_invariant (WalmartSupplyChainCrew.trucks sys')) /\
  (forall trucks route priority,
     OptimizedRoute.waypoints route <> [] ->
     Forall status_route_invariant trucks ->
     Forall status_route_invariant
       (fst (TruckDispatchTool._run trucks route priority))).
Proof.
  split; [|split; [|split]].
  - intros srv sys x Hreach Hsys Hin.
    destruct (reachable_system_ok srv Hreach sys Hsys) as [_ Hidle].
    rewrite Forall_forall in Hidle. apply Hidle. now apply list_elem_of_In.
  - apply initial_fleet_invariant.
  - intros rng sf srv sys sys' Hsys Hsys' Hinv.
    destruct (tick_system rng sf srv sys Hsys)
      as [[_ Heq]|(_ & sys1 & Hsys1 & Htr & _)].
    + rewrite Heq in Hsys'. simpl in Hsys'. rewrite Hsys in Hsys'.
      inversion Hsys'; subst. exact Hinv.
    + rewrite Hsys1 in Hsys'. inversion Hsys'; subst. rewrite Htr.
      eapply Forall2_frame_invariant; [|exact Hinv].
      apply update_trucks_status_route.
  - intros trucks route priority Hne Hinv.
    destruct (dispatch_run_cases trucks route priority)
      as [[_ ->]|(i & best & _ & _ & _ & ->)]; [exact Hinv|].
    simpl. apply Forall_insert; [exact Hinv|].
    now apply dispatched_invariant.
Qed.

Lemma idle_trucks_have_empty_routes_witness :
  Truck.route (Truck.mk "T001" "John Smith" 100 0 32.7767 (-96.7970) "idle" []
                 98.5 0 0 0 0) = [] /\
  Forall status_route_invariant
    (fst (TruckDispatchTool._run WalmartSupplyChainCrew._initialize_trucks
            (OptimizedRoute.mk "route_0" "Optimized Route - 1 stops"
               [RouteWaypoint.mk (PNum 0) (PNum 0) "pickup" (PStr "Dallas DC")
                  "Pickup inventory from Dallas DC"]
               0 "0h 0m" 99 "medium" None)
            "medium")).
Proof.
  split.
  - apply (proj1 idle_trucks_have_empty_routes
             (Server.mk (Some WalmartSupplyChainCrew.__init__) [1%nat])
             WalmartSupplyChainCrew.__init__
             (Truck.mk "T001" "John Smith" 100 0 32.7767 (-96.7970) "idle" []
                98.5 0 0 0 0)
             reachable_started_with_subscriber eq_refl).
    + left. reflexivity.
    + reflexivity.
  - apply (proj2 (proj2 (proj2 idle_trucks_have_empty_routes))).
    + discriminate.
    + apply (proj1 (proj2 idle_trucks_have_empty_routes)).
Defined.

(** The route that the planner returns for no warehouse and no delivery has
    no waypoint; dispatching it leaves the chosen truck en route with an
    empty route. *)
Lemma dispatch_of_empty_route_breaks_invariant :
  exists route recs x,
    @RouteOptimizationTool._run grid_runtime 0 [] [] 100
      = RouteOptimizationTool.Success route recs /\
    fst (TruckDispatchTool._run WalmartSupplyChainCrew._initialize_trucks
           route "medium") !! 0%nat = Some x /\
    Truck.status x = "en-route" /\
    Truck.route x = [] /\
    ~ status_route_invariant x.
Proof.
  do 3 eexists. split; [vm_compute; reflexivity|].
  split; [vm_compute; reflexivity|].
  split; [reflexivity|]. split; [reflexivity|].
  intros [_ Hc]. specialize (Hc eq_refl). discriminate.
Qed.

(** The endpoint that dispatches a truck by id sets the status and nothing
    else: the truck is en route with the empty route it had. *)
Example dispatch_truck_leaves_route_empty :
  exists sys' x,
    Server.supply_chain_system
      (fst (fst (Server.dispatch_truck (fun _ => false) "T001" "route_1" "medium"
                   (Server.mk (Some WalmartSupplyChainCrew.__init__) []))))
      = Some sys' /\
    WalmartSupplyChainCrew.trucks sys' !! 0%nat = Some x /\
    Truck.status x = "en-route" /\ Truck.route x = [].
Proof. do 2 eexists. repeat split; vm_compute; reflexivity. Qed.

(** ** Global metrics *)

(** C8, as the code has it: a call of [optimize_route] whose origin warehouse
    exists and whose crew run returns adds exactly 1 to [active_routes] and
    sets [efficiency_score] to [min(99, previous + 0.5)], whatever the crew
    did; it changes no other metric, no truck, no warehouse. A call with an
    unknown origin, or whose crew run raises, changes nothing. The endpoint
    that dispatches a truck changes no metric. *)
Theorem optimize_route_updates_metrics
    self origin_warehouse_id destination_requests crew_result :
  ((exists w, In w (WalmartSupplyChainCrew.warehouses self) /\
              Warehouse.id w = origin_warehouse_id) ->
   forall result, crew_result = Some result ->
   exists self',
     WalmartSupplyChainCrew.optimize_route self origin_warehouse_id
       destination_requests crew_result
     = (self', WalmartSupplyChainCrew.Optimized result) /\
     PerformanceMetrics.active_routes (WalmartSupplyChainCrew.performance_metrics self')
     = (PerformanceMetrics.active_routes
          (WalmartSupplyChainCrew.performance_metrics self) + 1)%Z /\
     PerformanceMetrics.efficiency_score
       (WalmartSupplyChainCrew.performance_metrics self')
     = py_min 99 (PerformanceMetrics.efficiency_score
                    (WalmartSupplyChainCrew.performance_metrics self) + 0.5) /\
     PerformanceMetrics.total_distance_saved
       (WalmartSupplyChainCrew.performance_metrics self')
     = PerformanceMetrics.total_distance_saved
         (WalmartSupplyChainCrew.performance_metrics self) /\
     PerformanceMetrics.fuel_saved (WalmartSupplyChainCrew.performance_metrics self')
     = PerformanceMetrics.fuel_saved (WalmartSupplyChainCrew.performance_metrics self) /\
     PerformanceMetrics.co2_reduced (WalmartSupplyChainCrew.performance_metrics self')
     = PerformanceMetrics.co2_reduced (WalmartSupplyChainCrew.performance_metrics self) /\
     WalmartSupplyChainCrew.trucks self' = WalmartSupplyChainCrew.trucks self /\
     WalmartSupplyChainCrew.warehouses self' = WalmartSupplyChainCrew.warehouses self /\
     WalmartSupplyChainCrew.demand_history self'
     = WalmartSupplyChainCrew.demand_history self) /\
  ((forall w, In w (WalmartSupplyChainCrew.warehouses self) ->
              Warehouse.id w <> origin_warehouse_id) ->
   WalmartSupplyChainCrew.optimize_route self origin_warehouse_id
     destination_requests crew_result
   = (self, WalmartSupplyChainCrew.NotOptimized "Origin warehouse not found")) /\
  (crew_result = None ->
   fst (WalmartSupplyChainCrew.optimize_route self origin_warehouse_id
          destination_requests crew_result) = self) /\
  (forall send_fails truck_id route_id priority srv sys',
     Server.supply_chain_system srv = Some self ->
     Server.supply_chain_system
       (fst (fst (Server.dispatch_truck send_fails truck_id route_id priority srv)))
       = Some sys' ->
     WalmartSupplyChainCrew.performance_metrics sys'
     = WalmartSupplyChainCrew.performance_metrics self).
Proof.
  split; [|split; [|split]].
  - intros (w & Hin & Hid) result ->.
    destruct (optimize_route_cases self origin_warehouse_id destination_requests
                (Some result))
      as [[_ [Hnone|Hc]]|(w' & result' & _ & Hres & ->)].
    + apply (find_none _ _ Hnone) in Hin. apply Z.eqb_neq in Hin. contradiction.
    + discriminate.
    + inversion Hres; subst result'. eexists. split; [reflexivity|].
      simpl. repeat split.
  - intros Hnone. unfold WalmartSupplyChainCrew.optimize_route.
    destruct (List.find _ _) as [w|] eqn:Efind; [|reflexivity].
    apply find_some in Efind as [Hin Hid]. apply Z.eqb_eq in Hid.
    destruct (Hnone w Hin Hid).
  - intros ->. unfold WalmartSupplyChainCrew.optimize_route.
    destruct (List.find _ _); reflexivity.
  - intros sf tid rid pr srv sys' Hsys Hsys'.
    destruct (dispatch_truck_cases sf tid rid pr srv)
      as [[Heq _]|(sys & i & truck & Hsys0 & _ & _ & _ & Hnew & _)].
    + rewrite Heq in Hsys'. congruence.
    + rewrite Hnew in Hsys'. inversion Hsys'; subst.
      rewrite Hsys in Hsys0. inversion Hsys0; subst. reflexivity.
Qed.

Lemma optimize_route_updates_metrics_witness :
  exists self',
    WalmartSupplyChainCrew.optimize_route WalmartSupplyChainCrew.__init__ 1
      [stop "Plano Store" 33.0198 (-96.6989)] (Some "plan")
    = (self', WalmartSupplyChainCrew.Optimized "plan") /\
    PerformanceMetrics.active_routes (WalmartSupplyChainCrew.performance_metrics self')
    = 1%Z.
Proof.
  destruct (proj1 (optimize_route_updates_metrics WalmartSupplyChainCrew.__init__ 1
                     [stop "Plano Store" 33.0198 (-96.6989)] (Some "plan")))
    with (result := "plan") as (self' & Hrun & Har & _).
  - eexists. split; [left; reflexivity | reflexivity].
  - reflexivity.
  - exists self'. split; [exact Hrun | exact Har].
Defined.

(** The counters do not follow the dispatches: a truck is dispatched by id
    and no counter moves; [optimize_route] runs on a fleet without any idle
    truck, dispatches nothing, and counts one more active route. *)
Lemma metrics_do_not_follow_dispatch :
  (exists sys',
     Server.dispatch_truck (fun _ => false) "T001" "route_1" "medium"
       (Server.mk (Some WalmartSupplyChainCrew.__init__) [])
     = (Server.mk (Some sys') [], Server.JSONResponse "T001" "en-route", []) /\
     WalmartSupplyChainCrew.performance_metrics sys'
     = WalmartSupplyChainCrew.performance_metrics WalmartSupplyChainCrew.__init__ /\
     PerformanceMetrics.active_routes
       (WalmartSupplyChainCrew.performance_metrics sys') = 0%Z) /\
  (exists busy self',
     busy = Server.with_trucks
              (map (Truck.set_status "en-route")
                   WalmartSupplyChainCrew._initialize_trucks)
              WalmartSupplyChainCrew.__init__ /\
     TruckDispatchTool.available_trucks (WalmartSupplyChainCrew.trucks busy) = [] /\
     fst (WalmartSupplyChainCrew.optimize_route busy 1 [] (Some "no truck is idle"))
     = self' /\
     WalmartSupplyChainCrew.trucks self' = WalmartSupplyChainCrew.trucks busy /\
     PerformanceMetrics.active_routes
       (WalmartSupplyChainCrew.performance_metrics self') = 1%Z).
Proof.
  split.
  - eexists. split; [vm_compute; reflexivity|]. split; reflexivity.
  - do 2 eexists. split; [reflexivity|]. split; [reflexivity|].
    split; [reflexivity|]. split; reflexivity.
Qed.

(** * Further properties of the code *)

(** ** Connection manager *)

Lemma remove_first_In x y (l : list WebSocket) :
  In y (ConnectionManager.remove_first x l) -> In y l.
Proof.
  induction l as [|z l IH]; simpl; [tauto|].
  destruct (Nat.eqb x z); [auto|].
  intros [->|Hin]; auto.
Qed.

Lemma remove_first_keeps x y (l : list WebSocket) :
  In y l -> y <> x -> In y (ConnectionManager.remove_first x l).
Proof.
  induction l as [|z l IH]; simpl; [tauto|].
  intros Hin Hne. destruct (Nat.eqb x z) eqn:E.
  - apply Nat.eqb_eq in E. subst z. destruct Hin as [->|Hin]; [congruence | exact Hin].
  - destruct Hin as [->|Hin]; [left; reflexivity | right; auto].
Qed.

Lemma remove_first_sublist x (l : list WebSocket) :
  ConnectionManager.remove_first x l `sublist_of` l.
Proof.
  induction l as [|z l IH]; simpl; [constructor|].
  destruct (Nat.eqb x z); [apply sublist_cons_r; left; reflexivity|].
  now constructor.
Qed.

Lemma existsb_eqb_In x (l : list WebSocket) :
  existsb (Nat.eqb x) l = true <-> In x l.
Proof.
  rewrite existsb_exists. split.
  - intros (y & Hin & E). apply Nat.eqb_eq in E. now subst.
  - intros Hin. exists x. split; [exact Hin | apply Nat.eqb_refl].
Qed.

Section BroadcastSound.
Context {M : Type} (send_fails : WebSocket -> bool) (message : M).

Lemma broadcast_loop_sound fuel i (conns : list WebSocket) sent :
  fst (ConnectionManager.broadcast_loop send_fails message fuel i conns sent)
    `sublist_of` conns /\
  (forall c, In c conns -> send_fails c = false ->
     In c (fst (ConnectionManager.broadcast_loop send_fails message fuel i conns sent))) /\
  exists new,
    snd (ConnectionManager.broadcast_loop send_fails message fuel i conns sent)
      = sent ++ new /\
    forall c m, In (c, m) new ->
      m = message /\ In c conns /\ send_fails c = false.
Proof.
  revert i conns sent. induction fuel as [|fuel IH]; intros i conns sent.
  - simpl. split; [reflexivity|]. split; [auto|].
    exists []. split; [now rewrite app_nil_r | intros c m []].
  - rewrite broadcast_loop_step.
    destruct (conns !! i) as [c|] eqn:Hc.
    + assert (In c conns) as Hin
        by (apply list_elem_of_In, list_elem_of_lookup; eauto).
      destruct (send_fails c) eqn:Hf.
      * destruct (IH (S i) (ConnectionManager.remove_first c conns) sent)
          as (Hsub & Hkeep & new & Hnew & Hall).
        split; [etransitivity; [exact Hsub | apply remove_first_sublist]|].
        split.
        -- intros c' Hin' Hok. apply Hkeep; [|exact Hok].
           apply remove_first_keeps; [exact Hin' | congruence].
        -- exists new. split; [exact Hnew|].
           intros c' m Hcm. destruct (Hall c' m Hcm) as (Hm & Hin' & Hok).
           split; [exact Hm|]. split; [|exact Hok].
           eapply remove_first_In. exact Hin'.
      * destruct (IH (S i) conns (sent ++ [(c, message)]))
          as (Hsub & Hkeep & new & Hnew & Hall).
        split; [exact Hsub|]. split; [exact Hkeep|].
        exists ((c, message) :: new). split.
        -- rewrite Hnew, <- app_assoc. reflexivity.
        -- intros c' m [E|Hcm]; [inversion E; subst; auto | auto].
    + simpl. split; [reflexivity|]. split; [auto|].
      exists []. split; [now rewrite app_nil_r | intros c m []].
Qed.

(** With [c2] at the head of the list and nowhere else, and the iterator
    past the head, the loop never sends to [c2] and leaves it at the head. *)
Lemma broadcast_loop_skips_head fuel i c2 (tl : list WebSocket) sent :
  (1 <= i)%nat ->
  ~ In c2 tl ->
  (forall m, ~ In (c2, m) sent) ->
  (exists tl',
     fst (ConnectionManager.broadcast_loop send_fails message fuel i (c2 :: tl) sent)
     = c2 :: tl') /\
  (forall m,
     ~ In (c2, m)
       (snd (ConnectionManager.broadcast_loop send_fails message fuel i (c2 :: tl) sent))).
Proof.
  revert i tl sent. induction fuel as [|fuel IH]; intros i tl sent Hi Hno Hsent.
  - simpl. eauto.
  - rewrite broadcast_loop_step.
    destruct ((c2 :: tl) !! i) as [c|] eqn:Hc; [|simpl; eauto].
    destruct i as [|i]; [lia|]. simpl in Hc.
    assert (In c tl) as Hin by (apply list_elem_of_In, list_elem_of_lookup; eauto).
    assert (c <> c2) as Hne by (intros ->; contradiction).
    destruct (send_fails c).
    + simpl. destruct (Nat.eqb c c2) eqn:E;
        [apply Nat.eqb_eq in E; contradiction|].
      apply IH; [lia | | exact Hsent].
      intros Hin'. apply Hno. eapply remove_first_In. exact Hin'.
    + apply IH; [lia | exact Hno |].
      intros m Hin'. apply in_app_or in Hin' as [Hin'|[E|[]]].
      * exact (Hsent m Hin').
      * inversion E. congruence.
Qed.
End BroadcastSound.

(** X1: when no send fails, a broadcast delivers the message to every
    subscribed connection, once for each place it has in the list and in
    list order, and leaves the list of connections as it was. *)
Theorem broadcast_delivers_to_all_when_healthy
    {M : Type} (send_fails : WebSocket -> bool) (message : M)
    (conns : list WebSocket) :
  (forall c, In c conns -> send_fails c = false) ->
  ConnectionManager.broadcast send_fails message conns
  = (conns, map (fun c => (c, message)) conns).
Proof.
  intros Hok. unfold ConnectionManager.broadcast.
  rewrite broadcast_loop_all_sent by (auto; lia). reflexivity.
Qed.

Lemma broadcast_delivers_to_all_when_healthy_witness :
  ConnectionManager.broadcast (Nat.eqb 9) "tick" [1; 2; 3]%nat
  = ([1; 2; 3]%nat, [(1%nat, "tick"); (2%nat, "tick"); (3%nat, "tick")]).
Proof.
  apply (broadcast_delivers_to_all_when_healthy (Nat.eqb 9) "tick" [1; 2; 3]%nat).
  intros c [<-|[<-|[<-|[]]]]; reflexivity.
Defined.

(** X2: whatever sends fail, a broadcast never adds a connection and never
    reorders the list (what remains is a sublist of what was there), never
    drops a connection whose send works, and sends nothing but the given
    message, and only to subscribed connections whose send works. *)
Theorem broadcast_is_sound
    {M : Type} (send_fails : WebSocket -> bool) (message : M)
    (conns : list WebSocket) :
  fst (ConnectionManager.broadcast send_fails message conns) `sublist_of` conns /\
  (forall c, In c conns -> send_fails c = false ->
     In c (fst (ConnectionManager.broadcast send_fails message conns))) /\
  (forall c m, In (c, m) (snd (ConnectionManager.broadcast send_fails message conns)) ->
     m = message /\ In c conns /\ send_fails c = false).
Proof.
  unfold ConnectionManager.broadcast.
  destruct (broadcast_loop_sound send_fails message (length conns) 0 conns [])
    as (Hsub & Hkeep & new & Hnew & Hall).
  split; [exact Hsub|]. split; [exact Hkeep|].
  intros c m Hin. rewrite Hnew in Hin. simpl in Hin. auto.
Qed.

Lemma broadcast_is_sound_witness :
  In 3%nat (fst (ConnectionManager.broadcast (Nat.eqb 1) "tick" [1; 2; 3]%nat)).
Proof.
  apply (proj1 (proj2 (broadcast_is_sound (Nat.eqb 1) "tick" [1; 2; 3]%nat))).
  - right; right; left; reflexivity.
  - reflexivity.
Defined.

(** X3: when the send to the first connection of the list fails, the
    connection that follows it (if it has no other place in the list) is
    passed over: it stays subscribed, at the head of the list, and is sent
    nothing by this broadcast, whether its own send would work or not. *)
Theorem broadcast_passes_over_the_next_connection
    {M : Type} (send_fails : WebSocket -> bool) (message : M)
    (c1 c2 : WebSocket) (rest : list WebSocket) :
  send_fails c1 = true ->
  ~ In c2 rest ->
  (exists tl,
     fst (ConnectionManager.broadcast send_fails message (c1 :: c2 :: rest))
     = c2 :: tl) /\
  (forall m,
     ~ In (c2, m)
       (snd (ConnectionManager.broadcast send_fails message (c1 :: c2 :: rest)))).
Proof.
  intros Hfail Hno.
  rewrite (broadcast_after_head_failure send_fails message c1 c2 rest Hfail).
  apply broadcast_loop_skips_head; [lia | exact Hno | intros m []].
Qed.

Lemma broadcast_passes_over_the_next_connection_witness :
  (exists tl,
     fst (ConnectionManager.broadcast (Nat.eqb 1) "tick" [1; 2; 3]%nat) = 2%nat :: tl) /\
  ~ In (2%nat, "tick")
      (snd (ConnectionManager.broadcast (Nat.eqb 1) "tick" [1; 2; 3]%nat)).
Proof.
  destruct (broadcast_passes_over_the_next_connection (Nat.eqb 1) "tick"
              1%nat 2%nat [3%nat] eq_refl) as [Hhead Hsent].
  - intros [E|[]]. discriminate.
  - split; [exact Hhead | apply Hsent].
Defined.

Lemma remove_first_app_new x (l : list WebSocket) :
  ~ In x l -> ConnectionManager.remove_first x (l ++ [x]) = l.
Proof.
  induction l as [|z l IH]; simpl; intros Hno.
  - now rewrite Nat.eqb_refl.
  - destruct (Nat.eqb x z) eqn:E.
    + apply Nat.eqb_eq in E. subst z. destruct Hno. now left.
    + f_equal. apply IH. tauto.
Qed.

Lemma remove_first_shorter x (l : list WebSocket) :
  In x l -> S (length (ConnectionManager.remove_first x l)) = length l.
Proof.
  induction l as [|z l IH]; simpl; [tauto|].
  intros Hin. destruct (Nat.eqb x z) eqn:E; [reflexivity|].
  simpl. f_equal. apply IH. destruct Hin as [->|Hin]; [|exact Hin].
  rewrite Nat.eqb_refl in E. discriminate.
Qed.

(** X4: connecting a websocket that is not yet subscribed and then
    disconnecting it gives back the list of connections as it was. *)
Theorem disconnect_undoes_connect (websocket : WebSocket)
    (active_connections : list WebSocket) :
  ~ In websocket active_connections ->
  ConnectionManager.disconnect websocket
    (ConnectionManager.connect websocket active_connections)
  = Some active_connections.
Proof.
  intros Hno. unfold ConnectionManager.disconnect, ConnectionManager.connect.
  replace (existsb (Nat.eqb websocket) (active_connections ++ [websocket]))
    with true
    by (symmetry; apply existsb_eqb_In, in_or_app; right; left; reflexivity).
  now rewrite remove_first_app_new.
Qed.

Lemma disconnect_undoes_connect_witness :
  ConnectionManager.disconnect 3%nat (ConnectionManager.connect 3%nat [1; 2]%nat)
  = Some [1; 2]%nat.
Proof.
  apply (disconnect_undoes_connect 3%nat [1; 2]%nat).
  intros [E|[E|[]]]; discriminate.
Defined.

(** X5: [disconnect] raises ([ValueError] of [list.remove]) exactly when the
    websocket is not in the list; otherwise it takes out one place of that
    websocket and nothing else: the list gets shorter by one and every
    other connection stays. *)
Theorem disconnect_raises_exactly_when_absent (websocket : WebSocket)
    (active_connections : list WebSocket) :
  (ConnectionManager.disconnect websocket active_connections = None <->
   ~ In websocket active_connections) /\
  (forall conns,
     ConnectionManager.disconnect websocket active_connections = Some conns ->
     S (length conns) = length active_connections /\
     conns `sublist_of` active_connections /\
     (forall c, c <> websocket -> In c active_connections -> In c conns)).
Proof.
  unfold ConnectionManager.disconnect.
  destruct (existsb (Nat.eqb websocket) active_connections) eqn:E.
  - apply existsb_eqb_In in E. split.
    + split; [discriminate | intros Hno; contradiction].
    + intros conns Hc. inversion Hc; subst. split.
      * apply remove_first_shorter. exact E.
      * split; [apply remove_first_sublist|].
        intros c Hne Hin. now apply remove_first_keeps.
  - assert (~ In websocket active_connections) as Hno.
    { intros Hin. apply existsb_eqb_In in Hin. congruence. }
    split; [tauto | discriminate].
Qed.

Lemma disconnect_raises_exactly_when_absent_witness :
  ConnectionManager.disconnect 7%nat [1; 2]%nat = None /\
  S (length [1%nat]) = length [1; 2]%nat.
Proof.
  split.
  - apply (proj1 (disconnect_raises_exactly_when_absent 7%nat [1; 2]%nat)).
    intros [E|[E|[]]]; discriminate.
  - apply (proj2 (disconnect_raises_exactly_when_absent 2%nat [1; 2]%nat) [1%nat]).
    reflexivity.
Defined.

(** X6: a connection at the head of the list, subscribed once, whose send
    fails is gone after the broadcast, so that the [disconnect] which the
    websocket handler calls for it afterwards raises. *)
Theorem disconnect_after_failed_broadcast_raises
    {M : Type} (send_fails : WebSocket -> bool) (message : M)
    (c1 : WebSocket) (rest : list WebSocket) :
  send_fails c1 = true ->
  ~ In c1 rest ->
  ~ In c1 (fst (ConnectionManager.broadcast send_fails message (c1 :: rest))) /\
  ConnectionManager.disconnect c1
    (fst (ConnectionManager.broadcast send_fails message (c1 :: rest))) = None.
Proof.
  intros Hfail Hno.
  assert (~ In c1 (fst (ConnectionManager.broadcast send_fails message (c1 :: rest))))
    as Hgone.
  { unfold ConnectionManager.broadcast.
    change (length (c1 :: rest)) with (S (length rest)).
    rewrite broadcast_loop_step. cbn [lookup list_lookup]. rewrite Hfail.
    cbn [ConnectionManager.remove_first]. rewrite Nat.eqb_refl.
    intros Hin. apply Hno.
    destruct (broadcast_loop_sound send_fails message (length rest) 1 rest [])
      as (Hsub & _).
    apply list_elem_of_In. eapply elem_of_sublist; [|exact Hsub].
    now apply list_elem_of_In. }
  split; [exact Hgone|].
  unfold ConnectionManager.disconnect.
  destruct (existsb _ _) eqn:E; [|reflexivity].
  apply existsb_eqb_In in E. contradiction.
Qed.

Lemma disconnect_after_failed_broadcast_raises_witness :
  ConnectionManager.disconnect 1%nat
    (fst (ConnectionManager.broadcast (Nat.eqb 1) "tick" [1; 2; 3]%nat)) = None.
Proof.
  apply (disconnect_after_failed_broadcast_raises (Nat.eqb 1) "tick" 1%nat
           [2; 3]%nat eq_refl).
  intros [E|[E|[]]]; discriminate.
Defined.

(** ** The endpoint that dispatches a truck by id *)

(** The first truck of the list that has the id. *)
Lemma list_find_first_id truck_id (trucks : list Truck.t) i x :
  list_find (fun y => Truck.id y = truck_id) trucks = Some (i, x) <->
  trucks !! i = Some x /\ Truck.id x = truck_id /\
  (forall j y, (j < i)%nat -> trucks !! j = Some y -> Truck.id y <> truck_id).
Proof.
  rewrite list_find_Some. split.
  - intros (Hl & Hid & Hfirst). repeat split; auto.
    intros j y Hj Hy. exact (Hfirst j y Hy Hj).
  - intros (Hl & Hid & Hfirst). repeat split; auto.
    intros j y Hy Hj. exact (Hfirst j y Hj Hy).
Qed.

Lemma dispatch_truck_accepts send_fails truck_id route_id priority srv sys i x :
  Server.supply_chain_system srv = Some sys ->
  list_find (fun y => Truck.id y = truck_id) (WalmartSupplyChainCrew.trucks sys)
    = Some (i, x) ->
  is_idle x = true ->
  Server.dispatch_truck send_fails truck_id route_id priority srv
  = (Server.mk
       (Some (Server.with_trucks
                (<[i := Truck.set_status "en-route" x]>
                   (WalmartSupplyChainCrew.trucks sys)) sys))
       (fst (ConnectionManager.broadcast send_fails
               (truck_dispatched truck_id route_id priority (Truck.driver x))
               (Server.active_connections srv))),
     Server.JSONResponse truck_id "en-route",
     snd (ConnectionManager.broadcast send_fails
            (truck_dispatched truck_id route_id priority (Truck.driver x))
            (Server.active_connections srv))).
Proof.
  intros Hsys Hfind Hidle. unfold Server.dispatch_truck.
  rewrite Hsys, Hfind, Hidle. simpl.
  destruct (ConnectionManager.broadcast _ _ _). reflexivity.
Qed.

Lemma dispatch_truck_busy send_fails truck_id route_id priority srv sys i x :
  Server.supply_chain_system srv = Some sys ->
  list_find (fun y => Truck.id y = truck_id) (WalmartSupplyChainCrew.trucks sys)
    = Some (i, x) ->
  is_idle x = false ->
  Server.dispatch_truck send_fails truck_id route_id priority srv
  = (srv, Server.HTTPException 400 "Truck is not available", []).
Proof.
  intros Hsys Hfind Hbusy. unfold Server.dispatch_truck.
  rewrite Hsys, Hfind, Hbusy. reflexivity.
Qed.

(** X7: the body of the endpoint raises an [HTTPException] with 503 when
    the system is not initialized, with 404 when no truck has the id, and
    with 400 when the first truck with that id is not idle (the handler of
    the endpoint raises each again with status 500); and whenever it
    refuses, for whatever reason, the server state is unchanged and nothing
    is broadcast. *)
Theorem dispatch_truck_refusals send_fails truck_id route_id priority srv :
  (Server.supply_chain_system srv = None ->
   Server.dispatch_truck send_fails truck_id route_id priority srv
   = (srv, Server.HTTPException 503 "System not initialized", [])) /\
  (forall sys,
     Server.supply_chain_system srv = Some sys ->
     (forall x, In x (WalmartSupplyChainCrew.trucks sys) -> Truck.id x <> truck_id) ->
     Server.dispatch_truck send_fails truck_id route_id priority srv
     = (srv, Server.HTTPException 404 "Truck not found", [])) /\
  (forall sys i x,
     Server.supply_chain_system srv = Some sys ->
     WalmartSupplyChainCrew.trucks sys !! i = Some x ->
     Truck.id x = truck_id ->
     (forall j y, (j < i)%nat -> WalmartSupplyChainCrew.trucks sys !! j = Some y ->
                  Truck.id y <> truck_id) ->
     Truck.status x <> "idle" ->
     Server.dispatch_truck send_fails truck_id route_id priority srv
     = (srv, Server.HTTPException 400 "Truck is not available", [])) /\
  (forall code detail,
     snd (fst (Server.dispatch_truck send_fails truck_id route_id priority srv))
       = Server.HTTPException code detail ->
     Server.dispatch_truck send_fails truck_id route_id priority srv
     = (srv, Server.HTTPException code detail, [])).
Proof.
  split; [|split; [|split]]; try unfold Server.dispatch_truck.
  - intros ->. reflexivity.
  - intros sys -> Hnone.
    destruct (list_find _ _) as [[i x]|] eqn:Efind; [|reflexivity].
    apply list_find_first_id in Efind as (Hl & Hid & _).
    destruct (Hnone x); [|exact Hid].
    apply list_elem_of_In, list_elem_of_lookup. eauto.
  - intros sys i x Hsys Hl Hid Hfirst Hbusy.
    apply (dispatch_truck_busy send_fails truck_id route_id priority srv sys i x
             Hsys).
    + apply list_find_first_id; auto.
    + now apply is_idle_false.
  - intros code detail.
    destruct (Server.supply_chain_system srv) as [sys|];
      [|simpl; intros E; inversion E; reflexivity].
    destruct (list_find _ _) as [[i x]|];
      [|simpl; intros E; inversion E; reflexivity].
    destruct (is_idle x); simpl; [|intros E; inversion E; reflexivity].
    destruct (ConnectionManager.broadcast _ _ _). simpl. discriminate.
Qed.

Lemma dispatch_truck_refusals_witness :
  Server.dispatch_truck (fun _ => false) "T009" "route_1" "medium"
    (Server.mk (Some WalmartSupplyChainCrew.__init__) [1%nat])
  = (Server.mk (Some WalmartSupplyChainCrew.__init__) [1%nat],
     Server.HTTPException 404 "Truck not found", []) /\
  Server.dispatch_truck (fun _ => false) "T001" "route_1" "medium" Server.initial
  = (Server.initial, Server.HTTPException 503 "System not initialized", []).
Proof.
  split.
  - apply (proj1 (proj2 (dispatch_truck_refusals (fun _ => false) "T009" "route_1"
                           "medium"
                           (Server.mk (Some WalmartSupplyChainCrew.__init__) [1%nat])))
             WalmartSupplyChainCrew.__init__ eq_refl).
    intros x [<-|[<-|[<-|[<-|[]]]]]; discriminate.
  - apply (proj1 (dispatch_truck_refusals (fun _ => false) "T001" "route_1"
                    "medium" Server.initial)).
    reflexivity.
Defined.

(** X8: when the first truck with the requested id is idle, the endpoint
    answers with status ['en-route'], changes the status of that one truck
    and nothing else in the system (its route and its stop counters stay
    as they were, every other truck, the warehouses and the metrics are
    untouched), and broadcasts one [truck_dispatched] message that names the
    driver. *)
Theorem dispatch_truck_changes_only_the_status
    send_fails truck_id route_id priority srv sys i x :
  Server.supply_chain_system srv = Some sys ->
  WalmartSupplyChainCrew.trucks sys !! i = Some x ->
  Truck.id x = truck_id ->
  (forall j y, (j < i)%nat -> WalmartSupplyChainCrew.trucks sys !! j = Some y ->
               Truck.id y <> truck_id) ->
  Truck.status x = "idle" ->
  exists sys' x',
    Server.dispatch_truck send_fails truck_id route_id priority srv
    = (Server.mk (Some sys')
         (fst (ConnectionManager.broadcast send_fails
                 (truck_dispatched truck_id route_id priority (Truck.driver x))
                 (Server.active_connections srv))),
       Server.JSONResponse truck_id "en-route",
       snd (ConnectionManager.broadcast send_fails
              (truck_dispatched truck_id route_id priority (Truck.driver x))
              (Server.active_connections srv))) /\
    WalmartSupplyChainCrew.trucks sys' !! i = Some x' /\
    Truck.status x' = "en-route" /\
    Truck.route x' = Truck.route x /\
    Truck.total_stops x' = Truck.total_stops x /\
    Truck.completed_stops x' = Truck.completed_stops x /\
    Truck.current_load x' = Truck.current_load x /\
    Truck.lat x' = Truck.lat x /\ Truck.lng x' = Truck.lng x /\
    Truck.fuel_saved x' = Truck.fuel_saved x /\
    Truck.co2_reduced x' = Truck.co2_reduced x /\
    (forall j, j <> i ->
       WalmartSupplyChainCrew.trucks sys' !! j = WalmartSupplyChainCrew.trucks sys !! j) /\
    length (WalmartSupplyChainCrew.trucks sys')
      = length (WalmartSupplyChainCrew.trucks sys) /\
    WalmartSupplyChainCrew.warehouses sys' = WalmartSupplyChainCrew.warehouses sys /\
    WalmartSupplyChainCrew.demand_history sys'
      = WalmartSupplyChainCrew.demand_history sys /\
    WalmartSupplyChainCrew.performance_metrics sys'
      = WalmartSupplyChainCrew.performance_metrics sys.
Proof.
  intros Hsys Hl Hid Hfirst Hidle.
  assert (list_find (fun y => Truck.id y = truck_id)
            (WalmartSupplyChainCrew.trucks sys) = Some (i, x)) as Hfind
    by (apply list_find_first_id; auto).
  apply is_idle_true in Hidle.
  do 2 eexists. split;
    [exact (dispatch_truck_accepts send_fails truck_id route_id priority
              srv sys i x Hsys Hfind Hidle)|].
  simpl. split.
  - apply list_lookup_insert_eq. exact (lookup_lt_Some _ _ _ Hl).
  - repeat split.
    + intros j Hne. now apply list_lookup_insert_ne.
    + apply length_insert.
Qed.

Lemma dispatch_truck_changes_only_the_status_witness :
  exists sys',
    fst (fst (Server.dispatch_truck (fun _ => false) "T002" "route_1" "medium"
                (Server.mk (Some WalmartSupplyChainCrew.__init__) [1%nat])))
    = Server.mk (Some sys') [1%nat] /\
    WalmartSupplyChainCrew.performance_metrics sys'
    = WalmartSupplyChainCrew.performance_metrics WalmartSupplyChainCrew.__init__.
Proof.
  destruct (dispatch_truck_changes_only_the_status (fun _ => false) "T002"
              "route_1" "medium"
              (Server.mk (Some WalmartSupplyChainCrew.__init__) [1%nat])
              WalmartSupplyChainCrew.__init__ 1%nat
              (Truck.mk "T002" "Sarah Johnson" 120 0 29.7604 (-95.3698) "idle"
                 [] 97.2 0 0 0 0)
              eq_refl eq_refl eq_refl)
    as (sys' & x' & Hrun & Hrest).
  - intros j y Hj Hy. assert (j = 0)%nat as -> by lia.
    inversion Hy; subst. discriminate.
  - reflexivity.
  - exists sys'. rewrite Hrun. split; [reflexivity|].
    destruct Hrest as (_ & _ & _ & _ & _ & _ & _ & _ & _ & _ & _ & _ & _ & _ & Hm).
    exact Hm.
Defined.

(** X9: a second request for the same truck id, right after a successful
    one, is refused (the body raises the 400 of a truck that is not
    available) and changes nothing: a truck is dispatched by this endpoint
    at most once. *)
Theorem dispatch_truck_twice_is_refused
    send_fails truck_id route_id priority srv status
    send_fails' route_id' priority' :
  snd (fst (Server.dispatch_truck send_fails truck_id route_id priority srv))
    = Server.JSONResponse truck_id status ->
  Server.dispatch_truck send_fails' truck_id route_id' priority'
    (fst (fst (Server.dispatch_truck send_fails truck_id route_id priority srv)))
  = (fst (fst (Server.dispatch_truck send_fails truck_id route_id priority srv)),
     Server.HTTPException 400 "Truck is not available", []).
Proof.
  intros Hok.
  destruct (Server.supply_chain_system srv) as [sys|] eqn:Hsys;
    [|unfold Server.dispatch_truck in Hok; rewrite Hsys in Hok; discriminate].
  destruct (list_find (fun y => Truck.id y = truck_id)
              (WalmartSupplyChainCrew.trucks sys)) as [[i x]|] eqn:Hfind;
    [|unfold Server.dispatch_truck in Hok; rewrite Hsys, Hfind in Hok;
      discriminate].
  destruct (is_idle x) eqn:Hidle;
    [|unfold Server.dispatch_truck in Hok; rewrite Hsys, Hfind, Hidle in Hok;
      discriminate].
  rewrite (dispatch_truck_accepts send_fails truck_id route_id priority
             srv sys i x Hsys Hfind Hidle). simpl.
  apply list_find_first_id in Hfind as (Hl & Hid & Hfirst).
  set (srv' := Server.mk _ _).
  apply (dispatch_truck_busy send_fails' truck_id route_id' priority' srv'
           _ i (Truck.set_status "en-route" x) eq_refl); [|reflexivity].
  apply list_find_first_id. simpl. split; [|split].
  - apply list_lookup_insert_eq. exact (lookup_lt_Some _ _ _ Hl).
  - exact Hid.
  - intros j y Hj Hy.
    rewrite list_lookup_insert_ne in Hy by lia. exact (Hfirst j y Hj Hy).
Qed.

Lemma dispatch_truck_twice_is_refused_witness :
  snd (fst (Server.dispatch_truck (fun _ => false) "T001" "route_2" "high"
              (fst (fst (Server.dispatch_truck (fun _ => false) "T001" "route_1"
                           "medium"
                           (Server.mk (Some WalmartSupplyChainCrew.__init__) [])))))) 
  = Server.HTTPException 400 "Truck is not available".
Proof.
  rewrite (dispatch_truck_twice_is_refused (fun _ => false) "T001" "route_1"
             "medium" (Server.mk (Some WalmartSupplyChainCrew.__init__) [])
             "en-route" (fun _ => false) "route_2" "high" eq_refl).
  reflexivity.
Defined.

(** ** Dispatching a route several times *)

Lemma idle_from_length n m trucks :
  length (TruckDispatchTool.idle_from n trucks)
  = length (TruckDispatchTool.idle_from m trucks).
Proof.
  revert n m. induction trucks as [|t rest IH]; intros n m; simpl; [reflexivity|].
  destruct (is_idle t); simpl; [f_equal|]; apply IH.
Qed.

Lemma idle_from_insert_busy trucks i n x x' :
  trucks !! i = Some x -> is_idle x = true -> is_idle x' = false ->
  S (length (TruckDispatchTool.idle_from n (<[i := x']> trucks)))
  = length (TruckDispatchTool.idle_from n trucks).
Proof.
  revert i n. induction trucks as [|t rest IH]; intros i n Hl Hx Hx';
    [discriminate|].
  destruct i as [|i]; simpl in *.
  - inversion Hl; subst. rewrite Hx, Hx'. reflexivity.
  - destruct (is_idle t); simpl; [f_equal|]; now apply IH.
Qed.

Lemma dispatch_run_idle_count trucks route priority :
  length (TruckDispatchTool.available_trucks
            (fst (TruckDispatchTool._run trucks route priority)))
  = pred (length (TruckDispatchTool.available_trucks trucks)) /\
  length (fst (TruckDispatchTool._run trucks route priority)) = length trucks.
Proof.
  destruct (dispatch_run_cases trucks route priority)
    as [[Hnone ->]|(i & best & Hl & Hidle & _ & ->)]; simpl.
  - split; [|reflexivity].
    apply available_trucks_nil in Hnone. now rewrite Hnone.
  - split; [|apply length_insert].
    unfold TruckDispatchTool.available_trucks.
    rewrite <- (idle_from_insert_busy trucks i 0 best (dispatched route best)
                  Hl Hidle eq_refl).
    reflexivity.
Qed.

(** X10: every successful dispatch of the tool uses up exactly one idle
    truck and never changes the size of the fleet; after [k] dispatches in
    a row, [k] idle trucks fewer are left (none below zero), whatever the
    routes, so a fleet with [n] idle trucks serves [n] dispatches and
    refuses every later one. *)
Theorem repeated_dispatch_uses_one_idle_truck_each
    (trucks : list Truck.t) (route : OptimizedRoute.t) (priority : string)
    (k : nat) :
  length (TruckDispatchTool.available_trucks
            (Nat.iter k (fun ts => fst (TruckDispatchTool._run ts route priority))
               trucks))
  = (length (TruckDispatchTool.available_trucks trucks) - k)%nat /\
  length (Nat.iter k (fun ts => fst (TruckDispatchTool._run ts route priority))
            trucks)
  = length trucks /\
  ((length (TruckDispatchTool.available_trucks trucks) <= k)%nat ->
   snd (TruckDispatchTool._run
          (Nat.iter k (fun ts => fst (TruckDispatchTool._run ts route priority))
             trucks) route priority)
   = TruckDispatchTool.Failure "No available trucks for dispatch"
       "Wait for trucks to complete current routes").
Proof.
  assert (length (TruckDispatchTool.available_trucks
                    (Nat.iter k (fun ts => fst (TruckDispatchTool._run ts route priority))
                       trucks))
          = (length (TruckDispatchTool.available_trucks trucks) - k)%nat /\
          length (Nat.iter k (fun ts => fst (TruckDispatchTool._run ts route priority))
                    trucks)
          = length trucks) as [Hidle Hlen].
  { induction k as [|k [IH1 IH2]]; simpl; [split; [lia | reflexivity]|].
    destruct (dispatch_run_idle_count
                (Nat.iter k (fun ts => fst (TruckDispatchTool._run ts route priority))
                   trucks) route priority) as [H1 H2].
    split; [rewrite H1, IH1; lia | rewrite H2; exact IH2]. }
  split; [exact Hidle|]. split; [exact Hlen|].
  intros Hk.
  assert (TruckDispatchTool.available_trucks
            (Nat.iter k (fun ts => fst (TruckDispatchTool._run ts route priority))
               trucks) = []) as Hnil.
  { destruct (TruckDispatchTool.available_trucks _); [reflexivity|].
    simpl in Hidle. lia. }
  revert Hnil.
  generalize (Nat.iter k (fun ts => fst (TruckDispatchTool._run ts route priority))
                trucks).
  intros ts Hnil. unfold TruckDispatchTool._run. rewrite Hnil. reflexivity.
Qed.

Lemma repeated_dispatch_uses_one_idle_truck_each_witness :
  snd (TruckDispatchTool._run
         (Nat.iter 4 (fun ts =>
                        fst (TruckDispatchTool._run ts
                               (OptimizedRoute.mk "r" "n" [] 0 "0h 0m" 99 "medium" None)
                               "medium"))
            WalmartSupplyChainCrew._initialize_trucks)
         (OptimizedRoute.mk "r" "n" [] 0 "0h 0m" 99 "medium" None) "medium")
  = TruckDispatchTool.Failure "No available trucks for dispatch"
      "Wait for trucks to complete current routes".
Proof.
  apply (proj2 (proj2 (repeated_dispatch_uses_one_idle_truck_each
                         WalmartSupplyChainCrew._initialize_trucks
                         (OptimizedRoute.mk "r" "n" [] 0 "0h 0m" 99 "medium" None)
                         "medium" 4))).
  vm_compute. lia.
Defined.

(** ** Repeated calls of [optimize_route] *)




(** ** More on the telemetry tick *)

Lemma bounded_drift_refl x : bounded_drift x x.
Proof. unfold bounded_drift. repeat split; lra. Qed.

Lemma update_trucks_bounded trucks rng :
  (forall n, 0 <= Server.stream rng n < 1) ->
  Forall2 bounded_drift trucks (fst (Server.update_trucks trucks rng)).
Proof.
  revert rng. induction trucks as [|truck rest IH]; intros rng Hpos.
  - constructor.
  - rewrite update_trucks_cons. destruct (is_en_route truck).
    + cbv zeta. constructor; [|apply IH; exact Hpos].
      pose proof (Hpos (Server.position rng)) as H0.
      pose proof (Hpos (S (Server.position rng))) as H1.
      pose proof (Hpos (S (S (Server.position rng)))) as H2.
      pose proof (Hpos (S (S (S (Server.position rng))))) as H3.
      unfold bounded_drift.
      cbn [Truck.drift Truck.lat Truck.lng Truck.fuel_saved Truck.co2_reduced
           Truck.id Truck.driver Truck.capacity Truck.current_load Truck.status
           Truck.route Truck.efficiency Truck.completed_stops Truck.total_stops].
      revert H0 H1 H2 H3.
      generalize (Server.stream rng (Server.position rng))
                 (Server.stream rng (S (Server.position rng)))
                 (Server.stream rng (S (S (Server.position rng))))
                 (Server.stream rng (S (S (S (Server.position rng))))).
      intros u0 u1 u2 u3 H0 H1 H2 H3.
      repeat split; lra.
    + constructor; [apply bounded_drift_refl | apply IH; exact Hpos].
Qed.

Lemma update_trucks_position trucks rng :
  Server.position (snd (Server.update_trucks trucks rng))
  = (Server.position rng + 4 * en_route_count trucks)%nat /\
  Server.stream (snd (Server.update_trucks trucks rng)) = Server.stream rng.
Proof.
  revert rng. induction trucks as [|truck rest IH]; intros rng.
  - simpl. split; [unfold en_route_count; simpl; lia | reflexivity].
  - rewrite update_trucks_cons. unfold en_route_count in *. simpl.
    destruct (is_en_route truck); simpl.
    + destruct (IH (Server.mk_rng (Server.stream rng)
                      (S (S (S (S (Server.position rng))))))) as [Hp Hs].
      rewrite Hp, Hs. simpl. split; [lia | reflexivity].
    + apply IH.
Qed.

(** A tick with a system and at least one subscriber, written out. *)
Lemma tick_subscribed rng send_fails srv sys :
  Server.supply_chain_system srv = Some sys ->
  Server.active_connections srv <> [] ->
  Server.tick rng send_fails srv =
  (Server.mk
     (Some (WalmartSupplyChainCrew.mk
              (WalmartSupplyChainCrew.warehouses sys)
              (fst (Server.update_trucks (WalmartSupplyChainCrew.trucks sys) rng))
              (WalmartSupplyChainCrew.demand_history sys)
              (Server.set_efficiency_score
                 (py_min 99
                    (PerformanceMetrics.efficiency_score
                       (WalmartSupplyChainCrew.performance_metrics sys)
                     + fst (Server.uniform (-0.5) 0.5
                              (snd (Server.update_trucks
                                      (WalmartSupplyChainCrew.trucks sys) rng)))))
                 (WalmartSupplyChainCrew.performance_metrics sys))))
     (fst (ConnectionManager.broadcast send_fails
             (real_time_update
                (map Server.snapshot
                   (fst (Server.update_trucks (WalmartSupplyChainCrew.trucks sys) rng)))
                (Server.set_efficiency_score
                   (py_min 99
                      (PerformanceMetrics.efficiency_score
                         (WalmartSupplyChainCrew.performance_metrics sys)
                       + fst (Server.uniform (-0.5) 0.5
                                (snd (Server.update_trucks
                                        (WalmartSupplyChainCrew.trucks sys) rng)))))
                   (WalmartSupplyChainCrew.performance_metrics sys)))
             (Server.active_connections srv))),
   snd (Server.uniform (-0.5) 0.5
          (snd (Server.update_trucks (WalmartSupplyChainCrew.trucks sys) rng))),
   snd (ConnectionManager.broadcast send_fails
          (real_time_update
             (map Server.snapshot
                (fst (Server.update_trucks (WalmartSupplyChainCrew.trucks sys) rng)))
             (Server.set_efficiency_score
                (py_min 99
                   (PerformanceMetrics.efficiency_score
                      (WalmartSupplyChainCrew.performance_metrics sys)
                    + fst (Server.uniform (-0.5) 0.5
                             (snd (Server.update_trucks
                                     (WalmartSupplyChainCrew.trucks sys) rng)))))
                (WalmartSupplyChainCrew.performance_metrics sys)))
          (Server.active_connections srv))).
Proof.
  intros Hsys Hne. unfold Server.tick. rewrite Hsys.
  destruct (Server.active_connections srv) as [|c conns]; [congruence|].
  cbn [length Nat.ltb Nat.leb].
  destruct (Server.update_trucks _ rng) as [trucks' rng1].
  cbn [fst snd].
  change (Server.uniform (-0.5) 0.5 rng1)
    with (fst (Server.uniform (-0.5) 0.5 rng1), snd (Server.uniform (-0.5) 0.5 rng1)).
  cbv iota beta.
  destruct (ConnectionManager.broadcast _ _ _). reflexivity.
Qed.

(** X12: one tick moves a truck by at most 0.001 degree in latitude and in
    longitude, adds at most 0.1 to its [fuel_saved] and at most 0.3 to its
    [co2_reduced], never lowers either, and changes no other field of any
    truck: id, driver, capacity, load, status, route, efficiency and stop
    counters stay. The random numbers are those of [random()], in [[0, 1)]. *)
Theorem tick_drift_is_bounded rng send_fails srv sys :
  (forall n, 0 <= Server.stream rng n < 1) ->
  Server.supply_chain_system srv = Some sys ->
  exists sys',
    Server.supply_chain_system (fst (fst (Server.tick rng send_fails srv)))
      = Some sys' /\
    forall i x,
      WalmartSupplyChainCrew.trucks sys !! i = Some x ->
      exists x',
        WalmartSupplyChainCrew.trucks sys' !! i = Some x' /\
        bounded_drift x x'.
Proof.
  intros Hrng Hsys.
  destruct (Server.active_connections srv) as [|c conns] eqn:Hcon.
  - exists sys. rewrite tick_no_subscriber by exact Hcon. simpl.
    split; [exact Hsys|]. intros i x Hx. exists x.
    split; [exact Hx | apply bounded_drift_refl].
  - rewrite (tick_subscribed rng send_fails srv sys Hsys) by (rewrite Hcon; discriminate).
    eexists. split; [reflexivity|]. simpl. intros i x Hx.
    exact (Forall2_lookup_l _ _ _ _ _
             (update_trucks_bounded (WalmartSupplyChainCrew.trucks sys) rng Hrng) Hx).
Qed.

Lemma tick_drift_is_bounded_witness :
  exists sys' x',
    Server.supply_chain_system
      (fst (fst (Server.tick (Server.mk_rng (fun _ => 1 # 4) 0) (fun _ => false)
                   (Server.mk (Some WalmartSupplyChainCrew.__init__) [1%nat]))))
      = Some sys' /\
    WalmartSupplyChainCrew.trucks sys' !! 0%nat = Some x' /\
    Truck.status x' = "idle".
Proof.
  destruct (tick_drift_is_bounded (Server.mk_rng (fun _ => 1 # 4) 0) (fun _ => false)
              (Server.mk (Some WalmartSupplyChainCrew.__init__) [1%nat])
              WalmartSupplyChainCrew.__init__)
    as (sys' & Hsys' & Hall).
  - intros n. simpl. lra.
  - reflexivity.
  - destruct (Hall 0%nat _ eq_refl) as (x' & Hx' & Hd).
    exists sys', x'. split; [exact Hsys'|]. split; [exact Hx'|].
    destruct Hd as (_ & _ & _ & _ & _ & _ & _ & _ & Hs & _). rewrite Hs. reflexivity.
Defined.

(** X13: a tick with a subscriber moves the efficiency score by a random
    step [delta] in [[-0.5, 0.5)] and caps it: the new score is
    [min(99, score + delta)], so it may go down, by at most 0.5 when it was
    within the cap; the tick changes no other metric, no warehouse and no
    demand history. *)
Theorem tick_score_step rng send_fails srv sys :
  (forall n, 0 <= Server.stream rng n < 1) ->
  Server.supply_chain_system srv = Some sys ->
  Server.active_connections srv <> [] ->
  exists sys' delta,
    Server.supply_chain_system (fst (fst (Server.tick rng send_fails srv)))
      = Some sys' /\
    - (1 # 2) <= delta < 1 # 2 /\
    PerformanceMetrics.efficiency_score
      (WalmartSupplyChainCrew.performance_metrics sys')
    = py_min 99 (PerformanceMetrics.efficiency_score
                   (WalmartSupplyChainCrew.performance_metrics sys) + delta) /\
    PerformanceMetrics.efficiency_score
      (WalmartSupplyChainCrew.performance_metrics sys')
    <= PerformanceMetrics.efficiency_score
         (WalmartSupplyChainCrew.performance_metrics sys) + (1 # 2) /\
    (PerformanceMetrics.efficiency_score
       (WalmartSupplyChainCrew.performance_metrics sys) <= 99 ->
     PerformanceMetrics.efficiency_score
       (WalmartSupplyChainCrew.performance_metrics sys) - (1 # 2)
     <= PerformanceMetrics.efficiency_score
          (WalmartSupplyChainCrew.performance_metrics sys')) /\
    PerformanceMetrics.active_routes (WalmartSupplyChainCrew.performance_metrics sys')
    = PerformanceMetrics.active_routes (WalmartSupplyChainCrew.performance_metrics sys) /\
    PerformanceMetrics.total_distance_saved
      (WalmartSupplyChainCrew.performance_metrics sys')
    = PerformanceMetrics.total_distance_saved
        (WalmartSupplyChainCrew.performance_metrics sys) /\
    PerformanceMetrics.fuel_saved (WalmartSupplyChainCrew.performance_metrics sys')
    = PerformanceMetrics.fuel_saved (WalmartSupplyChainCrew.performance_metrics sys) /\
    PerformanceMetrics.co2_reduced (WalmartSupplyChainCrew.performance_metrics sys')
    = PerformanceMetrics.co2_reduced (WalmartSupplyChainCrew.performance_metrics sys) /\
    WalmartSupplyChainCrew.warehouses sys' = WalmartSupplyChainCrew.warehouses sys /\
    WalmartSupplyChainCrew.demand_history sys'
    = WalmartSupplyChainCrew.demand_history sys.
Proof.
  intros Hrng Hsys Hne.
  rewrite (tick_subscribed rng send_fails srv sys Hsys Hne).
  destruct (update_trucks_position (WalmartSupplyChainCrew.trucks sys) rng)
    as [_ Hstream].
  set (rng1 := snd (Server.update_trucks (WalmartSupplyChainCrew.trucks sys) rng)) in *.
  eexists. exists (fst (Server.uniform (-0.5) 0.5 rng1)).
  split; [reflexivity|]. cbn [fst Server.uniform].
  pose proof (Hrng (Server.position rng1)) as Hu. rewrite <- Hstream in Hu.
  revert Hu. generalize (Server.stream rng1 (Server.position rng1)). intros u Hu.
  split; [lra|]. simpl.
  generalize (PerformanceMetrics.efficiency_score
                (WalmartSupplyChainCrew.performance_metrics sys)). intros s0.
  split; [reflexivity|].
  split; [unfold py_min; case_py_lt; lra|].
  split; [intros Hcap; unfold py_min; case_py_lt; lra|].
  repeat split.
Qed.

Lemma tick_score_step_witness :
  exists sys',
    Server.supply_chain_system
      (fst (fst (Server.tick (Server.mk_rng (fun _ => 1 # 4) 0) (fun _ => false)
                   (Server.mk (Some WalmartSupplyChainCrew.__init__) [1%nat]))))
      = Some sys' /\
    PerformanceMetrics.efficiency_score
      (WalmartSupplyChainCrew.performance_metrics sys') <= 1 # 2.
Proof.
  destruct (tick_score_step (Server.mk_rng (fun _ => 1 # 4) 0) (fun _ => false)
              (Server.mk (Some WalmartSupplyChainCrew.__init__) [1%nat])
              WalmartSupplyChainCrew.__init__)
    as (sys' & delta & Hsys' & _ & _ & Hup & _).
  - intros n. simpl. lra.
  - reflexivity.
  - discriminate.
  - exists sys'. split; [exact Hsys'|]. simpl in Hup. lra.
Defined.

(** X14: every message that a tick sends is the [real_time_update] of the
    state the tick leaves behind (the trucks and metrics after the drift),
    and it goes only to connections that were subscribed before the tick
    and whose send works; when every send works, each subscriber gets it
    and the list of subscribers is unchanged. *)
Theorem tick_broadcasts_the_new_state rng send_fails srv sys :
  Server.supply_chain_system srv = Some sys ->
  Server.active_connections srv <> [] ->
  exists sys',
    Server.supply_chain_system (fst (fst (Server.tick rng send_fails srv)))
      = Some sys' /\
    (forall c m,
       In (c, m) (snd (Server.tick rng send_fails srv)) ->
       m = real_time_update
             (map Server.snapshot (WalmartSupplyChainCrew.trucks sys'))
             (WalmartSupplyChainCrew.performance_metrics sys') /\
       In c (Server.active_connections srv) /\
       send_fails c = false) /\
    ((forall c, In c (Server.active_connections srv) -> send_fails c = false) ->
     snd (Server.tick rng send_fails srv)
     = map (fun c =>
              (c, real_time_update
                    (map Server.snapshot (WalmartSupplyChainCrew.trucks sys'))
                    (WalmartSupplyChainCrew.performance_metrics sys')))
           (Server.active_connections srv) /\
     Server.active_connections (fst (fst (Server.tick rng send_fails srv)))
     = Server.active_connections srv).
Proof.
  intros Hsys Hne.
  rewrite (tick_subscribed rng send_fails srv sys Hsys Hne).
  eexists. split; [reflexivity|]. cbn [fst snd Server.active_connections
    WalmartSupplyChainCrew.trucks WalmartSupplyChainCrew.performance_metrics].
  split.
  - intros c m Hin. unfold ConnectionManager.broadcast in Hin.
    match type of Hin with
    | In _ (snd (ConnectionManager.broadcast_loop ?sf ?msg ?f ?i ?cs ?st)) =>
        destruct (broadcast_loop_sound sf msg f i cs st)
          as (_ & _ & new & Hnew & Hall)
    end.
    rewrite Hnew in Hin. simpl in Hin. exact (Hall c m Hin).
  - intros Hok. unfold ConnectionManager.broadcast.
    rewrite broadcast_loop_all_sent by (auto; lia). simpl. auto.
Qed.

Lemma tick_broadcasts_the_new_state_witness :
  Server.active_connections
    (fst (fst (Server.tick (Server.mk_rng (fun _ => 1 # 4) 0) (fun _ => false)
                 (Server.mk (Some WalmartSupplyChainCrew.__init__) [1; 2]%nat))))
  = [1; 2]%nat.
Proof.
  destruct (tick_broadcasts_the_new_state (Server.mk_rng (fun _ => 1 # 4) 0)
              (fun _ => false)
              (Server.mk (Some WalmartSupplyChainCrew.__init__) [1; 2]%nat)
              WalmartSupplyChainCrew.__init__ eq_refl)
    as (sys' & _ & _ & Hall).
  - discriminate.
  - apply Hall. reflexivity.
Defined.



Lemma tick_frame_trans x y z : tick_frame x y -> tick_frame y z -> tick_frame x z.
Proof.
  unfold tick_frame.
  intros (Hxy & Hf1 & Hc1 & Hs1 & Hr1) (Hyz & Hf2 & Hc2 & Hs2 & Hr2).
  split.
  - intros Hne. rewrite <- (Hxy Hne). apply Hyz.
    unfold is_en_route in *. now rewrite Hs1.
  - repeat split; try lra; congruence.
Qed.

Lemma Forall2_tick_frame_trans l1 l2 l3 :
  Forall2 tick_frame l1 l2 -> Forall2 tick_frame l2 l3 -> Forall2 tick_frame l1 l3.
Proof.
  intros H12. revert l3. induction H12 as [|x y l1 l2 Hxy _ IH]; intros l3 H23.
  - inversion H23. constructor.
  - inversion H23 as [|? z ? l3' Hyz H23']; subst.
    constructor; [eapply tick_frame_trans; eassumption | now apply IH].
Qed.

Lemma Forall2_tick_frame_refl l : Forall2 tick_frame l l.
Proof. induction l; constructor; [apply tick_frame_refl | assumption]. Qed.

(** One round of the loop, for the frame of the trucks and the generator. *)
Lemma tick_round rng send_fails srv sys :
  (forall n, 0 <= Server.stream rng n) ->
  Server.supply_chain_system srv = Some sys ->
  exists sys',
    Server.supply_chain_system (fst (fst (Server.tick rng send_fails srv)))
      = Some sys' /\
    Forall2 tick_frame (WalmartSupplyChainCrew.trucks sys)
                       (WalmartSupplyChainCrew.trucks sys') /\
    Server.stream (snd (fst (Server.tick rng send_fails srv))) = Server.stream rng.
Proof.
  intros Hrng Hsys.
  destruct (Server.active_connections srv) as [|c conns] eqn:Hcon.
  - exists sys. rewrite tick_no_subscriber by exact Hcon. simpl.
    split; [exact Hsys|]. split; [apply Forall2_tick_frame_refl | reflexivity].
  - rewrite (tick_subscribed rng send_fails srv sys Hsys)
      by (rewrite Hcon; discriminate).
    eexists. split; [reflexivity|]. simpl.
    destruct (update_trucks_frame (WalmartSupplyChainCrew.trucks sys) rng Hrng)
      as [HF Hs].
    split; [exact HF | exact Hs].
Qed.

(** X16: over any number of rounds of the telemetry loop no truck changes
    its status or its route (a truck that is en route stays en route, none
    becomes idle or completed), a truck that is not en route does not
    change at all, and no [fuel_saved] or [co2_reduced] ever goes down. *)
Theorem telemetry_rounds_keep_status_and_route
    (iterations : nat) rng (send_fails : nat -> WebSocket -> bool) srv sys :
  (forall n, 0 <= Server.stream rng n) ->
  Server.supply_chain_system srv = Some sys ->
  exists sys',
    Server.supply_chain_system
      (fst (fst (Server.simulate_real_time_updates iterations rng send_fails srv)))
      = Some sys' /\
    forall i x,
      WalmartSupplyChainCrew.trucks sys !! i = Some x ->
      exists x',
        WalmartSupplyChainCrew.trucks sys' !! i = Some x' /\
        Truck.status x' = Truck.status x /\
        Truck.route x' = Truck.route x /\
        (Truck.status x <> "en-route" -> x' = x) /\
        Truck.fuel_saved x <= Truck.fuel_saved x' /\
        Truck.co2_reduced x <= Truck.co2_reduced x'.
Proof.
  intros Hrng Hsys.
  assert (exists sys',
            Server.supply_chain_system
              (fst (fst (Server.simulate_real_time_updates iterations rng
                           send_fails srv))) = Some sys' /\
            Forall2 tick_frame (WalmartSupplyChainCrew.trucks sys)
                               (WalmartSupplyChainCrew.trucks sys') /\
            Server.stream
              (snd (fst (Server.simulate_real_time_updates iterations rng
                           send_fails srv))) = Server.stream rng)
    as (sys' & Hsys' & HF & _).
  { induction iterations as [|n (sys1 & Hsys1 & HF1 & Hs1)].
    - exists sys. simpl.
      split; [exact Hsys|]. split; [apply Forall2_tick_frame_refl | reflexivity].
    - simpl.
      destruct (Server.simulate_real_time_updates n rng send_fails srv)
        as [[srv1 rng1] sent1]. simpl in Hsys1, Hs1.
      destruct (tick_round rng1 (send_fails n) srv1 sys1) as (sys2 & Hsys2 & HF2 & Hs2);
        [intros k; rewrite Hs1; apply Hrng | exact Hsys1 |].
      destruct (Server.tick rng1 (send_fails n) srv1) as [[srv2 rng2] sent2].
      simpl in *. exists sys2.
      split; [exact Hsys2|].
      split; [eapply Forall2_tick_frame_trans; eassumption | congruence]. }
  exists sys'. split; [exact Hsys'|].
  intros i x Hx.
  destruct (Forall2_lookup_l _ _ _ _ _ HF Hx) as (x' & Hx' & Hfr & Hfuel & Hco2 & Hs & Hr).
  exists x'. split; [exact Hx'|]. split; [exact Hs|]. split; [exact Hr|].
  split; [intros Hne; apply Hfr; now apply is_en_route_false|].
  split; assumption.
Qed.

Lemma telemetry_rounds_keep_status_and_route_witness :
  exists sys' x',
    Server.supply_chain_system
      (fst (fst (Server.simulate_real_time_updates 3
                   (Server.mk_rng (fun _ => 1 # 4) 0) (fun _ _ => false)
                   (Server.mk (Some WalmartSupplyChainCrew.__init__) [1%nat]))))
      = Some sys' /\
    WalmartSupplyChainCrew.trucks sys' !! 0%nat = Some x' /\
    Truck.status x' = "idle".
Proof.
  destruct (telemetry_rounds_keep_status_and_route 3
              (Server.mk_rng (fun _ => 1 # 4) 0) (fun _ _ => false)
              (Server.mk (Some WalmartSupplyChainCrew.__init__) [1%nat])
              WalmartSupplyChainCrew.__init__)
    as (sys' & Hsys' & Hall).
  - intros n. simpl. lra.
  - reflexivity.
  - destruct (Hall 0%nat _ eq_refl) as (x' & Hx' & Hs & _).
    exists sys', x'. split; [exact Hsys'|]. split; [exact Hx'|].
    rewrite Hs. reflexivity.
Defined.

(** ** What no operation of the server writes *)

(** Induction over the reachable states, on the system only. *)
Lemma reachable_system_ind (P : WalmartSupplyChainCrew.t -> Prop) :
  P WalmartSupplyChainCrew.__init__ ->
  (forall sys origin_warehouse_id destination_requests crew_result,
     P sys ->
     P (fst (WalmartSupplyChainCrew.optimize_route sys origin_warehouse_id
               destination_requests crew_result))) ->
  (forall sys i x,
     P sys -> WalmartSupplyChainCrew.trucks sys !! i = Some x ->
     Truck.status x = "idle" ->
     P (Server.with_trucks
          (<[i := Truck.set_status "en-route" x]> (WalmartSupplyChainCrew.trucks sys))
          sys)) ->
  (forall sys route priority,
     P sys ->
     P (Server.with_trucks
          (fst (TruckDispatchTool._run (WalmartSupplyChainCrew.trucks sys) route priority))
          sys)) ->
  (forall rng send_fails srv sys sys',
     P sys -> Server.supply_chain_system srv = Some sys ->
     Server.active_connections srv <> [] ->
     Server.supply_chain_system (fst (fst (Server.tick rng send_fails srv)))
       = Some sys' ->
     P sys') ->
  forall srv, Server.reachable srv ->
  forall sys, Server.supply_chain_system srv = Some sys -> P sys.
Proof.
  intros Hinit Hopt Hdisp Htool Htick srv Hreach.
  induction Hreach as [|srv srv' _ IH Hstep]; [discriminate|].
  intros sys' Hsys'.
  destruct Hstep as [srv|ws srv|ws srv conns Hdis|sf message srv
                    |sys origin reqs crew srv Hsys|sf tid rid pr srv
                    |sys route pr srv Hsys|rng sf srv]; simpl in Hsys'.
  - inversion Hsys'; subst. exact Hinit.
  - auto.
  - auto.
  - auto.
  - inversion Hsys'; subst. apply Hopt. auto.
  - destruct (dispatch_truck_cases sf tid rid pr srv)
      as [[Heq _]|(sys & i & truck & Hsys & Hl & _ & Hidle & Hnew & _)].
    + rewrite Heq in Hsys'. auto.
    + rewrite Hnew in Hsys'. inversion Hsys'; subst.
      apply Hdisp; auto.
  - inversion Hsys'; subst. apply Htool. auto.
  - destruct (Server.supply_chain_system srv) as [sys|] eqn:Hsys.
    + destruct (Server.active_connections srv) as [|c conns] eqn:Hcon.
      * rewrite tick_no_subscriber in Hsys' by exact Hcon. simpl in Hsys'.
        rewrite Hsys in Hsys'. inversion Hsys'; subst. auto.
      * apply (Htick rng sf srv sys sys'); auto. rewrite Hcon. discriminate.
    + unfold Server.tick in Hsys'. rewrite Hsys in Hsys'. simpl in Hsys'.
      rewrite Hsys in Hsys'. discriminate.
Qed.

(** X17: in every state the server can reach, the warehouses and the demand
    history are those of the initialization, and the global counters
    [total_distance_saved], [fuel_saved] and [co2_reduced] are still 0:
    no operation (optimize_route, either dispatch, the telemetry tick) ever
    writes them, and [active_routes] is never negative. *)
Theorem server_never_writes_inventory_or_global_counters srv sys :
  Server.reachable srv ->
  Server.supply_chain_system srv = Some sys ->
  WalmartSupplyChainCrew.warehouses sys = WalmartSupplyChainCrew._initialize_warehouses /\
  WalmartSupplyChainCrew.demand_history sys
    = WalmartSupplyChainCrew._initialize_demand_history /\
  PerformanceMetrics.total_distance_saved
    (WalmartSupplyChainCrew.performance_metrics sys) = 0 /\
  PerformanceMetrics.fuel_saved (WalmartSupplyChainCrew.performance_metrics sys) = 0 /\
  PerformanceMetrics.co2_reduced (WalmartSupplyChainCrew.performance_metrics sys) = 0 /\
  (0 <= PerformanceMetrics.active_routes
          (WalmartSupplyChainCrew.performance_metrics sys))%Z.
Proof.
  intros Hreach. revert sys.
  apply (reachable_system_ind
           (fun sys =>
              WalmartSupplyChainCrew.warehouses sys
                = WalmartSupplyChainCrew._initialize_warehouses /\
              WalmartSupplyChainCrew.demand_history sys
                = WalmartSupplyChainCrew._initialize_demand_history /\
              PerformanceMetrics.total_distance_saved
                (WalmartSupplyChainCrew.performance_metrics sys) = 0 /\
              PerformanceMetrics.fuel_saved
                (WalmartSupplyChainCrew.performance_metrics sys) = 0 /\
              PerformanceMetrics.co2_reduced
                (WalmartSupplyChainCrew.performance_metrics sys) = 0 /\
              (0 <= PerformanceMetrics.active_routes
                      (WalmartSupplyChainCrew.performance_metrics sys))%Z));
    [| | | | |exact Hreach].
  - repeat split. simpl. lia.
  - intros sys origin reqs crew (H1 & H2 & H3 & H4 & H5 & H6).
    destruct (optimize_route_cases sys origin reqs crew)
      as [[-> _]|(w & r & _ & _ & ->)]; [auto 10|].
    simpl. repeat split; try assumption. lia.
  - intros sys i x H _ _. exact H.
  - intros sys route pr H. exact H.
  - intros rng sf srv0 sys sys' (H1 & H2 & H3 & H4 & H5 & H6) Hsys Hne Hsys'.
    rewrite (tick_subscribed rng sf srv0 sys Hsys Hne) in Hsys'.
    inversion Hsys'; subst. simpl. auto 10.
Qed.

Lemma server_never_writes_inventory_or_global_counters_witness :
  PerformanceMetrics.fuel_saved
    (WalmartSupplyChainCrew.performance_metrics WalmartSupplyChainCrew.__init__) = 0.
Proof.
  apply (server_never_writes_inventory_or_global_counters
           (Server.mk (Some WalmartSupplyChainCrew.__init__) [1%nat])
           WalmartSupplyChainCrew.__init__
           reachable_started_with_subscriber eq_refl).
Defined.

Lemma update_trucks_identity trucks rng :
  map identity_of (fst (Server.update_trucks trucks rng)) = map identity_of trucks.
Proof.
  revert rng. induction trucks as [|truck rest IH]; intros rng; [reflexivity|].
  rewrite update_trucks_cons. destruct (is_en_route truck); cbv zeta; simpl;
    f_equal; apply IH.
Qed.

Lemma insert_keeps_identity (trucks : list Truck.t) i x x' :
  trucks !! i = Some x -> identity_of x' = identity_of x ->
  map identity_of (<[i := x']> trucks) = map identity_of trucks.
Proof.
  intros Hl Hid. rewrite list_fmap_insert, Hid.
  apply list_insert_id. rewrite list_lookup_fmap, Hl. reflexivity.
Qed.

(** X18: in every state the server can reach the fleet is the initial one,
    truck by truck: same ids, drivers, capacities and efficiencies in the
    same order, and every truck still has load 0 and 0 completed stops (so
    its load is within its capacity): no operation adds or removes a truck,
    loads one or records a completed stop. *)
Theorem fleet_identity_is_never_changed srv sys :
  Server.reachable srv ->
  Server.supply_chain_system srv = Some sys ->
  map identity_of (WalmartSupplyChainCrew.trucks sys)
    = map identity_of WalmartSupplyChainCrew._initialize_trucks /\
  length (WalmartSupplyChainCrew.trucks sys) = 4%nat /\
  (forall x, In x (WalmartSupplyChainCrew.trucks sys) ->
     Truck.current_load x = 0%Z /\
     Truck.completed_stops x = 0%Z /\
     (Truck.current_load x <= Truck.capacity x)%Z).
Proof.
  intros Hreach Hsys.
  assert (map identity_of (WalmartSupplyChainCrew.trucks sys)
          = map identity_of WalmartSupplyChainCrew._initialize_trucks) as Hid.
  { revert sys Hsys.
    apply (reachable_system_ind
             (fun sys =>
                map identity_of (WalmartSupplyChainCrew.trucks sys)
                = map identity_of WalmartSupplyChainCrew._initialize_trucks));
      [| | | | |exact Hreach].
    - reflexivity.
    - intros sys origin reqs crew H.
      destruct (optimize_route_cases sys origin reqs crew)
        as [[-> _]|(w & r & _ & _ & ->)]; exact H.
    - intros sys i x H Hl _. simpl.
      rewrite (insert_keeps_identity _ i x) by (exact Hl || reflexivity). exact H.
    - intros sys route pr H. simpl.
      destruct (dispatch_run_cases (WalmartSupplyChainCrew.trucks sys) route pr)
        as [[_ ->]|(i & best & Hl & _ & _ & ->)]; [exact H|].
      simpl. rewrite (insert_keeps_identity _ i best) by (exact Hl || reflexivity).
      exact H.
    - intros rng sf srv0 sys0 sys' H Hsys0 Hne Hsys'.
      rewrite (tick_subscribed rng sf srv0 sys0 Hsys0 Hne) in Hsys'.
      inversion Hsys'; subst. simpl. rewrite update_trucks_identity. exact H. }
  split; [exact Hid|]. split.
  - apply (f_equal (@length _)) in Hid. rewrite !length_map in Hid. exact Hid.
  - intros x Hin. apply (in_map identity_of) in Hin. rewrite Hid in Hin.
    simpl in Hin. unfold identity_of in Hin.
    destruct Hin as [E|[E|[E|[E|[]]]]]; inversion E; repeat split; lia.
Qed.

Lemma fleet_identity_is_never_changed_witness :
  length (WalmartSupplyChainCrew.trucks WalmartSupplyChainCrew.__init__) = 4%nat.
Proof.
  apply (fleet_identity_is_never_changed
           (Server.mk (Some WalmartSupplyChainCrew.__init__) [1%nat])
           WalmartSupplyChainCrew.__init__
           reachable_started_with_subscriber eq_refl).
Defined.

(** ** Inventory analysis *)

Lemma scan_inventory_spec warehouse_name items low recs :
  InventoryAnalysisTool.scan_inventory warehouse_name items low recs
  = (low ++ map fst (low_stock items),
     recs ++ map (fun item =>
                    RestockRecommendation.mk warehouse_name (fst item) (snd item) 200
                      (if (snd item <? 20)%Z then "high" else "medium"))
                 (low_stock items)).
Proof.
  revert low recs. induction items as [|[product quantity] rest IH];
    intros low recs; simpl.
  - now rewrite !app_nil_r.
  - unfold low_stock in *. simpl. destruct (quantity <? 50)%Z; simpl.
    + rewrite IH, <- !app_assoc. reflexivity.
    + apply IH.
Qed.

(** What one warehouse contributes: its analysis and its recommendations. *)
Lemma analyze_cons w rest acc recs warehouse_id name :
  WarehouseDict.id w = Some warehouse_id ->
  WarehouseDict.name w = Some name ->
  InventoryAnalysisTool.analyze (w :: rest) acc recs
  = InventoryAnalysisTool.analyze rest
      (acc ++ [WarehouseAnalysis.mk warehouse_id name (stock_seen w)
                 (match low_stock (stock_seen w) with
                  | [] => "normal"
                  | _ :: _ => "needs_restock"
                  end)
                 (match low_stock (stock_seen w) with
                  | [] => None
                  | _ :: _ => Some (map fst (low_stock (stock_seen w)))
                  end)])
      (recs ++ map (fun item =>
                      RestockRecommendation.mk name (fst item) (snd item) 200
                        (if (snd item <? 20)%Z then "high" else "medium"))
                   (low_stock (stock_seen w))).
Proof.
  intros Hid Hname. cbn [InventoryAnalysisTool.analyze]. rewrite Hid, Hname.
  fold (stock_seen w). rewrite scan_inventory_spec. cbn [app].
  destruct (low_stock (stock_seen w)); reflexivity.
Qed.

Lemma analyze_cases warehouses acc recs :
  (Forall has_id_and_name warehouses /\
   exists analyses new_recs,
     InventoryAnalysisTool.analyze warehouses acc recs
     = inr (acc ++ analyses, recs ++ new_recs) /\
     Forall2
       (fun w a =>
          WarehouseDict.id w = Some (WarehouseAnalysis.warehouse_id a) /\
          WarehouseDict.name w = Some (WarehouseAnalysis.name a) /\
          WarehouseAnalysis.current_stock a = stock_seen w /\
          (low_stock (stock_seen w) = [] ->
           WarehouseAnalysis.status a = "normal" /\
           WarehouseAnalysis.low_stock_items a = None) /\
          (low_stock (stock_seen w) <> [] ->
           WarehouseAnalysis.status a = "needs_restock" /\
           WarehouseAnalysis.low_stock_items a
           = Some (map fst (low_stock (stock_seen w)))))
       warehouses analyses /\
     new_recs
     = flat_map
         (fun w =>
            match WarehouseDict.name w with
            | Some name =>
                map (fun item =>
                       RestockRecommendation.mk name (fst item) (snd item) 200
                         (if (snd item <? 20)%Z then "high" else "medium"))
                    (low_stock (stock_seen w))
            | None => []
            end) warehouses) \/
  (exists pre w post,
     warehouses = pre ++ w :: post /\
     Forall has_id_and_name pre /\
     ((WarehouseDict.id w = None /\
       InventoryAnalysisTool.analyze warehouses acc recs = inl (KeyError "id")) \/
      (is_Some (WarehouseDict.id w) /\ WarehouseDict.name w = None /\
       InventoryAnalysisTool.analyze warehouses acc recs = inl (KeyError "name")))).
Proof.
  revert acc recs. induction warehouses as [|w rest IH]; intros acc recs.
  - left. split; [constructor|]. exists [], []. simpl.
    rewrite !app_nil_r. repeat split. constructor.
  - destruct (WarehouseDict.id w) as [wid|] eqn:Hid.
    + destruct (WarehouseDict.name w) as [name|] eqn:Hname.
      * rewrite (analyze_cons w rest acc recs wid name Hid Hname).
        match goal with
        | |- context [InventoryAnalysisTool.analyze rest (acc ++ [?a0]) (recs ++ ?r0)] =>
            set (an := a0); set (rr := r0);
            destruct (IH (acc ++ [an]) (recs ++ rr))
              as [(Hall & analyses & new_recs & Hrun & HF & Hrecs)
                 |(pre & w' & post & Hsplit & Hpre & Hbad)]
        end.
        -- left. split.
           { constructor; [|exact Hall]. split; eauto. }
           exists (an :: analyses), (rr ++ new_recs).
           split; [rewrite Hrun, <- !app_assoc; reflexivity|].
           split.
           { constructor; [|exact HF]. subst an. simpl.
             split; [exact Hid|]. split; [exact Hname|]. split; [reflexivity|].
             destruct (low_stock (stock_seen w)); split; intros E;
               try discriminate; try (destruct E; reflexivity); split; reflexivity. }
           subst rr. simpl. rewrite Hname, Hrecs. reflexivity.
        -- right. exists (w :: pre), w', post.
           split; [rewrite Hsplit; reflexivity|].
           split; [constructor; [split; eauto | exact Hpre]|].
           exact Hbad.
      * right. exists [], w, rest. split; [reflexivity|]. split; [constructor|].
        right. split; [eauto|]. split; [exact Hname|].
        simpl. rewrite Hid, Hname. reflexivity.
    + right. exists [], w, rest. split; [reflexivity|]. split; [constructor|].
      left. split; [exact Hid|]. simpl. rewrite Hid. reflexivity.
Qed.

Lemma analyze_prefix pre tl acc recs :
  Forall has_id_and_name pre ->
  exists acc' recs',
    InventoryAnalysisTool.analyze (pre ++ tl) acc recs
    = InventoryAnalysisTool.analyze tl acc' recs'.
Proof.
  intros Hpre. revert acc recs.
  induction Hpre as [|w pre [[wid Hid] [name Hname]] _ IH]; intros acc recs.
  - exists acc, recs. reflexivity.
  - simpl app. rewrite (analyze_cons w (pre ++ tl) acc recs wid name Hid Hname).
    apply IH.
Qed.

(** X19: the inventory tool fails exactly when some warehouse entry lacks
    the key [id] or the key [name]; the error text is the missing key of
    the first such entry ([id] before [name]). An entry without an
    [inventory] key is analysed as an empty stock. *)
Theorem inventory_analysis_fails_on_missing_key
    (warehouses : list WarehouseDict.t) demand_history :
  ((exists analyses recs total needing,
      InventoryAnalysisTool._run warehouses demand_history
      = InventoryAnalysisTool.Success analyses recs total needing) <->
   Forall has_id_and_name warehouses) /\
  (forall pre w post,
     warehouses = pre ++ w :: post ->
     Forall has_id_and_name pre ->
     (WarehouseDict.id w = None ->
      InventoryAnalysisTool._run warehouses demand_history
      = InventoryAnalysisTool.Failure "'id'") /\
     (is_Some (WarehouseDict.id w) -> WarehouseDict.name w = None ->
      InventoryAnalysisTool._run warehouses demand_history
      = InventoryAnalysisTool.Failure "'name'")).
Proof.
  split.
  - unfold InventoryAnalysisTool._run.
    destruct (analyze_cases warehouses [] [])
      as [(Hall & analyses & new_recs & Hrun & _)
         |(pre & w & post & Hsplit & Hpre & Hbad)].
    + rewrite Hrun. split; [intros _; exact Hall | intros _; eauto 10].
    + split.
      * intros (a & r & t & n & Hrun).
        destruct Hbad as [[_ E]|(_ & _ & E)]; rewrite E in Hrun; discriminate.
      * intros Hall. rewrite Hsplit in Hall.
        apply Forall_app in Hall as [_ Hall].
        inversion Hall as [|? ? [[? Hi] [? Hn]] _]; subst.
        destruct Hbad as [[E _]|(_ & E & _)]; congruence.
  - intros pre w post -> Hpre. unfold InventoryAnalysisTool._run.
    destruct (analyze_prefix pre (w :: post) [] [] Hpre) as (acc' & recs' & ->).
    split.
    + intros Hid. simpl. rewrite Hid. reflexivity.
    + intros [wid Hid] Hname. simpl. rewrite Hid, Hname. reflexivity.
Qed.

Lemma inventory_analysis_fails_on_missing_key_witness :
  InventoryAnalysisTool._run
    [WarehouseDict.mk (Some 1%Z) (Some "Dallas DC") (Some [("milk", 15%Z)]);
     WarehouseDict.mk (Some 2%Z) None None] ∅
  = InventoryAnalysisTool.Failure "'name'".
Proof.
  apply (proj2 (proj2 (inventory_analysis_fails_on_missing_key
                         [WarehouseDict.mk (Some 1%Z) (Some "Dallas DC")
                            (Some [("milk", 15%Z)]);
                          WarehouseDict.mk (Some 2%Z) None None] ∅)
                  [WarehouseDict.mk (Some 1%Z) (Some "Dallas DC")
                     (Some [("milk", 15%Z)])]
                  (WarehouseDict.mk (Some 2%Z) None None) [] eq_refl
                  ltac:(repeat constructor; eexists; reflexivity))).
  - eexists. reflexivity.
  - reflexivity.
Defined.

Lemma low_stock_nonempty items :
  low_stock items <> [] <-> exists product quantity,
    In (product, quantity) items /\ (quantity < 50)%Z.
Proof.
  unfold low_stock. split.
  - destruct (List.filter _ items) as [|[p q] l] eqn:E; [congruence|].
    intros _. assert (In (p, q) (List.filter (fun item => (snd item <? 50)%Z) items))
      as Hin by (rewrite E; left; reflexivity).
    apply filter_In in Hin as [Hin Hq]. exists p, q. split; [exact Hin|].
    simpl in Hq. lia.
  - intros (p & q & Hin & Hq) E.
    assert (In (p, q) (List.filter (fun item => (snd item <? 50)%Z) items)) as Hc.
    { apply filter_In. split; [exact Hin|]. simpl. lia. }
    rewrite E in Hc. destruct Hc.
Qed.

Lemma needing_count (warehouses : list WarehouseDict.t)
    (analyses : list WarehouseAnalysis.t) :
  Forall2 (fun w a =>
             (low_stock (stock_seen w) = [] -> WarehouseAnalysis.status a = "normal") /\
             (low_stock (stock_seen w) <> [] ->
              WarehouseAnalysis.status a = "needs_restock"))
          warehouses analyses ->
  length (List.filter
            (fun a => String.eqb (WarehouseAnalysis.status a) "needs_restock")
            analyses)
  = length (List.filter
              (fun w => match low_stock (stock_seen w) with
                        | [] => false
                        | _ :: _ => true
                        end) warehouses).
Proof.
  induction 1 as [|w a ws ans [Hn Hr] _ IH]; simpl; [reflexivity|].
  destruct (low_stock (stock_seen w)) eqn:E.
  - rewrite (Hn eq_refl). simpl. exact IH.
  - rewrite Hr by discriminate. simpl. f_equal. exact IH.
Qed.

(** X20: when the inventory tool succeeds it returns one analysis per
    warehouse, in the order of the input, with the id, the name and the
    stock of that warehouse; the status is ['needs_restock'] exactly when
    some product of the warehouse is below 50 units (and then
    [low_stock_items] lists those products in stock order), otherwise
    ['normal'] without a [low_stock_items] key; [total_warehouses_analyzed]
    is the number of warehouses and [warehouses_needing_restock] the number
    of those with a product below 50, so never more than the total. *)
Theorem inventory_analysis_reports_each_warehouse
    (warehouses : list WarehouseDict.t) demand_history analyses recs total needing :
  InventoryAnalysisTool._run warehouses demand_history
  = InventoryAnalysisTool.Success analyses recs total needing ->
  total = length warehouses /\
  length analyses = length warehouses /\
  needing
  = length (List.filter
              (fun w => match low_stock (stock_seen w) with
                        | [] => false
                        | _ :: _ => true
                        end) warehouses) /\
  (needing <= total)%nat /\
  Forall2
    (fun w a =>
       WarehouseDict.id w = Some (WarehouseAnalysis.warehouse_id a) /\
       WarehouseDict.name w = Some (WarehouseAnalysis.name a) /\
       WarehouseAnalysis.current_stock a = stock_seen w /\
       (WarehouseAnalysis.status a = "needs_restock" <->
        exists product quantity,
          In (product, quantity) (stock_seen w) /\ (quantity < 50)%Z) /\
       (WarehouseAnalysis.status a = "normal" <->
        forall product quantity,
          In (product, quantity) (stock_seen w) -> (50 <= quantity)%Z) /\
       WarehouseAnalysis.low_stock_items a
       = match low_stock (stock_seen w) with
         | [] => None
         | _ :: _ => Some (map fst (low_stock (stock_seen w)))
         end)
    warehouses analyses.
Proof.
  unfold InventoryAnalysisTool._run.
  destruct (analyze_cases warehouses [] [])
    as [(Hall & analyses' & new_recs & Hrun & HF & Hrecs)
       |(pre & w & post & Hsplit & Hpre & [[_ E]|(_ & _ & E)])];
    [|rewrite E; discriminate | rewrite E; discriminate].
  rewrite Hrun. simpl. intros E. inversion E; subst. clear E.
  assert (length (List.filter
                    (fun a => String.eqb (WarehouseAnalysis.status a) "needs_restock")
                    analyses)
          = length (List.filter
                      (fun w => match low_stock (stock_seen w) with
                                | [] => false
                                | _ :: _ => true
                                end) warehouses)) as Hcount.
  { apply needing_count. eapply Forall2_impl; [exact HF|].
    intros w a (_ & _ & _ & Hn & Hr). split; [apply Hn | apply Hr]. }
  split; [reflexivity|].
  split; [symmetry; exact (Forall2_length _ _ _ HF)|].
  split; [exact Hcount|].
  split; [rewrite Hcount; apply filter_length_le|].
  eapply Forall2_impl; [exact HF|].
  intros w a (Hid & Hname & Hstock & Hn & Hr).
  split; [exact Hid|]. split; [exact Hname|]. split; [exact Hstock|].
  destruct (low_stock (stock_seen w)) as [|item l] eqn:El.
  - destruct (Hn eq_refl) as [Hs Hl]. rewrite Hs, Hl.
    assert (~ exists product quantity,
                In (product, quantity) (stock_seen w) /\ (quantity < 50)%Z) as Hno.
    { intros Hex. apply low_stock_nonempty in Hex. congruence. }
    split; [split; [discriminate | intros Hex; destruct (Hno Hex)]|].
    split; [|reflexivity].
    split; [|reflexivity].
    intros _ p q Hin. destruct (Z.lt_ge_cases q 50) as [Hlt|Hge]; [|exact Hge].
    destruct Hno. eauto.
  - destruct Hr as [Hs Hl]; [discriminate|]. rewrite Hs, Hl.
    assert (exists product quantity,
              In (product, quantity) (stock_seen w) /\ (quantity < 50)%Z) as Hex.
    { apply low_stock_nonempty. rewrite El. discriminate. }
    split; [split; [intros _; exact Hex | reflexivity]|].
    split; [|reflexivity].
    split; [discriminate|].
    intros Hall'. destruct Hex as (p & q & Hin & Hq).
    specialize (Hall' p q Hin). lia.
Qed.

Lemma inventory_analysis_reports_each_warehouse_witness :
  exists analyses recs,
    InventoryAnalysisTool._run
      [WarehouseDict.mk (Some 1%Z) (Some "Dallas DC")
         (Some [("milk", 15%Z); ("bread", 420%Z)]);
       WarehouseDict.mk (Some 2%Z) (Some "Houston DC") None] ∅
    = InventoryAnalysisTool.Success analyses recs 2 1 /\
    length analyses = 2%nat.
Proof.
  do 2 eexists. split; [vm_compute; reflexivity|].
  apply (proj1 (proj2 (inventory_analysis_reports_each_warehouse
                         [WarehouseDict.mk (Some 1%Z) (Some "Dallas DC")
                            (Some [("milk", 15%Z); ("bread", 420%Z)]);
                          WarehouseDict.mk (Some 2%Z) (Some "Houston DC") None] ∅
                         _ _ 2 1 eq_refl))).
Defined.

(** X21: the restock recommendations of a successful analysis are, warehouse
    by warehouse and product by product in input order, exactly the products
    below 50 units: each recommendation names its warehouse and product,
    repeats the current stock (below 50), recommends 200 units, and has
    priority ['high'] when the stock is below 20 and ['medium'] otherwise;
    no product with 50 units or more is recommended. *)
Theorem inventory_recommendations_are_the_low_stock
    (warehouses : list WarehouseDict.t) demand_history analyses recs total needing :
  InventoryAnalysisTool._run warehouses demand_history
  = InventoryAnalysisTool.Success analyses recs total needing ->
  recs
  = flat_map
      (fun w =>
         match WarehouseDict.name w with
         | Some name =>
             map (fun item =>
                    RestockRecommendation.mk name (fst item) (snd item) 200
                      (if (snd item <? 20)%Z then "high" else "medium"))
                 (low_stock (stock_seen w))
         | None => []
         end) warehouses /\
  (forall r, In r recs ->
     (RestockRecommendation.current_stock r < 50)%Z /\
     RestockRecommendation.recommended_restock r = 200%Z /\
     ((RestockRecommendation.current_stock r < 20)%Z /\
      RestockRecommendation.priority r = "high" \/
      (20 <= RestockRecommendation.current_stock r)%Z /\
      RestockRecommendation.priority r = "medium") /\
     exists w,
       In w warehouses /\
       WarehouseDict.name w = Some (RestockRecommendation.warehouse r) /\
       In (RestockRecommendation.product r, RestockRecommendation.current_stock r)
          (stock_seen w)) /\
  (forall w name product quantity,
     In w warehouses -> WarehouseDict.name w = Some name ->
     In (product, quantity) (stock_seen w) -> (quantity < 50)%Z ->
     In (RestockRecommendation.mk name product quantity 200
           (if (quantity <? 20)%Z then "high" else "medium")) recs).
Proof.
  unfold InventoryAnalysisTool._run.
  destruct (analyze_cases warehouses [] [])
    as [(Hall & analyses' & new_recs & Hrun & HF & Hrecs)
       |(pre & w & post & Hsplit & Hpre & [[_ E]|(_ & _ & E)])];
    [|rewrite E; discriminate | rewrite E; discriminate].
  rewrite Hrun. simpl. intros E. inversion E; subst. clear E.
  split; [reflexivity|]. split.
  - intros r Hin. apply in_flat_map in Hin as (w & Hw & Hin).
    destruct (WarehouseDict.name w) as [name|] eqn:Hname; [|destruct Hin].
    apply in_map_iff in Hin as ([p q] & <- & Hin).
    apply filter_In in Hin as [Hin Hq]. simpl in *.
    split; [lia|]. split; [reflexivity|]. split.
    + destruct (q <? 20)%Z eqn:E20; [left | right]; split; try reflexivity; lia.
    + exists w. auto.
  - intros w name p q Hw Hname Hin Hq.
    apply in_flat_map. exists w. split; [exact Hw|]. rewrite Hname.
    apply in_map_iff. exists (p, q). split; [reflexivity|].
    apply filter_In. split; [exact Hin|]. simpl. lia.
Qed.

Lemma inventory_recommendations_are_the_low_stock_witness :
  exists analyses recs,
    InventoryAnalysisTool._run
      [WarehouseDict.mk (Some 1%Z) (Some "Dallas DC")
         (Some [("milk", 15%Z); ("bread", 420%Z); ("juice", 30%Z)])] ∅
    = InventoryAnalysisTool.Success analyses recs 1 1 /\
    recs = [RestockRecommendation.mk "Dallas DC" "milk" 15 200 "high";
            RestockRecommendation.mk "Dallas DC" "juice" 30 200 "medium"].
Proof.
  do 2 eexists. split; [vm_compute; reflexivity|].
  apply (proj1 (inventory_recommendations_are_the_low_stock
                  [WarehouseDict.mk (Some 1%Z) (Some "Dallas DC")
                     (Some [("milk", 15%Z); ("bread", 420%Z); ("juice", 30%Z)])] ∅
                  _ _ 1 1 eq_refl)).
Defined.

(** ** More on the demand forecaster *)

Lemma py_round_comp x y : x == y -> py_round x = py_round y.
Proof.
  intros E. unfold py_round. rewrite (Qfloor_comp x y E).
  assert (x - inject_Z (Qfloor y) == y - inject_Z (Qfloor y)) as E' by lra.
  rewrite (Qcompare_comp _ _ E' (1 # 2) (1 # 2) (Qeq_refl _)). reflexivity.
Qed.

Lemma total_predicted_demand_fold (forecasts : gmap string forecast) product f :
  forecasts !! product = None ->
  map_fold (fun _ f acc => (acc + predicted_demand f)%Z) 0%Z (<[product := f]> forecasts)
  = (map_fold (fun _ f acc => (acc + predicted_demand f)%Z) 0%Z forecasts
     + predicted_demand f)%Z.
Proof.
  intros Hnone.
  apply (map_fold_insert_L (fun _ f acc => (acc + predicted_demand f)%Z));
    [|exact Hnone].
  intros. lia.
Qed.

(** X22: the forecast has an entry for exactly the products of the
    historical data; the total predicted demand is 0 for no product and
    grows by the prediction of a product when that product is added, so it
    is the sum of the predictions whatever the order of the products. *)
Theorem forecast_total_is_the_sum_of_predictions
    (historical_data : gmap string (list Z)) (region : string) (time_horizon : Z)
    (product : string) (history : list Z) :
  dom (forecasts (_run historical_data region time_horizon)) = dom historical_data /\
  total_predicted_demand (_run ∅ region time_horizon) = 0%Z /\
  (historical_data !! product = None ->
   total_predicted_demand
     (_run (<[product := history]> historical_data) region time_horizon)
   = (total_predicted_demand (_run historical_data region time_horizon)
      + predicted_demand (forecast_one history))%Z).
Proof.
  split; [simpl; apply dom_fmap_L|]. split; [reflexivity|].
  intros Hnone. simpl. rewrite fmap_insert.
  apply total_predicted_demand_fold. rewrite lookup_fmap, Hnone. reflexivity.
Qed.

Lemma forecast_total_is_the_sum_of_predictions_witness :
  total_predicted_demand
    (_run (<["milk" := [200; 220; 240]%Z]> (<["cereal" := [50]%Z]> ∅)) "Dallas" 7)
  = (total_predicted_demand (_run (<["cereal" := [50]%Z]> ∅) "Dallas" 7)
     + predicted_demand (forecast_one [200; 220; 240]%Z))%Z.
Proof.
  apply (proj2 (proj2 (forecast_total_is_the_sum_of_predictions
                         (<["cereal" := [50]%Z]> ∅) "Dallas" 7 "milk"
                         [200; 220; 240]%Z))).
  reflexivity.
Defined.

(** X23: with three observations or more, the forecast depends on the last
    three only: whatever came before them does not matter. *)
Theorem forecast_uses_only_the_last_three (history : list Z) :
  (3 <= length history)%nat ->
  forecast_one history = forecast_one (drop (length history - 3) history).
Proof.
  intros Hlen. destruct (last_three history Hlen) as (pre & a & b & c & ->).
  rewrite length_app. simpl length.
  replace (length pre + 3 - 3)%nat with (length pre) by lia.
  rewrite drop_app_length.
  rewrite forecast_one_three.
  change (forecast_one [a; b; c]) with (forecast_one ([] ++ [a; b; c])).
  rewrite (forecast_one_three [] a b c). reflexivity.
Qed.

Lemma forecast_uses_only_the_last_three_witness :
  forecast_one [1; 999; 120; 140; 160]%Z = forecast_one [120; 140; 160]%Z.
Proof.
  apply (forecast_uses_only_the_last_three [1; 999; 120; 140; 160]%Z).
  simpl. lia.
Defined.

(** X24: when the last three observations are evenly spaced, [a], [a + d],
    [a + 2d], the forecast is the most recent observation itself (0 when
    that is negative), not the next value of the progression; the label is
    ['increasing'], ['decreasing'] or ['stable'] with the sign of [d]. *)
Theorem forecast_of_evenly_spaced_history (pre : list Z) (a d : Z) :
  predicted_demand (forecast_one (pre ++ [a; a + d; a + 2 * d]%Z))
    = Z.max 0 (a + 2 * d) /\
  confidence (forecast_one (pre ++ [a; a + d; a + 2 * d]%Z)) = 0.85 /\
  ((0 < d)%Z -> trend (forecast_one (pre ++ [a; a + d; a + 2 * d]%Z)) = "increasing") /\
  ((d < 0)%Z -> trend (forecast_one (pre ++ [a; a + d; a + 2 * d]%Z)) = "decreasing") /\
  (d = 0%Z -> trend (forecast_one (pre ++ [a; a + d; a + 2 * d]%Z)) = "stable").
Proof.
  rewrite forecast_one_three. cbn [predicted_demand confidence trend].
  replace (a + (a + d) + (a + 2 * d))%Z with (3 * (a + d))%Z by lia.
  replace (a + 2 * d - a)%Z with (2 * d)%Z by lia.
  assert (inject_Z (2 * d) / 2 == inject_Z d) as Htrend.
  { rewrite inject_Z_mult. change (inject_Z 2) with 2. field. }
  assert (inject_Z (3 * (a + d)) / 3 + inject_Z (2 * d) / 2 == inject_Z (a + 2 * d))
    as Hsum.
  { rewrite Htrend. rewrite inject_Z_mult. change (inject_Z 3) with 3.
    replace (a + 2 * d)%Z with ((a + d) + d)%Z by lia.
    rewrite (inject_Z_plus (a + d) d). field. }
  split.
  - unfold py_max. case_py_lt.
    + rewrite (py_round_comp _ _ Hsum), py_round_Z.
      rewrite Hsum in E. change 0 with (inject_Z 0) in E.
      rewrite <- Zlt_Qlt in E. lia.
    + change 0 with (inject_Z 0) at 1. rewrite py_round_Z.
      rewrite Hsum in E. change 0 with (inject_Z 0) in E.
      rewrite <- Zle_Qle in E. lia.
  - split; [reflexivity|].
    assert (forall z : Z, py_lt 0 (inject_Z (2 * z) / 2) = true <-> (0 < z)%Z) as Hpos.
    { intros z. rewrite py_lt_true.
      assert (inject_Z (2 * z) / 2 == inject_Z z) as ->
        by (rewrite inject_Z_mult; change (inject_Z 2) with 2; field).
      change 0 with (inject_Z 0). rewrite <- Zlt_Qlt. reflexivity. }
    assert (forall z : Z, py_lt (inject_Z (2 * z) / 2) 0 = true <-> (z < 0)%Z) as Hneg.
    { intros z. rewrite py_lt_true.
      assert (inject_Z (2 * z) / 2 == inject_Z z) as ->
        by (rewrite inject_Z_mult; change (inject_Z 2) with 2; field).
      change 0 with (inject_Z 0). rewrite <- Zlt_Qlt. reflexivity. }
    destruct (py_lt 0 (inject_Z (2 * d) / 2)) eqn:E1;
      destruct (py_lt (inject_Z (2 * d) / 2) 0) eqn:E2;
      try (apply Hpos in E1); try (apply Hneg in E2);
      repeat split; intros Hd; try reflexivity; try lia;
      first [apply Hpos in Hd | apply Hneg in Hd]; congruence.
Qed.

(** The seeded histories are evenly spaced: each forecast repeats the last
    observation. *)
Example forecast_repeats_last_observation :
  predicted_demand (forecast_one [200; 220; 240; 260; 280]%Z) = 280%Z /\
  predicted_demand (forecast_one [70; 75; 80; 85; 90]%Z) = 90%Z.
Proof. split; reflexivity. Qed.

(** ** More on the route planner *)





Example estimated_time_of_140_miles :
  RouteOptimizationTool.estimated_time_of 140 = "3h 6m".
Proof. vm_compute. reflexivity. Qed.

Section PlannerEdges.
Context `{Runtime}.

Lemma add_pickups_same_stop ws ws' acc :
  Forall2 same_stop ws ws' ->
  RouteOptimizationTool.add_pickups ws acc = RouteOptimizationTool.add_pickups ws' acc.
Proof.
  intros HF. revert acc.
  induction HF as [|w w' ws ws' (Hlat & Hlng & Hname & _) _ IH]; intros acc;
    [reflexivity|].
  simpl. unfold getitem. rewrite Hlat, Hlng, Hname.
  destruct (w' !! "lat"); [|reflexivity].
  destruct (w' !! "lng"); [|reflexivity].
  destruct (w' !! "name"); [|reflexivity].
  simpl. apply IH.
Qed.

Lemma add_deliveries_same_stop ds ds' acc :
  Forall2 same_stop ds ds' ->
  RouteOptimizationTool.add_deliveries ds acc
  = RouteOptimizationTool.add_deliveries ds' acc.
Proof.
  intros HF. revert acc.
  induction HF as [|w w' ds ds' (Hlat & Hlng & Hname & Hq) _ IH]; intros acc;
    [reflexivity|].
  simpl. unfold getitem, RouteOptimizationTool.quantity_of.
  rewrite Hlat, Hlng, Hname, Hq.
  destruct (w' !! "lat"); [|reflexivity].
  destruct (w' !! "lng"); [|reflexivity].
  destruct (w' !! "name"); [|reflexivity].
  simpl. apply IH.
Qed.
End PlannerEdges.

(** X26: the planner looks at four keys of an entry only ([lat], [lng],
    [name], and [quantity] of a delivery) and never at the truck capacity:
    inputs that agree on these keys, entry by entry, give the same result,
    whatever else the entries hold (a [priority], an [inventory]) and
    whatever capacity is passed. *)
Theorem planner_ignores_other_keys_and_capacity `{Runtime}
    now (warehouses warehouses' deliveries deliveries' : list dict)
    (truck_capacity truck_capacity' : Z) :
  Forall2 same_stop warehouses warehouses' ->
  Forall2 same_stop deliveries deliveries' ->
  RouteOptimizationTool._run now warehouses deliveries truck_capacity
  = RouteOptimizationTool._run now warehouses' deliveries' truck_capacity'.
Proof.
  intros HW HD.
  unfold RouteOptimizationTool._run, RouteOptimizationTool.plan.
  rewrite (add_pickups_same_stop warehouses warehouses' [] HW).
  destruct (RouteOptimizationTool.add_pickups warehouses' []) as [e|wps1];
    [reflexivity|].
  simpl. rewrite (add_deliveries_same_stop deliveries deliveries' wps1 HD).
  rewrite (Forall2_length _ _ _ HD). reflexivity.
Qed.

Lemma planner_ignores_other_keys_and_capacity_witness :
  @RouteOptimizationTool._run grid_runtime 0
     [stop "Dallas DC" 0 0]
     [<["priority" := PStr "high"]> (stop "Plano Store" 2 0)] 100
  = @RouteOptimizationTool._run grid_runtime 0
      [stop "Dallas DC" 0 0] [stop "Plano Store" 2 0] 5.
Proof.
  apply (@planner_ignores_other_keys_and_capacity grid_runtime 0).
  - repeat constructor.
  - repeat constructor.
Defined.

(** X27: a route with at most one stop needs no distance: when the entries
    have their keys the planner succeeds without asking geopy for any leg,
    with distance 0 and efficiency 99, and this for no stop at all. *)
Theorem planner_short_routes_have_no_distance `{Runtime}
    now (warehouses deliveries : list dict) (truck_capacity : Z) :
  (length warehouses + length deliveries <= 1)%nat ->
  (forall entry, In entry (warehouses ++ deliveries) -> has_keys entry) ->
  exists route recs,
    RouteOptimizationTool._run now warehouses deliveries truck_capacity
    = RouteOptimizationTool.Success route recs /\
    OptimizedRoute.distance route = 0 /\
    OptimizedRoute.efficiency route = 99 /\
    length (OptimizedRoute.waypoints route)
    = (length warehouses + length deliveries)%nat.
Proof.
  intros Hlen Hkeys.
  unfold RouteOptimizationTool._run, RouteOptimizationTool.plan.
  destruct warehouses as [|w [|w2 ws]], deliveries as [|d [|d2 ds]];
    simpl in Hlen; try lia.
  - simpl. do 2 eexists. repeat split.
  - destruct (Hkeys d (or_introl eq_refl)) as ([lat Hlat] & [lng Hlng] & [name Hname]).
    simpl. unfold getitem. rewrite Hlat, Hlng, Hname. simpl.
    do 2 eexists. repeat split.
  - destruct (Hkeys w (or_introl eq_refl)) as ([lat Hlat] & [lng Hlng] & [name Hname]).
    simpl. unfold getitem. rewrite Hlat, Hlng, Hname. simpl.
    do 2 eexists. repeat split.
Qed.

Lemma planner_short_routes_have_no_distance_witness :
  exists route recs,
    @RouteOptimizationTool._run
       {| geodesic_miles := fun _ _ => inl "unreachable";
          str_num := show_fraction; fmt_1f := show_fraction |}
       0 [stop "Dallas DC" 0 0] [] 100
    = RouteOptimizationTool.Success route recs /\
    OptimizedRoute.distance route = 0.
Proof.
  destruct (@planner_short_routes_have_no_distance
              {| geodesic_miles := fun _ _ => inl "unreachable";
                 str_num := show_fraction; fmt_1f := show_fraction |}
              0 [stop "Dallas DC" 0 0] [] 100)
    as (route & recs & Hrun & Hd & _).
  - simpl. lia.
  - intros entry [<-|[]]. repeat split; eexists; vm_compute; reflexivity.
  - exists route, recs. split; assumption.
Defined.

(** ** The metrics endpoint *)

Lemma metrics_answer round1 srv m :
  MetricsEndpoint.get_performance_metrics round1 srv = MetricsEndpoint.JSONResponse m
  <-> exists sys,
        Server.supply_chain_system srv = Some sys /\
        WalmartSupplyChainCrew.trucks sys <> [] /\
        MetricsEndpoint.sum_Z
          (map Warehouse.capacity (WalmartSupplyChainCrew.warehouses sys)) <> 0%Z /\
        m = dashboard round1 sys.
Proof.
  unfold MetricsEndpoint.get_performance_metrics, dashboard. split.
  - destruct (Server.supply_chain_system srv) as [sys|]; [|discriminate].
    cbv zeta.
    destruct (Nat.eqb_spec (length (WalmartSupplyChainCrew.trucks sys)) 0)
      as [|Hlen]; [discriminate|].
    destruct (Z.eqb_spec
                (MetricsEndpoint.sum_Z
                   (map Warehouse.capacity (WalmartSupplyChainCrew.warehouses sys))) 0)
      as [|Hcap]; [discriminate|].
    intros E. inversion E. exists sys. repeat split; try assumption.
    intros Hnil. rewrite Hnil in Hlen. apply Hlen. reflexivity.
  - intros (sys & -> & Hne & Hcap & ->). cbv zeta.
    destruct (Nat.eqb_spec (length (WalmartSupplyChainCrew.trucks sys)) 0)
      as [Hlen|_].
    { destruct (WalmartSupplyChainCrew.trucks sys); [congruence|discriminate]. }
    destruct (Z.eqb_spec
                (MetricsEndpoint.sum_Z
                   (map Warehouse.capacity (WalmartSupplyChainCrew.warehouses sys))) 0)
      as [|_]; [congruence|].
    reflexivity.
Qed.

Lemma reachable_warehouses_and_fleet_size srv sys :
  Server.reachable srv -> Server.supply_chain_system srv = Some sys ->
  WalmartSupplyChainCrew.warehouses sys = WalmartSupplyChainCrew._initialize_warehouses /\
  PerformanceMetrics.total_distance_saved
    (WalmartSupplyChainCrew.performance_metrics sys) = 0 /\
  length (WalmartSupplyChainCrew.trucks sys) = 4%nat.
Proof.
  intros Hreach. revert sys.
  apply (reachable_system_ind
           (fun sys =>
              WalmartSupplyChainCrew.warehouses sys
                = WalmartSupplyChainCrew._initialize_warehouses /\
              PerformanceMetrics.total_distance_saved
                (WalmartSupplyChainCrew.performance_metrics sys) = 0 /\
              length (WalmartSupplyChainCrew.trucks sys) = 4%nat));
    [| | | | |exact Hreach].
  - repeat split.
  - intros sys origin reqs crew (H1 & H2 & H3).
    destruct (optimize_route_cases sys origin reqs crew)
      as [[-> _]|(w & r & _ & _ & ->)]; [auto|].
    simpl. auto.
  - intros sys i x (H1 & H2 & H3) _ _. simpl. rewrite length_insert. auto.
  - intros sys route pr (H1 & H2 & H3). simpl.
    destruct (dispatch_run_cases (WalmartSupplyChainCrew.trucks sys) route pr)
      as [[_ ->]|(i & best & _ & _ & _ & ->)]; [auto|].
    simpl. rewrite length_insert. auto.
  - intros rng sf srv0 sys sys' (H1 & H2 & H3) Hsys Hne Hsys'.
    rewrite (tick_subscribed rng sf srv0 sys Hsys Hne) in Hsys'.
    inversion Hsys'; subst. simpl. repeat split; try assumption.
    rewrite <- H3, <- (length_map identity_of), update_trucks_identity.
    apply length_map.
Qed.

Lemma active_length_le trucks :
  (length (MetricsEndpoint.active trucks) <= length trucks)%nat.
Proof. apply List.filter_length_le. Qed.

(** X28: the metrics endpoint fails with status 500 (never with the 503 it
    raises itself, which its own handler catches) when the system is not
    initialized; in every state that the running server can reach with a
    system it answers, with the stock of initialization (9510 units for a
    capacity of 6900, a utilization above 100 percent), no distance saved,
    and at most four active routes. *)
Theorem metrics_endpoint_answers_once_started (round1 : Q -> Q) (srv : Server.t) :
  Server.reachable srv ->
  (Server.supply_chain_system srv = None ->
   MetricsEndpoint.get_performance_metrics round1 srv
   = MetricsEndpoint.HTTPException 500 MetricsEndpoint.NotInitialized) /\
  (Server.supply_chain_system srv <> None ->
   exists m,
     MetricsEndpoint.get_performance_metrics round1 srv
     = MetricsEndpoint.JSONResponse m /\
     MetricsEndpoint.total_inventory m = 9510%Z /\
     MetricsEndpoint.warehouse_utilization m
     = round1 (inject_Z 9510 / inject_Z 6900 * 100) /\
     100 < inject_Z 9510 / inject_Z 6900 * 100 /\
     MetricsEndpoint.total_distance m = 0 /\
     (MetricsEndpoint.active_routes m <= 4)%nat).
Proof.
  intros Hreach. split.
  - intros Hnone. unfold MetricsEndpoint.get_performance_metrics.
    rewrite Hnone. reflexivity.
  - intros Hsome.
    destruct (Server.supply_chain_system srv) as [sys|] eqn:Hsys; [|congruence].
    destruct (reachable_warehouses_and_fleet_size srv sys Hreach Hsys)
      as (Hw & Hd & Hlen).
    exists (dashboard round1 sys). split.
    + apply metrics_answer. exists sys. split; [exact Hsys|]. repeat split.
      * intros Hnil. rewrite Hnil in Hlen. discriminate.
      * rewrite Hw. vm_compute. discriminate.
    + unfold dashboard. cbv zeta. simpl. rewrite Hw, Hd.
      repeat split.
      rewrite <- Hlen. apply active_length_le.
Qed.

Lemma metrics_endpoint_answers_once_started_witness :
  exists m,
    MetricsEndpoint.get_performance_metrics (fun x => x)
      (Server.mk (Some WalmartSupplyChainCrew.__init__) [1%nat])
    = MetricsEndpoint.JSONResponse m /\
    MetricsEndpoint.total_inventory m = 9510%Z.
Proof.
  destruct (proj2 (metrics_endpoint_answers_once_started (fun x => x)
                     (Server.mk (Some WalmartSupplyChainCrew.__init__) [1%nat])
                     reachable_started_with_subscriber))
    as (m & Hm & Hinv & _).
  - discriminate.
  - exists m. split; assumption.
Defined.

Lemma insert_keeps_field {A} (f : Truck.t -> A) (trucks : list Truck.t) i x x' :
  trucks !! i = Some x -> f x' = f x ->
  map f (<[i := x']> trucks) = map f trucks.
Proof.
  intros Hl Hf. rewrite list_fmap_insert, Hf.
  apply list_insert_id. rewrite list_lookup_fmap, Hl. reflexivity.
Qed.

Lemma active_insert_dispatched (trucks : list Truck.t) i x :
  trucks !! i = Some x -> Truck.status x = "idle" ->
  length (MetricsEndpoint.active (<[i := Truck.set_status "en-route" x]> trucks))
  = S (length (MetricsEndpoint.active trucks)).
Proof.
  revert i. induction trucks as [|y rest IH]; intros i Hl Hidle; [discriminate|].
  destruct i as [|i]; simpl in Hl.
  - inversion Hl; subst y. simpl. unfold is_idle. rewrite Hidle. reflexivity.
  - simpl. destruct (negb (is_idle y)); simpl; rewrite (IH i Hl Hidle); reflexivity.
Qed.

Lemma active_same_status (trucks trucks' : list Truck.t) :
  Forall2 (fun x x' => Truck.status x' = Truck.status x /\
                       Truck.route x' = Truck.route x) trucks trucks' ->
  length (MetricsEndpoint.active trucks') = length (MetricsEndpoint.active trucks).
Proof.
  induction 1 as [|x x' l l' [Hs _] _ IH]; [reflexivity|].
  simpl. unfold is_idle. rewrite Hs.
  destruct (negb (Truck.status x =? "idle")%string); simpl; rewrite IH; reflexivity.
Qed.

Lemma sum_Q_from (l : list Q) (acc : Q) :
  fold_left Qplus l acc == acc + MetricsEndpoint.sum_Q l.
Proof.
  unfold MetricsEndpoint.sum_Q. revert acc.
  induction l as [|x l IH]; intros acc; simpl; [lra|].
  rewrite (IH (acc + x)), (IH (0 + x)). lra.
Qed.

Lemma sum_Q_monotone {A} (f : A -> Q) (l l' : list A) :
  Forall2 (fun x x' => f x <= f x') l l' ->
  MetricsEndpoint.sum_Q (map f l) <= MetricsEndpoint.sum_Q (map f l').
Proof.
  induction 1 as [|x x' l l' Hx _ IH]; [apply Qle_refl|].
  unfold MetricsEndpoint.sum_Q. simpl.
  rewrite (sum_Q_from (map f l) (0 + f x)), (sum_Q_from (map f l') (0 + f x')).
  lra.
Qed.

(** X29: the active routes of the dashboard count the trucks that are not
    idle, not the global counter: a call of [optimize_route], which adds 1
    to that counter, leaves the answer of the metrics endpoint as it is,
    and an accepted [dispatch_truck], which leaves the counter alone, adds
    1 to the active routes of the answer and changes neither the savings,
    the efficiency nor the inventory figures. *)
Theorem dashboard_counts_trucks_not_the_counter (round1 : Q -> Q)
    (srv : Server.t) (sys : WalmartSupplyChainCrew.t) :
  Server.supply_chain_system srv = Some sys ->
  (forall origin_warehouse_id destination_requests crew_result,
     MetricsEndpoint.get_performance_metrics round1
       (Server.mk
          (Some (fst (WalmartSupplyChainCrew.optimize_route sys origin_warehouse_id
                        destination_requests crew_result)))
          (Server.active_connections srv))
     = MetricsEndpoint.get_performance_metrics round1 srv) /\
  (forall send_fails truck_id route_id priority status m,
     snd (fst (Server.dispatch_truck send_fails truck_id route_id priority srv))
     = Server.JSONResponse truck_id status ->
     MetricsEndpoint.get_performance_metrics round1 srv
     = MetricsEndpoint.JSONResponse m ->
     exists m',
       MetricsEndpoint.get_performance_metrics round1
         (fst (fst (Server.dispatch_truck send_fails truck_id route_id priority srv)))
       = MetricsEndpoint.JSONResponse m' /\
       MetricsEndpoint.active_routes m' = S (MetricsEndpoint.active_routes m) /\
       MetricsEndpoint.fuel_saved m' = MetricsEndpoint.fuel_saved m /\
       MetricsEndpoint.co2_reduced m' = MetricsEndpoint.co2_reduced m /\
       MetricsEndpoint.efficiency m' = MetricsEndpoint.efficiency m /\
       MetricsEndpoint.total_distance m' = MetricsEndpoint.total_distance m /\
       MetricsEndpoint.total_inventory m' = MetricsEndpoint.total_inventory m /\
       MetricsEndpoint.warehouse_utilization m'
       = MetricsEndpoint.warehouse_utilization m).
Proof.
  intros Hsys. split.
  - intros origin reqs crew.
    destruct (optimize_route_cases sys origin reqs crew)
      as [[-> _]|(w & r & _ & _ & ->)];
      unfold MetricsEndpoint.get_performance_metrics; rewrite Hsys; reflexivity.
  - intros sf tid rid pr status m Hans Hm.
    destruct (dispatch_truck_cases sf tid rid pr srv)
      as [[_ (code & detail & Hex)]
         |(sys0 & i & truck & Hsys0 & Hl & _ & Hidle & Hnew & _)];
      [congruence|].
    rewrite Hsys in Hsys0. inversion Hsys0; subst sys0.
    apply metrics_answer in Hm. destruct Hm as (sys1 & Hsys1 & Hne & Hcap & ->).
    rewrite Hsys in Hsys1. inversion Hsys1; subst sys1.
    set (trucks' := <[i := Truck.set_status "en-route" truck]>
                      (WalmartSupplyChainCrew.trucks sys)) in *.
    exists (dashboard round1 (Server.with_trucks trucks' sys)). split.
    + apply metrics_answer. exists (Server.with_trucks trucks' sys).
      repeat split; [exact Hnew| |exact Hcap].
      simpl. intros Hnil. apply (f_equal (@length _)) in Hnil.
      unfold trucks' in Hnil. rewrite length_insert in Hnil.
      destruct (WalmartSupplyChainCrew.trucks sys); [congruence|discriminate].
    + unfold dashboard. cbv zeta. simpl. unfold trucks'.
      rewrite (active_insert_dispatched _ i truck Hl Hidle).
      rewrite !(insert_keeps_field _ _ i truck _ Hl) by reflexivity.
      rewrite length_insert. repeat split.
Qed.

Lemma dashboard_counts_trucks_not_the_counter_witness :
  MetricsEndpoint.get_performance_metrics (fun x => x)
    (Server.mk
       (Some (fst (WalmartSupplyChainCrew.optimize_route
                     WalmartSupplyChainCrew.__init__ 1 [] (Some "done"))))
       [])
  = MetricsEndpoint.get_performance_metrics (fun x => x)
      (Server.mk (Some WalmartSupplyChainCrew.__init__) []).
Proof.
  apply (proj1 (dashboard_counts_trucks_not_the_counter (fun x => x)
                  (Server.mk (Some WalmartSupplyChainCrew.__init__) [])
                  WalmartSupplyChainCrew.__init__ eq_refl)).
Defined.

(** X30: across a telemetry tick whose random values are not negative, the
    fuel and CO2 savings that the metrics endpoint reports never decrease,
    and every other figure of its answer (efficiency, active routes,
    inventory, utilizations, distance) stays as it was; an endpoint that
    answered before the tick answers after it. *)
Theorem dashboard_across_a_tick (round1 : Q -> Q) rng send_fails (srv : Server.t) m :
  (forall n, 0 <= Server.stream rng n) ->
  MetricsEndpoint.get_performance_metrics round1 srv = MetricsEndpoint.JSONResponse m ->
  exists m',
    MetricsEndpoint.get_performance_metrics round1
      (fst (fst (Server.tick rng send_fails srv)))
    = MetricsEndpoint.JSONResponse m' /\
    MetricsEndpoint.fuel_saved m <= MetricsEndpoint.fuel_saved m' /\
    MetricsEndpoint.co2_reduced m <= MetricsEndpoint.co2_reduced m' /\
    MetricsEndpoint.efficiency m' = MetricsEndpoint.efficiency m /\
    MetricsEndpoint.active_routes m' = MetricsEndpoint.active_routes m /\
    MetricsEndpoint.total_distance m' = MetricsEndpoint.total_distance m /\
    MetricsEndpoint.total_inventory m' = MetricsEndpoint.total_inventory m /\
    MetricsEndpoint.warehouse_utilization m' = MetricsEndpoint.warehouse_utilization m /\
    MetricsEndpoint.fleet_utilization m' = MetricsEndpoint.fleet_utilization m.
Proof.
  intros Hrng Hm.
  destruct (proj1 (metrics_answer round1 srv m) Hm) as (sys & Hsys & Hne & Hcap & ->).
  destruct (Server.active_connections srv) as [|c conns] eqn:Hconns.
  - exists (dashboard round1 sys).
    rewrite (tick_no_subscriber rng send_fails srv Hconns). simpl.
    split; [exact Hm|]. repeat split; apply Qle_refl.
  - assert (Server.active_connections srv <> []) as Hsub by (rewrite Hconns; discriminate).
    rewrite (tick_subscribed rng send_fails srv sys Hsys Hsub). cbn [fst].
    set (trucks' := fst (Server.update_trucks (WalmartSupplyChainCrew.trucks sys) rng)).
    set (sys' := WalmartSupplyChainCrew.mk _ trucks' _ _).
    assert (length trucks' = length (WalmartSupplyChainCrew.trucks sys)) as Hlen.
    { unfold trucks'.
      rewrite <- (length_map identity_of), update_trucks_identity. apply length_map. }
    destruct (update_trucks_frame (WalmartSupplyChainCrew.trucks sys) rng Hrng)
      as [Hframe _]. fold trucks' in Hframe.
    exists (dashboard round1 sys'). split.
    + apply metrics_answer. exists sys'. repeat split; [|exact Hcap].
      simpl. intros Hnil. rewrite Hnil in Hlen.
      destruct (WalmartSupplyChainCrew.trucks sys); [congruence|discriminate].
    + unfold dashboard. cbv zeta. simpl.
      rewrite (active_same_status _ trucks'
                 (update_trucks_status_route (WalmartSupplyChainCrew.trucks sys) rng)).
      rewrite Hlen.
      assert (map Truck.efficiency trucks'
              = map Truck.efficiency (WalmartSupplyChainCrew.trucks sys)) as ->.
      { pose proof (update_trucks_identity (WalmartSupplyChainCrew.trucks sys) rng) as Hid.
        fold trucks' in Hid.
        apply (f_equal (map (fun p => snd (fst (fst p))))) in Hid.
        rewrite !map_map in Hid. exact Hid. }
      repeat split.
      * apply sum_Q_monotone.
        eapply Forall2_impl; [exact Hframe|]. intros x x' (_ & Hf & _). exact Hf.
      * apply sum_Q_monotone.
        eapply Forall2_impl; [exact Hframe|]. intros x x' (_ & _ & Hc & _). exact Hc.
Qed.

Lemma dashboard_across_a_tick_witness :
  exists m',
    MetricsEndpoint.get_performance_metrics (fun x => x)
      (fst (fst (Server.tick (Server.mk_rng (fun _ => 1 # 2) 0) (fun _ => false)
                   (Server.mk (Some WalmartSupplyChainCrew.__init__) [1%nat]))))
    = MetricsEndpoint.JSONResponse m' /\
    MetricsEndpoint.active_routes m' = 0%nat.
Proof.
  destruct (dashboard_across_a_tick (fun x => x)
              (Server.mk_rng (fun _ => 1 # 2) 0) (fun _ => false)
              (Server.mk (Some WalmartSupplyChainCrew.__init__) [1%nat])
              (dashboard (fun x => x) WalmartSupplyChainCrew.__init__))
    as (m' & Hm' & _ & _ & _ & Hact & _).
  - intros n. simpl. lra.
  - vm_compute. reflexivity.
  - exists m'. split; [exact Hm'|exact Hact].
Defined.
